(** * duh: boot-dispatch and provisioning state engine

    A shallow embedding of the parts of [justinpopa/duh] that the
    specification's testable properties talk about:

    - [internal/httpserver/token.go]     ([signURL], [validateToken]);
    - [internal/catalog/catalog.go]      ([Entry.Hash]);
    - [internal/db/systems.go]           (the [systems] table operations);
    - the HTTP handlers [handleBootScript], [handleCallback] and
      [handleSystemStateAction];
    - package [safenet]                  ([isPrivateIP], [SafeDialContext]);
    - [internal/proxydhcp/proxydhcp.go]  ([handler]).

    Go strings and byte slices are byte sequences; they are modelled as
    [string] (a list of 8-bit [ascii]).  Go's [int64] values are [Z]. *)

From Stdlib Require Import ZArith List String Ascii Bool Lia Arith.
From Stdlib Require Import Permutation Sorted.
Import ListNotations.

Local Open Scope string_scope.
Local Open Scope Z_scope.

(** ** Byte strings *)

Definition byte_of (c : ascii) : Z := Z.of_N (N_of_ascii c).
Definition ascii_of (b : Z) : ascii := ascii_of_N (Z.to_N b).

Fixpoint bytes_of (s : string) : list Z :=
  match s with
  | EmptyString => []
  | String c r => byte_of c :: bytes_of r
  end.

Fixpoint string_of (l : list Z) : string :=
  match l with
  | [] => EmptyString
  | b :: r => String (ascii_of b) (string_of r)
  end.

Definition LF : string := String (ascii_of 10) EmptyString.
Definition CR : string := String (ascii_of 13) EmptyString.
Definition NUL : string := String (ascii_of 0) EmptyString.

(** ** crypto/sha256 (FIPS 180-4), on 32-bit words held in [Z] *)

Module sha256.

Definition mask32 : Z := 0xffffffff.
Definition w32 (x : Z) : Z := Z.land x mask32.
Definition add32 (a b : Z) : Z := w32 (a + b).
Definition not32 (x : Z) : Z := Z.lxor x mask32.
Definition rotr (n x : Z) : Z :=
  Z.lor (Z.shiftr x n) (w32 (Z.shiftl x (32 - n))).

(** The round constants are the first 32 bits of the fractional parts of
    the cube roots of the first 64 primes, and the initial hash value those
    of the square roots of the first 8 primes. *)
Definition primes : list Z :=
  [ 2; 3; 5; 7; 11; 13; 17; 19; 23; 29; 31; 37; 41; 43; 47; 53; 59; 61; 67; 71;
    73; 79; 83; 89; 97; 101; 103; 107; 109; 113; 127; 131; 137; 139; 149; 151;
    157; 163; 167; 173; 179; 181; 191; 193; 197; 199; 211; 223; 227; 229; 233;
    239; 241; 251; 257; 263; 269; 271; 277; 281; 283; 293; 307; 311 ].

Definition cbrt (n : Z) : Z :=
  fold_left (fun r i => let c := r + Z.shiftl 1 (Z.of_nat i) in
                        if c * c * c <=? n then c else r)
            (rev (seq 0 40)) 0.

Definition K : list Z :=
  Eval vm_compute in map (fun p => w32 (cbrt (Z.shiftl p 96))) primes.

Definition init : list Z :=
  Eval vm_compute in map (fun p => w32 (Z.sqrt (Z.shiftl p 64))) (firstn 8 primes).

(** Padding: a [0x80] byte, zeros up to 56 mod 64, then the bit length as
    a big-endian 64-bit integer. *)
Definition be_bytes (n : nat) (x : Z) : list Z :=
  map (fun i => Z.land (Z.shiftr x (8 * Z.of_nat i)) 0xff) (rev (seq 0 n)).

Definition pad (msg : list Z) : list Z :=
  let l := Z.of_nat (List.length msg) in
  let z := Z.to_nat ((55 - l) mod 64) in
  msg ++ 0x80 :: repeat 0 z ++ be_bytes 8 (8 * l).

Fixpoint be_words (fuel : nat) (bs : list Z) : list Z :=
  match fuel, bs with
  | S f, b0 :: b1 :: b2 :: b3 :: r =>
      Z.lor (Z.lor (Z.shiftl b0 24) (Z.shiftl b1 16))
            (Z.lor (Z.shiftl b2 8) b3) :: be_words f r
  | _, _ => []
  end.

(** The message schedule, kept most-recent-first: the head is [w[i-1]]. *)
Definition sigma0 (x : Z) : Z :=
  Z.lxor (Z.lxor (rotr 7 x) (rotr 18 x)) (Z.shiftr x 3).
Definition sigma1 (x : Z) : Z :=
  Z.lxor (Z.lxor (rotr 17 x) (rotr 19 x)) (Z.shiftr x 10).

Fixpoint extend (n : nat) (rw : list Z) : list Z :=
  match n with
  | O => rw
  | S n' =>
      let t1 := sigma1 (nth 1 rw 0) in
      let t2 := sigma0 (nth 14 rw 0) in
      let w := add32 (add32 (add32 t1 (nth 6 rw 0)) t2) (nth 15 rw 0) in
      extend n' (w :: rw)
  end.

Definition schedule (block : list Z) : list Z :=
  rev (extend 48 (rev (be_words 16 block))).

Record regs := Regs { ra : Z; rb : Z; rc : Z; rd : Z;
                      re : Z; rf : Z; rg : Z; rh : Z }.

Definition round (r : regs) (kw : Z * Z) : regs :=
  let '(k, w) := kw in
  let '(Regs a b c d e f g h) := r in
  let s1 := Z.lxor (Z.lxor (rotr 6 e) (rotr 11 e)) (rotr 25 e) in
  let ch := Z.lxor (Z.land e f) (Z.land (not32 e) g) in
  let t1 := add32 (add32 (add32 (add32 h s1) ch) k) w in
  let s0 := Z.lxor (Z.lxor (rotr 2 a) (rotr 13 a)) (rotr 22 a) in
  let maj := Z.lxor (Z.lxor (Z.land a b) (Z.land a c)) (Z.land b c) in
  let t2 := add32 s0 maj in
  Regs (add32 t1 t2) a b c (add32 d t1) e f g.

Definition block (h : list Z) (blk : list Z) : list Z :=
  let r0 := Regs (nth 0 h 0) (nth 1 h 0) (nth 2 h 0) (nth 3 h 0)
                 (nth 4 h 0) (nth 5 h 0) (nth 6 h 0) (nth 7 h 0) in
  let '(Regs a b c d e f g hh) :=
    fold_left round (combine K (schedule blk)) r0 in
  [ add32 (nth 0 h 0) a; add32 (nth 1 h 0) b; add32 (nth 2 h 0) c;
    add32 (nth 3 h 0) d; add32 (nth 4 h 0) e; add32 (nth 5 h 0) f;
    add32 (nth 6 h 0) g; add32 (nth 7 h 0) hh ].

Fixpoint blocks (fuel : nat) (h : list Z) (bs : list Z) : list Z :=
  match fuel with
  | O => h
  | S f =>
      match bs with
      | [] => h
      | _ => blocks f (block h (firstn 64 bs)) (skipn 64 bs)
      end
  end.

(** [sha256.Sum256]: the 32-byte digest of a byte string. *)
Definition Sum256 (msg : string) : string :=
  let p := pad (bytes_of msg) in
  string_of (flat_map (be_bytes 4) (blocks (S (List.length p)) init p)).

End sha256.

(** ** encoding/hex *)

Module hex.

Definition digit (n : Z) : ascii :=
  if n <? 10 then ascii_of (48 + n) else ascii_of (87 + n).

(** [hex.EncodeToString]: two lowercase digits per byte. *)
Fixpoint EncodeToString (s : string) : string :=
  match s with
  | EmptyString => EmptyString
  | String c r =>
      let b := byte_of c in
      String (digit (Z.shiftr b 4)) (String (digit (Z.land b 15)) (EncodeToString r))
  end.

End hex.

(** ** crypto/hmac with SHA-256 (RFC 2104) *)

Module hmac.

Definition blockSize : nat := 64.

Definition xor_pad (p : Z) (k : string) : string :=
  string_of (map (fun b => Z.lxor b p) (bytes_of k)).

(** [hmac.New(sha256.New, key)] followed by [Write(msg)] and [Sum(nil)]. *)
Definition Sum (key msg : string) : string :=
  let k := if (blockSize <? String.length key)%nat then sha256.Sum256 key else key in
  let k := (k ++ string_of (repeat 0 (blockSize - String.length k)))%string in
  sha256.Sum256 (xor_pad 0x5c k ++ sha256.Sum256 (xor_pad 0x36 k ++ msg)).

(** [hmac.Equal]: constant-time comparison; true iff the two byte strings
    are equal. *)
Definition Equal (a b : string) : bool := String.eqb a b.

End hmac.

(** ** encoding/base64, [RawURLEncoding] (URL alphabet, no padding) *)

Module base64.

Definition encodeURL : string :=
  "ABCDEFGHIJKLMNOPQRSTUVWXYZabcdefghijklmnopqrstuvwxyz0123456789-_".

Definition enc6 (v : Z) : ascii :=
  match String.get (Z.to_nat v) encodeURL with
  | Some c => c
  | None => "A"%char
  end.

(** The decode map: the 6-bit value of an alphabet character, [None] for
    every other byte (Go's [0xff] entry). *)
Definition dec6 (c : ascii) : option Z :=
  let b := byte_of c in
  if (65 <=? b) && (b <=? 90) then Some (b - 65)
  else if (97 <=? b) && (b <=? 122) then Some (b - 71)
  else if (48 <=? b) && (b <=? 57) then Some (b + 4)
  else if b =? 45 then Some 62
  else if b =? 95 then Some 63
  else None.

(** [RawURLEncoding.EncodeToString] *)
Fixpoint EncodeToString (s : string) : string :=
  match s with
  | EmptyString => EmptyString
  | String a EmptyString =>
      let a := byte_of a in
      let val := Z.shiftl a 16 in
      String (enc6 (Z.land (Z.shiftr val 18) 0x3f))
     (String (enc6 (Z.land (Z.shiftr val 12) 0x3f)) EmptyString)
  | String a (String b EmptyString) =>
      let a := byte_of a in let b := byte_of b in
      let val := Z.lor (Z.shiftl a 16) (Z.shiftl b 8) in
      String (enc6 (Z.land (Z.shiftr val 18) 0x3f))
     (String (enc6 (Z.land (Z.shiftr val 12) 0x3f))
     (String (enc6 (Z.land (Z.shiftr val 6) 0x3f)) EmptyString))
  | String a (String b (String c r)) =>
      let a := byte_of a in let b := byte_of b in let c := byte_of c in
      let val := Z.lor (Z.lor (Z.shiftl a 16) (Z.shiftl b 8)) c in
      String (enc6 (Z.land (Z.shiftr val 18) 0x3f))
     (String (enc6 (Z.land (Z.shiftr val 12) 0x3f))
     (String (enc6 (Z.land (Z.shiftr val 6) 0x3f))
     (String (enc6 (Z.land val 0x3f)) (EncodeToString r))))
  end.

(** The decoder skips carriage returns and line feeds anywhere in its
    input; every other byte outside the alphabet is corrupt input. *)
Fixpoint sextets (s : string) : option (list Z) :=
  match s with
  | EmptyString => Some []
  | String c r =>
      match dec6 c with
      | Some v => option_map (cons v) (sextets r)
      | None =>
          if (byte_of c =? 10) || (byte_of c =? 13) then sextets r else None
      end
  end.

Definition byte8 (x : Z) : Z := Z.land x 0xff.

(** One quantum: four sextets give three bytes; a final group of two or
    three gives one or two bytes; a single left-over sextet is corrupt. *)
Fixpoint quanta (l : list Z) : option (list Z) :=
  match l with
  | [] => Some []
  | [_] => None
  | [d0; d1] =>
      let val := Z.lor (Z.shiftl d0 18) (Z.shiftl d1 12) in
      Some [byte8 (Z.shiftr val 16)]
  | [d0; d1; d2] =>
      let val := Z.lor (Z.lor (Z.shiftl d0 18) (Z.shiftl d1 12)) (Z.shiftl d2 6) in
      Some [byte8 (Z.shiftr val 16); byte8 (Z.shiftr val 8)]
  | d0 :: d1 :: d2 :: d3 :: r =>
      let val := Z.lor (Z.lor (Z.lor (Z.shiftl d0 18) (Z.shiftl d1 12))
                              (Z.shiftl d2 6)) d3 in
      option_map (fun t => byte8 (Z.shiftr val 16) :: byte8 (Z.shiftr val 8)
                           :: byte8 val :: t) (quanta r)
  end.

(** [RawURLEncoding.DecodeString]; [None] stands for a non-nil error. *)
Definition DecodeString (s : string) : option string :=
  match sextets s with
  | Some l => option_map string_of (quanta l)
  | None => None
  end.

End base64.

(** ** strconv and strings *)

Module strconv.

Definition digit (d : Z) : ascii := ascii_of (48 + d).

Fixpoint digits (fuel : nat) (n : Z) (acc : string) : string :=
  match fuel with
  | O => acc
  | S f =>
      if n <? 10 then String (digit n) acc
      else digits f (n / 10) (String (digit (n mod 10)) acc)
  end.

(** [fmt.Sprintf("%d", n)] / [strconv.FormatInt(n, 10)]. *)
Definition FormatInt (n : Z) : string :=
  if n <? 0 then String "-"%char (digits (S (Z.to_nat (Z.log2 (- n)))) (- n) "")
  else digits (S (Z.to_nat (Z.log2 n))) n "".

Fixpoint uint_acc (s : string) (acc : Z) : option Z :=
  match s with
  | EmptyString => Some acc
  | String c r =>
      let b := byte_of c in
      if (48 <=? b) && (b <=? 57) then uint_acc r (acc * 10 + (b - 48))
      else None
  end.

(** [strconv.ParseUint(s, 10, 64)]: decimal digits only, at least one, value
    below [2^64]. *)
Definition ParseUint (s : string) : option Z :=
  match s with
  | EmptyString => None
  | _ =>
      match uint_acc s 0 with
      | Some v => if v <? 2 ^ 64 then Some v else None
      | None => None
      end
  end.

(** [strconv.ParseInt(s, 10, 64)]: an optional sign, then [ParseUint], then
    the [int64] range check. *)
Definition ParseInt (s : string) : option Z :=
  match s with
  | EmptyString => None
  | String c r =>
      let neg := Ascii.eqb c "-" in
      let body := if Ascii.eqb c "+" || neg then r else s in
      match ParseUint body with
      | Some un =>
          let cutoff := 2 ^ 63 in
          if negb neg && (cutoff <=? un) then None
          else if neg && (cutoff <? un) then None
          else Some (if neg then - un else un)
      | None => None
      end
  end.

End strconv.

Module strings.

(** [strings.IndexByte(s, c)] as a split: the text before the first [c] and
    the text after it, or [None] when [c] does not occur (index [-1]). *)
Fixpoint cut (c : ascii) (s : string) : option (string * string) :=
  match s with
  | EmptyString => None
  | String x r =>
      if Ascii.eqb x c then Some (EmptyString, r)
      else match cut c r with
           | Some (a, b) => Some (String x a, b)
           | None => None
           end
  end.

(** [strings.SplitN(s, sep, 2)] for a one-byte separator. *)
Definition SplitN2 (s : string) (sep : ascii) : list string :=
  match cut sep s with
  | Some (a, b) => [a; b]
  | None => [s]
  end.

End strings.

(** ** internal/db: the [systems] table *)

Module db.

(** Go's [(T, error)] results; a nil pointer with a nil error is [Ok None]. *)
Inductive result (A : Type) : Type :=
| Ok (a : A)
| Err (msg : string).
Arguments Ok {A} a.
Arguments Err {A} msg.

Record System := {
  ID : Z;
  MAC : string;
  Hostname : string;
  ImageID : option Z;
  ProfileID : option Z;
  Vars : string;
  IPAddr : string;
  LastSeenAt : string;
  State : string;
  StateChangedAt : string;
  CreatedAt : string;
  UpdatedAt : string
}.

Record Image := {
  ImgID : Z;
  ImgName : string;
  BootType : string;
  Cmdline : string;
  IPXEScript : string
}.

(** The store behind [*sql.DB]: the rows of [systems] in insertion order,
    the AUTOINCREMENT high-water mark of that table, the [images] rows and
    the [settings] key/value pairs.  Statements run against it never fail
    (no I/O errors are modelled). *)
Record DB := {
  systems : list System;
  systems_seq : Z;
  images : list Image;
  settings : list (string * string)
}.

Definition with_systems (d : DB) (rows : list System) : DB :=
  {| systems := rows; systems_seq := systems_seq d;
     images := images d; settings := settings d |}.

(** *** normalizeMAC *)

(** [unicode.IsSpace], on the UTF-8 encoding: the text left after one
    leading white-space rune, if the string starts with one. *)
Definition drop_space (s : list Z) : option (list Z) :=
  match s with
  | 9 :: r | 10 :: r | 11 :: r | 12 :: r | 13 :: r | 32 :: r => Some r
  | 0xC2 :: 0x85 :: r | 0xC2 :: 0xA0 :: r => Some r
  | 0xE1 :: 0x9A :: 0x80 :: r => Some r
  | 0xE2 :: 0x80 :: b :: r =>
      if ((0x80 <=? b) && (b <=? 0x8A)) || (b =? 0xA8) || (b =? 0xA9) || (b =? 0xAF)
      then Some r else None
  | 0xE2 :: 0x81 :: 0x9F :: r => Some r
  | 0xE3 :: 0x80 :: 0x80 :: r => Some r
  | _ => None
  end.

(** The same from the end of the string, on the reversed bytes: an ASCII
    byte is a rune of its own, any other last byte is looked at together
    with the bytes before it. *)
Definition is_ascii_space (b : Z) : bool := ((9 <=? b) && (b <=? 13)) || (b =? 32).

Definition drop_space_rev (s : list Z) : option (list Z) :=
  match s with
  | [] => None
  | b :: r =>
      if b <? 0x80 then (if is_ascii_space b then Some r else None)
      else
        match r with
        | 0xC2 :: r' => if (b =? 0x85) || (b =? 0xA0) then Some r' else None
        | 0x9A :: 0xE1 :: r' => if b =? 0x80 then Some r' else None
        | 0x80 :: 0xE2 :: r' =>
            if ((0x80 <=? b) && (b <=? 0x8A)) || (b =? 0xA8) || (b =? 0xA9)
               || (b =? 0xAF)
            then Some r' else None
        | 0x81 :: 0xE2 :: r' => if b =? 0x9F then Some r' else None
        | 0x80 :: 0xE3 :: r' => if b =? 0x80 then Some r' else None
        | _ => None
        end
  end.

Fixpoint trim_with (drop : list Z -> option (list Z)) (fuel : nat) (s : list Z) : list Z :=
  match fuel with
  | O => s
  | S f => match drop s with
           | Some r => trim_with drop f r
           | None => s
           end
  end.

(** [strings.TrimSpace] *)
Definition TrimSpace (s : string) : string :=
  let b := bytes_of s in
  let b := trim_with drop_space (List.length b) b in
  string_of (rev (trim_with drop_space_rev (List.length b) (rev b))).

(** [strings.ToLower] on the ASCII letters.  A non-ASCII rune is left as
    it is here; Go lowers it to another rune that is never a hexadecimal
    digit, so [normalizeMAC] rejects the string in both. *)
Definition lower (b : Z) : Z :=
  if (65 <=? b) && (b <=? 90) then b + 32 else b.

Definition ToLower (s : string) : string :=
  string_of (map lower (bytes_of s)).

(** [macSepRe.ReplaceAllString(mac, "")] with [macSepRe = `[:\-.]`]. *)
Definition is_sep (b : Z) : bool := (b =? 58) || (b =? 45) || (b =? 46).

Definition strip_seps (s : string) : string :=
  string_of (filter (fun b => negb (is_sep b)) (bytes_of s)).

Definition is_hex (b : Z) : bool :=
  ((48 <=? b) && (b <=? 57)) || ((97 <=? b) && (b <=? 102)).

Definition sub (s : string) (i j : nat) : string := String.substring i (j - i) s.

Definition normalizeMAC (mac : string) : result string :=
  let mac := ToLower (TrimSpace mac) in
  let hex := strip_seps mac in
  if negb (String.length hex =? 12)%nat then
    Err ("invalid MAC address: " ++ mac)
  else if negb (forallb is_hex (bytes_of hex)) then
    Err ("invalid MAC address: " ++ mac)
  else
    Ok (sub hex 0 2 ++ ":" ++ sub hex 2 4 ++ ":" ++ sub hex 4 6 ++ ":" ++
        sub hex 6 8 ++ ":" ++ sub hex 8 10 ++ ":" ++ sub hex 10 12)%string.

(** *** Queries and statements *)

Definition by_mac (mac : string) (s : System) : bool := String.eqb (MAC s) mac.
Definition by_id (id : Z) (s : System) : bool := ID s =? id.

(** [SELECT ... FROM systems WHERE mac = ?] scanned with [QueryRow]: the
    first matching row, [sql.ErrNoRows] when there is none. *)
Definition GetSystemByMAC (d : DB) (mac : string) : result (option System) :=
  match normalizeMAC mac with
  | Err e => Err e
  | Ok mac => Ok (find (by_mac mac) (systems d))
  end.

Definition GetSystemByID (d : DB) (id : Z) : result (option System) :=
  Ok (find (by_id id) (systems d)).

Definition set_state (state now : string) (s : System) : System :=
  {| ID := ID s; MAC := MAC s; Hostname := Hostname s; ImageID := ImageID s;
     ProfileID := ProfileID s; Vars := Vars s; IPAddr := IPAddr s;
     LastSeenAt := LastSeenAt s; State := state; StateChangedAt := now;
     CreatedAt := CreatedAt s; UpdatedAt := now |}.

Definition touch (ip now : string) (s : System) : System :=
  {| ID := ID s; MAC := MAC s; Hostname := Hostname s; ImageID := ImageID s;
     ProfileID := ProfileID s; Vars := Vars s; IPAddr := ip;
     LastSeenAt := now; State := State s; StateChangedAt := StateChangedAt s;
     CreatedAt := CreatedAt s; UpdatedAt := now |}.

(** [UPDATE systems SET ... WHERE <cond>]: every matching row is rewritten;
    the second component is [RowsAffected]. *)
Definition update_where (cond : System -> bool) (f : System -> System)
  (rows : list System) : list System * nat :=
  (map (fun s => if cond s then f s else s) rows,
   List.length (filter cond rows)).

Definition UpdateSystemState (d : DB) (now : string) (id : Z) (state : string)
  : DB :=
  with_systems d (fst (update_where (by_id id) (set_state state now) (systems d))).

(** The error, if any, and the store after the call. *)
Definition TransitionSystemStateByMAC (d : DB) (now : string)
  (mac expectedState newState : string) : option string * DB :=
  match normalizeMAC mac with
  | Err e => (Some e, d)
  | Ok mac =>
      let cond s := by_mac mac s && String.eqb (State s) expectedState in
      let '(rows, n) := update_where cond (set_state newState now) (systems d) in
      let d' := with_systems d rows in
      if (n =? 0)%nat then
        match find (by_mac mac) (systems d') with
        | None => (Some ("system not found: " ++ mac)%string, d')
        | Some cur =>
            if String.eqb (State cur) newState then (None, d')
            else (Some ("state transition failed: expected " ++ expectedState
                        ++ ", got " ++ State cur)%string, d')
        end
      else (None, d')
  end.

Definition TouchSystem (d : DB) (now : string) (mac ipAddr : string)
  : option string * DB :=
  match normalizeMAC mac with
  | Err e => (Some e, d)
  | Ok mac =>
      (None, with_systems d (fst (update_where (by_mac mac) (touch ipAddr now)
                                               (systems d))))
  end.

(** The row that [INSERT INTO systems (mac, ip_addr, last_seen_at)] creates:
    every other column takes its schema default. *)
Definition new_row (id : Z) (mac ip now : string) : System :=
  {| ID := id; MAC := mac; Hostname := ""; ImageID := None; ProfileID := None;
     Vars := "{}"; IPAddr := ip; LastSeenAt := now; State := "discovered";
     StateChangedAt := ""; CreatedAt := now; UpdatedAt := now |}.

(** [INSERT OR IGNORE]: a row whose [mac] is already present violates the
    UNIQUE constraint and is skipped, with no row affected. *)
Definition insert_or_ignore (d : DB) (mac ip now : string) : DB * nat :=
  if existsb (by_mac mac) (systems d) then (d, O)
  else
    let id := systems_seq d + 1 in
    ({| systems := systems d ++ [new_row id mac ip now]; systems_seq := id;
        images := images d; settings := settings d |}, 1%nat).

Definition AutoRegister (d : DB) (now : string) (mac ipAddr : string)
  : result (option System * bool) * DB :=
  match normalizeMAC mac with
  | Err e => (Err e, d)
  | Ok mac =>
      let '(d, n) := insert_or_ignore d mac ipAddr now in
      let isNew := (0 <? n)%nat in
      let d := if negb isNew then snd (TouchSystem d now mac ipAddr) else d in
      match GetSystemByMAC d mac with
      | Ok sys => (Ok (sys, isNew), d)
      | Err e => (Err e, d)
      end
  end.

Definition GetImage (d : DB) (id : Z) : option Image :=
  find (fun i => ImgID i =? id) (images d).

Definition GetSetting (d : DB) (key : string) : string :=
  match find (fun kv => String.eqb (fst kv) key) (settings d) with
  | Some kv => snd kv
  | None => ""
  end.

End db.

(** ** internal/webhook: events handed to the dispatcher *)

Module webhook.

Record Event := {
  Type_ : string;
  Timestamp : string;
  Data_id : Z;
  Data_mac : string;
  Data_hostname : string;
  Data_ip_addr : string;
  Data_state : string
}.

End webhook.

(** ** internal/ipxe *)

Module ipxe.

Definition ExitScript : string := "#!ipxe" ++ LF ++ "exit" ++ LF.

Definition stripShebang (script : string) : string :=
  if (7 <? String.length script)%nat && String.eqb (db.sub script 0 7) ("#!ipxe" ++ LF)
  then db.sub script 7 (String.length script)
  else if (8 <? String.length script)%nat
          && String.eqb (db.sub script 0 8) ("#!ipxe" ++ CR ++ LF)
  then db.sub script 8 (String.length script)
  else script.

Definition WrapWithConfirmation (script hostname mac : string) : string :=
  let label := if String.eqb hostname "" then mac
               else (hostname ++ " (" ++ mac ++ ")")%string in
  ("#!ipxe" ++ LF ++ LF ++
   "menu Confirm Reimage: " ++ label ++ LF ++
   "item --gap" ++ LF ++
   "item --gap This system is flagged for reimage." ++ LF ++
   "item --gap Proceeding will ERASE ALL DATA on this machine." ++ LF ++
   "item --gap" ++ LF ++
   "item confirm Proceed with reimage" ++ LF ++
   "item cancel  Cancel and boot normally" ++ LF ++
   "choose --default cancel --timeout 30000 selected && goto ${selected} || goto cancel" ++ LF ++
   LF ++
   ":cancel" ++ LF ++
   "echo Cancelled. Booting from local disk..." ++ LF ++
   "exit" ++ LF ++
   LF ++
   ":confirm" ++ LF ++
   stripShebang script)%string.

End ipxe.

(** ** internal/httpserver *)

Module httpserver.

Import db.

(** What a handler reads from [*http.Request]. *)
Record Request := {
  URL_Path : string;                    (* r.URL.Path *)
  URL_Query : list (string * string);   (* r.URL.Query() *)
  PathValues : list (string * string);  (* r.PathValue(name) *)
  Form : list (string * string);        (* r.FormValue(name) *)
  RemoteAddr : string;
  Host : string
}.

(** [url.Values.Get], [r.PathValue], [r.FormValue]: the first value stored
    under the key, the empty string when there is none. *)
Definition Get (key : string) (vs : list (string * string)) : string :=
  match find (fun kv => String.eqb (fst kv) key) vs with
  | Some kv => snd kv
  | None => ""
  end.

(** What a handler writes to the [http.ResponseWriter]. *)
Record Response := {
  status : Z;
  contentType : string;
  body : string
}.

(** [http.Error(w, msg, code)] *)
Definition Error (msg : string) (code : Z) : Response :=
  {| status := code; contentType := "text/plain; charset=utf-8";
     body := (msg ++ LF)%string |}.

Definition text (b : string) : Response :=
  {| status := 200; contentType := "text/plain"; body := b |}.

(** The three readings of the wall clock that the handlers take: Unix
    seconds ([time.Now().Unix()]), SQLite's [datetime('now')] and the
    RFC 3339 form stamped on events. *)
Record Clock := {
  unix : Z;
  datetime : string;
  rfc3339 : string
}.

(** The server: its store, its configured URL, the cached signing key
    ([getAuthState]; empty when no key is set) and the events passed to
    [Webhook.Fire], oldest first. *)
Record Server := {
  DB_ : DB;
  ServerURL : string;
  signingKey : string;
  fired : list webhook.Event
}.

Definition with_db (s : Server) (d : DB) : Server :=
  {| DB_ := d; ServerURL := ServerURL s; signingKey := signingKey s;
     fired := fired s |}.

(** [Dispatcher.Fire]: stamps the event and offers it to the dispatcher. *)
Definition Fire (s : Server) (now : Clock) (e : webhook.Event) : Server :=
  let e := if String.eqb (webhook.Timestamp e) ""
           then {| webhook.Type_ := webhook.Type_ e;
                   webhook.Timestamp := rfc3339 now;
                   webhook.Data_id := webhook.Data_id e;
                   webhook.Data_mac := webhook.Data_mac e;
                   webhook.Data_hostname := webhook.Data_hostname e;
                   webhook.Data_ip_addr := webhook.Data_ip_addr e;
                   webhook.Data_state := webhook.Data_state e |}
           else e in
  {| DB_ := DB_ s; ServerURL := ServerURL s; signingKey := signingKey s;
     fired := fired s ++ [e] |}.

Definition fireSystemEvent (s : Server) (now : Clock) (sys : System)
  (state : string) : Server :=
  Fire s now {| webhook.Type_ := ("system." ++ state)%string;
                webhook.Timestamp := "";
                webhook.Data_id := ID sys;
                webhook.Data_mac := MAC sys;
                webhook.Data_hostname := Hostname sys;
                webhook.Data_ip_addr := IPAddr sys;
                webhook.Data_state := state |}.

(** *** token.go *)

Definition tokenExpiry : Z := 3600.

(** The [tok=] value for an expiry and the text the signature is bound
    to: [base64url(expiry "." base64url(HMAC(key, expiry "|" path)))]. *)
Definition token (key : string) (expiry : Z) (path : string) : string :=
  let payload := (strconv.FormatInt expiry ++ "|" ++ path)%string in
  let sig := hmac.Sum key payload in
  base64.EncodeToString
    (strconv.FormatInt expiry ++ "." ++ base64.EncodeToString sig)%string.

Definition signURL (s : Server) (now : Clock) (rawURL : string) : string :=
  let key := signingKey s in
  if (String.length key =? 0)%nat then rawURL
  else
    let '(path, query) :=
      match strings.cut "?" rawURL with
      | Some (p, q) => (p, q)
      | None => (rawURL, "")
      end in
    let expiry := unix now + tokenExpiry in
    let tok := token key expiry path in
    if negb (String.eqb query "")
    then (path ++ "?" ++ query ++ "&" ++ "tok=" ++ tok)%string
    else (rawURL ++ "?" ++ "tok=" ++ tok)%string.

Definition validateToken (s : Server) (now : Clock) (r : Request) : bool :=
  let key := signingKey s in
  if (String.length key =? 0)%nat then true
  else
    let tok := Get "tok" (URL_Query r) in
    if String.eqb tok "" then false
    else
      match base64.DecodeString tok with
      | None => false
      | Some decoded =>
          match strings.SplitN2 decoded "." with
          | [p0; p1] =>
              match strconv.ParseInt p0 with
              | None => false
              | Some expiry =>
                  if expiry <? unix now then false
                  else
                    match base64.DecodeString p1 with
                    | None => false
                    | Some sigBytes =>
                        let payload :=
                          (strconv.FormatInt expiry ++ "|" ++ URL_Path r)%string in
                        hmac.Equal sigBytes (hmac.Sum key payload)
                    end
              end
          | _ => false
          end
      end.

End httpserver.

(** *** The boot-chain and operator handlers *)

Module handlers.

Import db httpserver.

Definition DQ : string := String (ascii_of 34) EmptyString.

(** [json.NewEncoder(w).Encode(map[string]string{"status": "ok"})] *)
Definition json_status_ok : Response :=
  {| status := 200; contentType := "application/json";
     body := ("{" ++ DQ ++ "status" ++ DQ ++ ":" ++ DQ ++ "ok" ++ DQ ++ "}" ++ LF)%string |}.

Section Handlers.

(** Library and template code the handlers call into:
    - [net.SplitHostPort];
    - the part of [handleBootScript] that builds the signed URLs and runs
      [ipxe.RenderBootScript] on a text/template ([None] is its error);
    - the [system_row] HTML template run by [renderSystemRow]. *)
Variable SplitHostPort : string -> option (string * string).
Variable renderBootScript :
  Server -> Clock -> Request -> System -> Image -> option string.
Variable system_row : DB -> System -> string.

Definition clientAddr (r : Request) : string :=
  match SplitHostPort (RemoteAddr r) with
  | None => RemoteAddr r
  | Some (host, _) => host
  end.

(** The auto-registration step of [handleBootScript]: [db.AutoRegister]
    for the client address, then the [discovered] event when the machine
    is new.  The error, or the machine as read back, and the server
    afterwards. *)
Definition bootAutoRegister (s : Server) (now : Clock) (r : Request)
  (mac : string) : result (option System) * Server :=
  let clientIP := clientAddr r in
  match AutoRegister (DB_ s) (datetime now) mac clientIP with
  | (Err e, d) => (Err e, with_db s d)
  | (Ok (sys, isNew), d) =>
      let s := with_db s d in
      match sys with
      | Some sy => (Ok sys, if isNew then fireSystemEvent s now sy "discovered" else s)
      | None => (Ok sys, s)
      end
  end.

Definition handleBootScript (s : Server) (now : Clock) (r : Request)
  : Response * Server :=
  let mac := Get "mac" (URL_Query r) in
  if String.eqb mac "" then (text ipxe.ExitScript, s)
  else
    match bootAutoRegister s now r mac with
    | (Err _, s) => (text ipxe.ExitScript, s)
    | (Ok None, s) => (text ipxe.ExitScript, s)
    | (Ok (Some sy), s) =>
        match ImageID sy with
        | None => (text ipxe.ExitScript, s)
        | Some imageID =>
            if negb (String.eqb (State sy) "queued") || String.eqb (Hostname sy) ""
            then (text ipxe.ExitScript, s)
            else
              match GetImage (DB_ s) imageID with
              | None => (text ipxe.ExitScript, s)
              | Some img =>
                  match renderBootScript s now r sy img with
                  | None => (Error "Internal Server Error" 500, s)
                  | Some script =>
                      let script :=
                        if String.eqb (GetSetting (DB_ s) "confirm_reimage") "1"
                        then ipxe.WrapWithConfirmation script (Hostname sy) (MAC sy)
                        else script in
                      let s := with_db s (UpdateSystemState (DB_ s) (datetime now)
                                                            (ID sy) "provisioning") in
                      let s := fireSystemEvent s now sy "provisioning" in
                      (text script, s)
                  end
              end
        end
    end.

Definition handleCallback (s : Server) (now : Clock) (r : Request)
  : Response * Server :=
  if negb (validateToken s now r) then (Error "Forbidden" 403, s)
  else
    let mac := Get "mac" (PathValues r) in
    if String.eqb mac "" then (Error "MAC address required" 400, s)
    else
      match TransitionSystemStateByMAC (DB_ s) (datetime now) mac
                                       "provisioning" "ready" with
      | (Some _, d) => (Error "Internal Server Error" 500, with_db s d)
      | (None, d) =>
          let s := with_db s d in
          let s := match GetSystemByMAC (DB_ s) mac with
                   | Ok (Some sys) => fireSystemEvent s now sys "ready"
                   | _ => s
                   end in
          (json_status_ok, s)
      end.

Definition renderSystemRow (s : Server) (id : Z) : Response :=
  match GetSystemByID (DB_ s) id with
  | Err _ => Error "Internal Server Error" 500
  | Ok None => Error "System not found" 404
  | Ok (Some sys) =>
      {| status := 200; contentType := "text/html; charset=utf-8";
         body := system_row (DB_ s) sys |}
  end.

(** The [switch action] of [handleSystemStateAction]: the new state, or the
    message of the 400 response. *)
Definition stateAction (action : string) (sys : System) : result string :=
  if String.eqb action "queue" then
    if negb (String.eqb (State sys) "discovered")
       && negb (String.eqb (State sys) "ready")
       && negb (String.eqb (State sys) "failed")
    then Err ("Cannot queue from state " ++ State sys)
    else if (match ImageID sys with None => true | Some _ => false end)
            || String.eqb (Hostname sys) ""
    then Err "Image and hostname must be set before queuing"
    else Ok "queued"
  else if String.eqb action "cancel" then
    if negb (String.eqb (State sys) "queued")
    then Err "Can only cancel from queued state"
    else if negb (String.eqb (Hostname sys) "") then Ok "ready"
    else Ok "discovered"
  else if String.eqb action "retry" then
    if negb (String.eqb (State sys) "failed")
    then Err "Can only retry from failed state"
    else Ok "queued"
  else if String.eqb action "mark_failed" then
    if negb (String.eqb (State sys) "provisioning")
    then Err "Can only mark failed from provisioning state"
    else Ok "failed"
  else if String.eqb action "reimage" then
    if negb (String.eqb (State sys) "ready")
    then Err "Can only reimage from ready state"
    else Ok "queued"
  else Err "Unknown action".

Definition handleSystemStateAction (s : Server) (now : Clock) (r : Request)
  : Response * Server :=
  match strconv.ParseInt (Get "id" (PathValues r)) with
  | None => (Error "Invalid ID" 400, s)
  | Some id =>
      let action := Get "action" (Form r) in
      match GetSystemByID (DB_ s) id with
      | Err _ | Ok None => (Error "System not found" 404, s)
      | Ok (Some sys) =>
          match stateAction action sys with
          | Err msg => (Error msg 400, s)
          | Ok newState =>
              let s := with_db s (UpdateSystemState (DB_ s) (datetime now) id newState) in
              let s := fireSystemEvent s now sys newState in
              (renderSystemRow s id, s)
          end
      end
  end.

End Handlers.

End handlers.

(** ** internal/catalog: [Entry.Hash] *)

Module catalog.

Record File := {
  FName : string;
  FURL : string;
  FSHA256 : string
}.

Record VarDef := {
  Key : string;
  Label : string;
  VType : string;
  Default : string;
  VDescription : string;
  Required : bool;
  Options : list string
}.

Record Entry := {
  ID : string;
  Icon : string;
  IconColor : string;
  Name : string;
  Description : string;
  Version : string;
  Arch : string;
  BootType : string;
  Cmdline : string;
  IPXEScript : string;
  Files : list File;
  OSFamily : string;
  KernelParams : string;
  ConfigTemplate : string;
  Vars : list VarDef
}.

(** Go's [<] on strings: byte-wise lexicographic order. *)
Fixpoint ltb (a b : string) : bool :=
  match a, b with
  | _, EmptyString => false
  | EmptyString, String _ _ => true
  | String x a', String y b' =>
      if byte_of x <? byte_of y then true
      else if byte_of y <? byte_of x then false
      else ltb a' b'
  end.

(** [sort.Slice(sorted, func(i, j) { return sorted[i].Name < sorted[j].Name })].
    Below twelve elements Go sorts by insertion, moving an element left only
    past strictly greater names; that is the sort written here.  On longer
    slices the two agree whenever the names are distinct. *)
Fixpoint insert (f : File) (l : list File) : list File :=
  match l with
  | [] => [f]
  | g :: r => if ltb (FName f) (FName g) then f :: l else g :: insert f r
  end.

Definition sortFiles (l : list File) : list File :=
  fold_left (fun acc f => insert f acc) l [].

(** What [h.Write] receives, field by field. *)
Definition field (s : string) : string := (s ++ NUL)%string.

Fixpoint concat (l : list string) : string :=
  match l with
  | [] => EmptyString
  | s :: r => (s ++ concat r)%string
  end.

Definition base_input (e : Entry) : string :=
  (field (Name e) ++ field (Description e) ++ field (Version e) ++
   field (Arch e) ++ field (BootType e) ++ field (Cmdline e) ++
   field (IPXEScript e) ++
   concat (map (fun f => field (FName f) ++ field (FURL f)) (sortFiles (Files e))))%string.

Definition has_extended (e : Entry) : bool :=
  negb (String.eqb (OSFamily e) "") || negb (String.eqb (KernelParams e) "")
  || negb (String.eqb (ConfigTemplate e) "") || (0 <? List.length (Vars e))%nat.

Definition extended_input (e : Entry) : string :=
  (field (OSFamily e) ++ field (KernelParams e) ++ field (ConfigTemplate e) ++
   concat (map (fun v => field (Key v) ++ field (Default v)) (Vars e)))%string.

(** Everything written to the hash, in order. *)
Definition hash_input (e : Entry) : string :=
  if has_extended e then (base_input e ++ extended_input e)%string
  else base_input e.

Definition Hash (e : Entry) : string :=
  hex.EncodeToString (sha256.Sum256 (hash_input e)).

End catalog.

(** ** internal/safenet: the SSRF guard *)

Module safenet.

(** [net.IP]: a byte slice of length 4 or 16. *)
Definition IP := list Z.

Definition v4InV6Prefix : list Z := [0; 0; 0; 0; 0; 0; 0; 0; 0; 0; 0xff; 0xff].

Definition eq_bytes (a b : list Z) : bool :=
  (List.length a =? List.length b)%nat
  && forallb (fun p => fst p =? snd p) (combine a b).

(** [ip.To4()] *)
Definition To4 (ip : IP) : option IP :=
  if (List.length ip =? 4)%nat then Some ip
  else if (List.length ip =? 16)%nat && eq_bytes (firstn 12 ip) v4InV6Prefix
  then Some (skipn 12 ip)
  else None.

Definition IPv4 (a b c d : Z) : IP := (v4InV6Prefix ++ [a; b; c; d])%list.
Definition IPv4zero : IP := IPv4 0 0 0 0.
Definition IPv6unspecified : IP := repeat 0 16.
Definition IPv6loopback : IP := (repeat 0 15 ++ [1])%list.

(** [ip.Equal(x)] *)
Definition Equal (ip x : IP) : bool :=
  if (List.length ip =? List.length x)%nat then eq_bytes ip x
  else if (List.length ip =? 4)%nat && (List.length x =? 16)%nat
  then eq_bytes (firstn 12 x) v4InV6Prefix && eq_bytes ip (skipn 12 x)
  else if (List.length ip =? 16)%nat && (List.length x =? 4)%nat
  then eq_bytes (firstn 12 ip) v4InV6Prefix && eq_bytes (skipn 12 ip) x
  else false.

Definition at_ (i : nat) (ip : IP) : Z := nth i ip 0.

Definition IsLoopback (ip : IP) : bool :=
  match To4 ip with
  | Some ip4 => at_ 0 ip4 =? 127
  | None => Equal ip IPv6loopback
  end.

Definition IsLinkLocalUnicast (ip : IP) : bool :=
  match To4 ip with
  | Some ip4 => (at_ 0 ip4 =? 169) && (at_ 1 ip4 =? 254)
  | None => (List.length ip =? 16)%nat && (at_ 0 ip =? 0xfe)
            && (Z.land (at_ 1 ip) 0xc0 =? 0x80)
  end.

Definition IsLinkLocalMulticast (ip : IP) : bool :=
  match To4 ip with
  | Some ip4 => (at_ 0 ip4 =? 224) && (at_ 1 ip4 =? 0) && (at_ 2 ip4 =? 0)
  | None => (List.length ip =? 16)%nat && (at_ 0 ip =? 0xff)
            && (Z.land (at_ 1 ip) 0x0f =? 0x02)
  end.

Definition IsUnspecified (ip : IP) : bool :=
  Equal ip IPv4zero || Equal ip IPv6unspecified.

(** [*net.IPNet] as [networkNumberAndMask] sees it. *)
Record IPNet := { nn : list Z; mask : list Z }.

(** [net.CIDRMask(ones, bits)] *)
Definition CIDRMask (ones bits : nat) : list Z :=
  map (fun i => let k := (ones - 8 * i)%nat in
                if (8 <=? k)%nat then 0xff
                else Z.land (Z.shiftl 0xff (Z.of_nat (8 - k))) 0xff)
      (seq 0 (bits / 8)).

Definition Contains (n : IPNet) (ip : IP) : bool :=
  let ip := match To4 ip with Some x => x | None => ip end in
  (List.length ip =? List.length (nn n))%nat
  && forallb (fun t => Z.land (fst (fst t)) (snd (fst t)) =? Z.land (snd t) (snd (fst t)))
             (combine (combine (nn n) (mask n)) ip).

(** The networks that [net.ParseCIDR] returns for the six strings of
    [privateRanges]. *)
Definition privateRanges : list IPNet :=
  [ {| nn := [10; 0; 0; 0];      mask := CIDRMask 8 32 |};
    {| nn := [172; 16; 0; 0];    mask := CIDRMask 12 32 |};
    {| nn := [192; 168; 0; 0];   mask := CIDRMask 16 32 |};
    {| nn := [169; 254; 0; 0];   mask := CIDRMask 16 32 |};
    {| nn := 0xfc :: repeat 0 15; mask := CIDRMask 7 128 |};
    {| nn := IPv6loopback;       mask := CIDRMask 128 128 |} ].

Definition isPrivateIP (ip : IP) : bool :=
  if IsLoopback ip || IsLinkLocalUnicast ip || IsLinkLocalMulticast ip
     || IsUnspecified ip
  then true
  else existsb (fun r => Contains r ip) privateRanges.

(** What the dial function does: refuse with an error, or go on to
    [dialer.DialContext] on the joined address. *)
Inductive outcome :=
| Refused (err : string)
| Dial (network address : string).

Definition has_byte (c : ascii) (s : string) : bool :=
  match strings.cut c s with Some _ => true | None => false end.

(** [net.JoinHostPort] *)
Definition JoinHostPort (host port : string) : string :=
  if has_byte ":" host || has_byte "%" host
  then ("[" ++ host ++ "]:" ++ port)%string
  else (host ++ ":" ++ port)%string.

Section Dial.

(** [net.SplitHostPort] and the resolver, [net.DefaultResolver.LookupIPAddr]. *)
Variable SplitHostPort : string -> option (string * string).
Variable LookupIPAddr : string -> db.result (list IP).

Definition SafeDialContext (network addr : string) : outcome :=
  match SplitHostPort addr with
  | None => Refused "invalid address"
  | Some (host, port) =>
      match LookupIPAddr host with
      | db.Err e => Refused e
      | db.Ok ips =>
          match find isPrivateIP ips with
          | Some _ => Refused ("blocked connection to private IP (resolved from "
                               ++ host ++ ")")
          | None => Dial network (JoinHostPort host port)
          end
      end
  end.

End Dial.

End safenet.

(** ** internal/proxydhcp *)

Module proxydhcp.

(** *** The parts of [github.com/insomniacslk/dhcp/dhcpv4] the handler uses *)

Definition OptionVendorSpecificInformation : Z := 43.
Definition OptionMessageType : Z := 53.
Definition OptionServerIdentifier : Z := 54.
Definition OptionClassIdentifier : Z := 60.
Definition OptionClientIdentifier : Z := 61.
Definition OptionBootfileName : Z := 67.
Definition OptionUserClassInformation : Z := 77.
Definition OptionRelayAgentInformation : Z := 82.
Definition OptionClientSystemArchitectureType : Z := 93.

Definition MessageTypeNone : Z := 0.
Definition MessageTypeDiscover : Z := 1.
Definition MessageTypeOffer : Z := 2.
Definition MessageTypeRequest : Z := 3.
Definition MessageTypeAck : Z := 5.

Definition OpcodeBootRequest : Z := 1.
Definition OpcodeBootReply : Z := 2.

(** iana.Arch values *)
Definition INTEL_X86PC : Z := 0.
Definition EFI_IA32 : Z := 6.
Definition EFI_X86_64 : Z := 7.
Definition EFI_BC : Z := 9.
Definition EFI_ARM64 : Z := 11.

(** [dhcpv4.Options]: option code to value. *)
Definition Options := list (Z * list Z).

Definition OptGet (code : Z) (o : Options) : option (list Z) :=
  match find (fun kv => fst kv =? code) o with
  | Some kv => Some (snd kv)
  | None => None
  end.

(** [Options.Update]: the value stored under the code is replaced. *)
Definition OptUpdate (code : Z) (v : list Z) (o : Options) : Options :=
  (code, v) :: filter (fun kv => negb (fst kv =? code)) o.

Record DHCPv4 := {
  OpCode : Z;
  HWType : Z;
  TransactionID : list Z;
  Flags : Z;
  ClientHWAddr : list Z;
  ClientIPAddr : safenet.IP;
  YourIPAddr : safenet.IP;
  ServerIPAddr : safenet.IP;
  GatewayIPAddr : safenet.IP;
  Opts : Options
}.

Definition Modifier := DHCPv4 -> DHCPv4.

Definition set_opts (d : DHCPv4) (o : Options) : DHCPv4 :=
  {| OpCode := OpCode d; HWType := HWType d; TransactionID := TransactionID d;
     Flags := Flags d; ClientHWAddr := ClientHWAddr d;
     ClientIPAddr := ClientIPAddr d; YourIPAddr := YourIPAddr d;
     ServerIPAddr := ServerIPAddr d; GatewayIPAddr := GatewayIPAddr d;
     Opts := o |}.

Definition set_siaddr (d : DHCPv4) (ip : safenet.IP) : DHCPv4 :=
  {| OpCode := OpCode d; HWType := HWType d; TransactionID := TransactionID d;
     Flags := Flags d; ClientHWAddr := ClientHWAddr d;
     ClientIPAddr := ClientIPAddr d; YourIPAddr := YourIPAddr d;
     ServerIPAddr := ip; GatewayIPAddr := GatewayIPAddr d; Opts := Opts d |}.

Definition set_yiaddr (d : DHCPv4) (ip : safenet.IP) : DHCPv4 :=
  {| OpCode := OpCode d; HWType := HWType d; TransactionID := TransactionID d;
     Flags := Flags d; ClientHWAddr := ClientHWAddr d;
     ClientIPAddr := ClientIPAddr d; YourIPAddr := ip;
     ServerIPAddr := ServerIPAddr d; GatewayIPAddr := GatewayIPAddr d;
     Opts := Opts d |}.

Definition set_giaddr (d : DHCPv4) (ip : safenet.IP) : DHCPv4 :=
  {| OpCode := OpCode d; HWType := HWType d; TransactionID := TransactionID d;
     Flags := Flags d; ClientHWAddr := ClientHWAddr d;
     ClientIPAddr := ClientIPAddr d; YourIPAddr := YourIPAddr d;
     ServerIPAddr := ServerIPAddr d; GatewayIPAddr := ip; Opts := Opts d |}.

Definition UpdateOption (code : Z) (v : list Z) : Modifier :=
  fun d => set_opts d (OptUpdate code v (Opts d)).

(** [dhcpv4.WithOption], [WithMessageType], [WithServerIP], [WithGatewayIP],
    [WithOptionCopied], [WithReply] *)
Definition WithOption (code : Z) (v : list Z) : Modifier := UpdateOption code v.
Definition WithMessageType (m : Z) : Modifier := UpdateOption OptionMessageType [m].
Definition WithServerIP (ip : safenet.IP) : Modifier := fun d => set_siaddr d ip.
Definition WithGatewayIP (ip : safenet.IP) : Modifier := fun d => set_giaddr d ip.

Definition WithOptionCopied (request : DHCPv4) (code : Z) : Modifier :=
  fun d => match OptGet code (Opts request) with
           | Some v => UpdateOption code v d
           | None => d
           end.

Definition WithReply (request : DHCPv4) : Modifier :=
  fun d =>
    {| OpCode := if OpCode request =? OpcodeBootRequest then OpcodeBootReply
                 else OpcodeBootRequest;
       HWType := HWType request; TransactionID := TransactionID request;
       Flags := Flags request; ClientHWAddr := ClientHWAddr request;
       ClientIPAddr := ClientIPAddr d; YourIPAddr := YourIPAddr d;
       ServerIPAddr := ServerIPAddr d; GatewayIPAddr := GatewayIPAddr request;
       Opts := Opts d |}.

(** [dhcpv4.New]: a zeroed request packet, then the modifiers in order.
    [xid] is the freshly drawn transaction id. *)
Definition New (xid : list Z) (modifiers : list Modifier) : DHCPv4 :=
  fold_left (fun d m => m d) modifiers
    {| OpCode := OpcodeBootRequest; HWType := 1; TransactionID := xid;
       Flags := 0; ClientHWAddr := repeat 0 6;
       ClientIPAddr := safenet.IPv4zero; YourIPAddr := safenet.IPv4zero;
       ServerIPAddr := safenet.IPv4zero; GatewayIPAddr := safenet.IPv4zero;
       Opts := [] |}.

Definition NewReplyFromRequest (xid : list Z) (request : DHCPv4)
  (modifiers : list Modifier) : DHCPv4 :=
  New xid ([ WithReply request;
             WithGatewayIP (GatewayIPAddr request);
             WithOptionCopied request OptionRelayAgentInformation;
             WithOptionCopied request OptionClientIdentifier ] ++ modifiers)%list.

(** [pkt.MessageType()] *)
Definition MessageType (pkt : DHCPv4) : Z :=
  match OptGet OptionMessageType (Opts pkt) with
  | Some [m] => m
  | _ => MessageTypeNone
  end.

(** [pkt.ClientArch()]: option 93 as big-endian 16-bit values; nothing
    when the option is absent, empty or of odd length. *)
Fixpoint archs_of (v : list Z) : option (list Z) :=
  match v with
  | [] => Some []
  | [_] => None
  | hi :: lo :: r =>
      option_map (cons (Z.lor (Z.shiftl hi 8) lo)) (archs_of r)
  end.

Definition ClientArch (pkt : DHCPv4) : list Z :=
  match OptGet OptionClientSystemArchitectureType (Opts pkt) with
  | Some (b :: v) => match archs_of (b :: v) with Some l => l | None => [] end
  | _ => []
  end.

(** *** proxydhcp.go *)

Record Server := {
  ServerIP : safenet.IP;
  TFTPAddr : string;
  HTTPAddr : string;
  ServerURL : string
}.

Definition class_of (pkt : DHCPv4) : option string :=
  option_map string_of (OptGet OptionClassIdentifier (Opts pkt)).

Definition isPXEClient (pkt : DHCPv4) : bool :=
  match class_of pkt with
  | None => false
  | Some s => (9 <=? String.length s)%nat && String.eqb (db.sub s 0 9) "PXEClient"
  end.

Definition isHTTPBootClient (pkt : DHCPv4) : bool :=
  match class_of pkt with
  | None => false
  | Some s => (10 <=? String.length s)%nat && String.eqb (db.sub s 0 10) "HTTPClient"
  end.

Definition isIPXEClient (pkt : DHCPv4) : bool :=
  match option_map string_of (OptGet OptionUserClassInformation (Opts pkt)) with
  | None => false
  | Some uc => String.eqb uc "iPXE" || String.eqb uc (String (ascii_of 4) "iPXE")
  end.

Definition clientArch (pkt : DHCPv4) : Z :=
  match ClientArch pkt with
  | [] => INTEL_X86PC
  | a :: _ => a
  end.

Definition vendorOpts : list Z := [6; 1; 8; 255].

Section Handler.

(** [net.IP.String], used when the server URL is derived from the IP. *)
Variable IPString : safenet.IP -> string.

(** The reply handed to [conn.WriteTo], if any. *)
Definition handler (s : Server) (xid : list Z) (pkt : DHCPv4) : option DHCPv4 :=
  if negb (MessageType pkt =? MessageTypeDiscover)
     && negb (MessageType pkt =? MessageTypeRequest) then None
  else
    let httpBoot := isHTTPBootClient pkt in
    if negb (isPXEClient pkt) && negb httpBoot then None
    else
      let isIPXE := isIPXEClient pkt in
      let arch := clientArch pkt in
      let serverURL := if String.eqb (ServerURL s) ""
                       then ("http://" ++ IPString (ServerIP s) ++ HTTPAddr s)%string
                       else ServerURL s in
      let bootFile :=
        if isIPXE then (serverURL ++ "/boot.ipxe?mac=${net0/mac}")%string
        else if httpBoot then
          if arch =? EFI_ARM64 then (serverURL ++ "/ipxe-arm64.efi")%string
          else (serverURL ++ "/ipxe.efi")%string
        else
          if (arch =? EFI_X86_64) || (arch =? EFI_BC) then "ipxe.efi"
          else if arch =? EFI_ARM64 then "ipxe-arm64.efi"
          else "undionly.kpxe" in
      let opts :=
        [ WithMessageType MessageTypeOffer;
          WithServerIP (ServerIP s);
          WithOption OptionServerIdentifier
            (match safenet.To4 (ServerIP s) with Some x => x | None => [] end);
          WithOption OptionBootfileName (bytes_of bootFile) ] in
      let opts :=
        if httpBoot
        then (opts ++ [WithOption OptionClassIdentifier (bytes_of "HTTPClient")])%list
        else (opts ++ [WithOption OptionClassIdentifier (bytes_of "PXEClient");
                       WithOption OptionVendorSpecificInformation vendorOpts])%list in
      let resp := NewReplyFromRequest xid pkt opts in
      let resp := if MessageType pkt =? MessageTypeRequest
                  then UpdateOption OptionMessageType [MessageTypeAck] resp
                  else resp in
      let resp := if negb httpBoot then set_siaddr resp (ServerIP s) else resp in
      let resp := set_yiaddr resp (safenet.IPv4 0 0 0 0) in
      Some resp.

End Handler.

End proxydhcp.

(** * Definitions used to state the properties *)

Module props.

Import db httpserver handlers.





(** The state of the machine with a given id, as the store has it. *)
Definition state_of_id (d : DB) (id : Z) : option string :=
  option_map State (find (by_id id) (systems d)).

Definition state_of_mac (d : DB) (mac : string) : option string :=
  option_map State (find (by_mac mac) (systems d)).

(** The rows of the [systems] table that carry a given MAC. *)
Definition rows_with_mac (d : DB) (mac : string) : list System :=
  filter (by_mac mac) (systems d).

(** The events of a given type among those fired. *)
Definition events_of_type (ty : string) (l : list webhook.Event) : list webhook.Event :=
  filter (fun e => String.eqb (webhook.Type_ e) ty) l.

(** The canonical text built from twelve hexadecimal digits, and the
    digits alone. *)
Definition canon (c0 c1 c2 c3 c4 c5 c6 c7 c8 c9 c10 c11 : ascii) : string :=
  String c0 (String c1 (String ":" (String c2 (String c3 (String ":"
  (String c4 (String c5 (String ":" (String c6 (String c7 (String ":"
  (String c8 (String c9 (String ":" (String c10 (String c11 "")))))))))))))))).

Definition digits12 (c0 c1 c2 c3 c4 c5 c6 c7 c8 c9 c10 c11 : ascii) : string :=
  string_of (map byte_of [c0; c1; c2; c3; c4; c5; c6; c7; c8; c9; c10; c11]).

(** A handler run on a sequence of requests, each at its own clock
    reading: the responses in order and the server afterwards. *)
Fixpoint serve (h : Server -> Clock -> Request -> Response * Server)
  (s : Server) (reqs : list (Clock * Request)) : list Response * Server :=
  match reqs with
  | [] => ([], s)
  | (now, r) :: rest =>
      let '(resp, s1) := h s now r in
      let '(resps, s2) := serve h s1 rest in
      (resp :: resps, s2)
  end.

(** The [system.<state>] event for a machine, as [fireSystemEvent] builds
    it and [Fire] stamps it. *)
Definition system_event (now : Clock) (sys : System) (state : string) : webhook.Event :=
  {| webhook.Type_ := ("system." ++ state)%string;
     webhook.Timestamp := rfc3339 now;
     webhook.Data_id := ID sys; webhook.Data_mac := MAC sys;
     webhook.Data_hostname := Hostname sys;
     webhook.Data_ip_addr := IPAddr sys;
     webhook.Data_state := state |}.

(** A machine for which the boot handler must answer with the exit
    script: no image, no hostname, or not queued. *)
Definition not_bootable (sys : System) : Prop :=
  ImageID sys = None \/ Hostname sys = "" \/ State sys <> "queued".

(** *** Sample data for the worked instances *)

Definition clk (t : Z) : Clock :=
  {| unix := t; datetime := "2026-01-01 00:00:00";
     rfc3339 := "2026-01-01T00:00:00Z" |}.

Definition machine (id : Z) (mac hostname : string) (img : option Z)
  (state : string) : System :=
  {| ID := id; MAC := mac; Hostname := hostname; ImageID := img;
     ProfileID := None; Vars := "{}"; IPAddr := "10.0.0.7"; LastSeenAt := "";
     State := state; StateChangedAt := ""; CreatedAt := "2025-12-31 00:00:00";
     UpdatedAt := "2025-12-31 00:00:00" |}.

Definition sample_image : Image :=
  {| ImgID := 1; ImgName := "u24"; BootType := "linux";
     Cmdline := "console=ttyS0"; IPXEScript := "" |}.

Definition server_with (rows : list System) (key : string) : Server :=
  {| DB_ := {| systems := rows; systems_seq := Z.of_nat (List.length rows);
               images := [sample_image]; settings := [("confirm_reimage", "0")] |};
     ServerURL := "http://10.0.0.1:8080"; signingKey := key; fired := [] |}.

Definition boot_request (mac : string) : Request :=
  {| URL_Path := "/boot.ipxe"; URL_Query := [("mac", mac)]; PathValues := [];
     Form := []; RemoteAddr := "10.0.0.7:49152"; Host := "10.0.0.1:8080" |}.

Definition action_request (id action : string) : Request :=
  {| URL_Path := ("/systems/" ++ id ++ "/state")%string; URL_Query := [];
     PathValues := [("id", id)]; Form := [("action", action)];
     RemoteAddr := "10.0.0.9:50000"; Host := "10.0.0.1:8080" |}.

Definition callback_request (mac : string) (query : list (string * string)) : Request :=
  {| URL_Path := ("/api/v1/systems/" ++ mac ++ "/callback")%string;
     URL_Query := query; PathValues := [("mac", mac)]; Form := [];
     RemoteAddr := "10.0.0.7:49153"; Host := "10.0.0.1:8080" |}.

(** A [host:port] splitter for the instances: the text before and after
    the last colon. *)
Fixpoint split_last_colon (s : string) : option (string * string) :=
  match s with
  | EmptyString => None
  | String c r =>
      match split_last_colon r with
      | Some (h, p) => Some (String c h, p)
      | None => if Ascii.eqb c ":" then Some (EmptyString, r) else None
      end
  end.

Definition sample_render (s : Server) (now : Clock) (r : Request)
  (sys : System) (img : Image) : option string :=
  Some ("#!ipxe" ++ LF ++ "kernel " ++ signURL s now (ServerURL s ++ "/images/1/file/vmlinuz")
        ++ " " ++ Cmdline img ++ LF ++ "boot" ++ LF)%string.

Definition sample_row (d : DB) (sys : System) : string :=
  ("<tr><td>" ++ MAC sys ++ "</td><td>" ++ State sys ++ "</td></tr>")%string.

(** The row of [m] is its only one, canonical and still [discovered]. *)
Definition lone_discovered (m : string) (s : Server) : Prop :=
  exists row, rows_with_mac (DB_ s) m = [row] /\ MAC row = m /\
              State row = "discovered".

(** Three boot calls of one machine, under three spellings of its MAC. *)
Definition three_boots : list (Clock * Request) :=
  [ (clk 1767225600, boot_request "aa-bb-cc-dd-ee-ff");
    (clk 1767225601, boot_request "AA:BB:CC:DD:EE:FF");
    (clk 1767225602, boot_request " aabb.ccdd.eeff") ].

(** A provisioning machine, a signing key, and two callbacks that carry a
    token valid for the callback path. *)
Definition callback_path : string := "/api/v1/systems/aa:bb:cc:dd:ee:ff/callback".

Definition provisioning_server : Server :=
  server_with [machine 1 "aa:bb:cc:dd:ee:ff" "node01" (Some 1) "provisioning"]
              "0123456789abcdef0123456789abcdef".

Definition signed_callback (t : Z) : Clock * Request :=
  (clk t, callback_request "aa:bb:cc:dd:ee:ff"
            [("tok", token (signingKey provisioning_server) (1767225600 + 3600)
                           callback_path)]).

Definition two_callbacks : list (Clock * Request) :=
  [signed_callback 1767225700; signed_callback 1767225800].

(** *** Sample data for the proxy-DHCP instances *)

(** Dotted-quad text of an IPv4 address, for the instances. *)
Definition dotted (ip : safenet.IP) : string :=
  match safenet.To4 ip with
  | Some [a; b; c; d] =>
      (strconv.FormatInt a ++ "." ++ strconv.FormatInt b ++ "." ++
       strconv.FormatInt c ++ "." ++ strconv.FormatInt d)%string
  | _ => "<nil>"
  end.

Definition dhcp_server : proxydhcp.Server :=
  {| proxydhcp.ServerIP := safenet.IPv4 10 0 0 1;
     proxydhcp.TFTPAddr := ":69"; proxydhcp.HTTPAddr := ":8080";
     proxydhcp.ServerURL := "" |}.

(** A DISCOVER from client [00:11:22:33:44:55] with the given vendor class
    (option 60) and architecture (option 93). *)
Definition discover (class : string) (arch : list Z) : proxydhcp.DHCPv4 :=
  {| proxydhcp.OpCode := proxydhcp.OpcodeBootRequest;
     proxydhcp.HWType := 1;
     proxydhcp.TransactionID := [0x12; 0x34; 0x56; 0x78];
     proxydhcp.Flags := 0x8000;
     proxydhcp.ClientHWAddr := [0x00; 0x11; 0x22; 0x33; 0x44; 0x55];
     proxydhcp.ClientIPAddr := safenet.IPv4zero;
     proxydhcp.YourIPAddr := safenet.IPv4zero;
     proxydhcp.ServerIPAddr := safenet.IPv4zero;
     proxydhcp.GatewayIPAddr := safenet.IPv4zero;
     proxydhcp.Opts :=
       [ (proxydhcp.OptionMessageType, [proxydhcp.MessageTypeDiscover]);
         (proxydhcp.OptionClassIdentifier, bytes_of class);
         (proxydhcp.OptionClientSystemArchitectureType, arch) ] |}.

(** *** The SSRF contract in the specification's words *)

Definition is_byte (b : Z) : bool := (0 <=? b) && (b <? 256).

(** A resolved address: 4 or 16 bytes. *)
Definition valid_ip (ip : safenet.IP) : bool :=
  ((List.length ip =? 4)%nat || (List.length ip =? 16)%nat) && forallb is_byte ip.

(** The private, loopback and link-local addresses that the specification
    lists: 127.0.0.0/8 and ::1 (loopback), 169.254.0.0/16 and fe80::/10
    (link-local), 10.0.0.0/8, 172.16.0.0/12, 192.168.0.0/16 and fc00::/7.
    An IPv4-mapped IPv6 address is read as the IPv4 address it carries. *)
Definition listed_v4 (a b : Z) : bool :=
  (a =? 127) || ((a =? 169) && (b =? 254)) || (a =? 10)
  || ((a =? 172) && (16 <=? b) && (b <=? 31)) || ((a =? 192) && (b =? 168)).

Definition listed_v6 (ip : safenet.IP) : bool :=
  safenet.eq_bytes ip safenet.IPv6loopback
  || ((safenet.at_ 0 ip =? 0xfe) && (0x80 <=? safenet.at_ 1 ip) && (safenet.at_ 1 ip <=? 0xbf))
  || (safenet.at_ 0 ip =? 0xfc) || (safenet.at_ 0 ip =? 0xfd).

Definition listed_private (ip : safenet.IP) : bool :=
  match safenet.To4 ip with
  | Some ip4 => listed_v4 (safenet.at_ 0 ip4) (safenet.at_ 1 ip4)
  | None => (List.length ip =? 16)%nat && listed_v6 ip
  end.

(** Everything the guard refuses: the listed addresses, the unspecified
    addresses and link-local multicast. *)
Definition blocked (ip : safenet.IP) : bool :=
  listed_private ip || safenet.IsUnspecified ip || safenet.IsLinkLocalMulticast ip.

(** A resolver that answers every name with the same addresses. *)
Definition resolves_to (ips : list safenet.IP) (host : string)
  : db.result (list safenet.IP) := db.Ok ips.

(** *** Catalog entries *)

(** The string fields that [Entry.Hash] writes. *)
Inductive hashed_field :=
| HName | HDescription | HVersion | HArch | HBootType | HCmdline | HIPXEScript
| HOSFamily | HKernelParams | HConfigTemplate.

Definition get_field (f : hashed_field) (e : catalog.Entry) : string :=
  match f with
  | HName => catalog.Name e
  | HDescription => catalog.Description e
  | HVersion => catalog.Version e
  | HArch => catalog.Arch e
  | HBootType => catalog.BootType e
  | HCmdline => catalog.Cmdline e
  | HIPXEScript => catalog.IPXEScript e
  | HOSFamily => catalog.OSFamily e
  | HKernelParams => catalog.KernelParams e
  | HConfigTemplate => catalog.ConfigTemplate e
  end.

(** The entry with one of these fields replaced and everything else kept. *)
Definition set_field (f : hashed_field) (v : string) (e : catalog.Entry)
  : catalog.Entry :=
  let pick g := if match f, g with
                   | HName, HName | HDescription, HDescription
                   | HVersion, HVersion | HArch, HArch | HBootType, HBootType
                   | HCmdline, HCmdline | HIPXEScript, HIPXEScript
                   | HOSFamily, HOSFamily | HKernelParams, HKernelParams
                   | HConfigTemplate, HConfigTemplate => true
                   | _, _ => false
                   end then v else get_field g e in
  {| catalog.ID := catalog.ID e; catalog.Icon := catalog.Icon e;
     catalog.IconColor := catalog.IconColor e;
     catalog.Name := pick HName; catalog.Description := pick HDescription;
     catalog.Version := pick HVersion; catalog.Arch := pick HArch;
     catalog.BootType := pick HBootType; catalog.Cmdline := pick HCmdline;
     catalog.IPXEScript := pick HIPXEScript; catalog.Files := catalog.Files e;
     catalog.OSFamily := pick HOSFamily; catalog.KernelParams := pick HKernelParams;
     catalog.ConfigTemplate := pick HConfigTemplate; catalog.Vars := catalog.Vars e |}.

(** The entry with its fields that are not hashed replaced: catalog id,
    icon and icon colour. *)
Definition set_unhashed (id icon color : string) (e : catalog.Entry)
  : catalog.Entry :=
  {| catalog.ID := id; catalog.Icon := icon; catalog.IconColor := color;
     catalog.Name := catalog.Name e; catalog.Description := catalog.Description e;
     catalog.Version := catalog.Version e; catalog.Arch := catalog.Arch e;
     catalog.BootType := catalog.BootType e; catalog.Cmdline := catalog.Cmdline e;
     catalog.IPXEScript := catalog.IPXEScript e; catalog.Files := catalog.Files e;
     catalog.OSFamily := catalog.OSFamily e;
     catalog.KernelParams := catalog.KernelParams e;
     catalog.ConfigTemplate := catalog.ConfigTemplate e;
     catalog.Vars := catalog.Vars e |}.

(** Two different byte strings with the same SHA-256 digest. *)
Definition sha256_collision (x y : string) : Prop :=
  x <> y /\ sha256.Sum256 x = sha256.Sum256 y.


(** The inverse of two hexadecimal digits. *)
Definition unhex1 (c : ascii) : Z :=
  let b := byte_of c in if b <? 58 then b - 48 else b - 87.

Definition unhex (hi lo : ascii) : ascii := ascii_of (16 * unhex1 hi + unhex1 lo).

(** The entry of scenario S6 and the file lists of the NUL-byte instance. *)
Definition u24_entry : catalog.Entry :=
  {| catalog.ID := "u24-server"; catalog.Icon := ""; catalog.IconColor := "";
     catalog.Name := "Ubuntu 24.04 Server"; catalog.Description := "LTS server image";
     catalog.Version := "24.04"; catalog.Arch := "amd64"; catalog.BootType := "linux";
     catalog.Cmdline := "console=ttyS0"; catalog.IPXEScript := "";
     catalog.Files :=
       [ {| catalog.FName := "vmlinuz"; catalog.FURL := "https://mirror/vmlinuz";
            catalog.FSHA256 := "" |};
         {| catalog.FName := "initrd.img"; catalog.FURL := "https://mirror/initrd.img";
            catalog.FSHA256 := "" |} ];
     catalog.OSFamily := ""; catalog.KernelParams := ""; catalog.ConfigTemplate := "";
     catalog.Vars := [] |}.

Definition with_files (fs : list catalog.File) (e : catalog.Entry) : catalog.Entry :=
  {| catalog.ID := catalog.ID e; catalog.Icon := catalog.Icon e;
     catalog.IconColor := catalog.IconColor e;
     catalog.Name := catalog.Name e; catalog.Description := catalog.Description e;
     catalog.Version := catalog.Version e; catalog.Arch := catalog.Arch e;
     catalog.BootType := catalog.BootType e; catalog.Cmdline := catalog.Cmdline e;
     catalog.IPXEScript := catalog.IPXEScript e; catalog.Files := fs;
     catalog.OSFamily := catalog.OSFamily e;
     catalog.KernelParams := catalog.KernelParams e;
     catalog.ConfigTemplate := catalog.ConfigTemplate e;
     catalog.Vars := catalog.Vars e |}.



(** *** Signed URLs *)

(** The request a client sends for a signed URL: the path of the URL and
    the [tok] parameter it carries. *)
Definition request_for (path tok : string) : Request :=
  {| URL_Path := path; URL_Query := [("tok", tok)]; PathValues := [];
     Form := []; RemoteAddr := "10.0.0.7:49152"; Host := "10.0.0.1:8080" |}.

Definition keyed_server : Server := provisioning_server.

(** The callback URL as [handleBootScript] and [handleServeConfig] build it
    before signing: server URL, then the path. *)
Definition callback_url : string :=
  (ServerURL keyed_server ++ callback_path)%string.

(** [free_of c s]: the byte [c] does not occur in [s]. *)
Fixpoint free_of (c : ascii) (s : string) : bool :=
  match s with
  | EmptyString => true
  | String x r => negb (Ascii.eqb x c) && free_of c r
  end.

End props.

(** * More of the code *)

(** ** internal/db/systems.go: the operator's statements *)

Module sysops.

Import db.

(** The row that [INSERT INTO systems (mac, hostname)] creates. *)
Definition created_row (id : Z) (mac hostname now : string) : System :=
  {| ID := id; MAC := mac; Hostname := hostname; ImageID := None;
     ProfileID := None; Vars := "{}"; IPAddr := ""; LastSeenAt := "";
     State := "discovered"; StateChangedAt := ""; CreatedAt := now;
     UpdatedAt := now |}.

(** [&System{ID: id, MAC: mac, Hostname: hostname}]: what [CreateSystem]
    hands back; every other field has Go's zero value. *)
Definition created_value (id : Z) (mac hostname : string) : System :=
  {| ID := id; MAC := mac; Hostname := hostname; ImageID := None;
     ProfileID := None; Vars := ""; IPAddr := ""; LastSeenAt := "";
     State := ""; StateChangedAt := ""; CreatedAt := ""; UpdatedAt := "" |}.

(** A plain [INSERT]: a [mac] that is already present violates the UNIQUE
    constraint and the statement fails. *)
Definition CreateSystem (d : DB) (now : string) (mac hostname : string)
  : result System * DB :=
  match normalizeMAC mac with
  | Err e => (Err e, d)
  | Ok mac =>
      if existsb (by_mac mac) (systems d)
      then (Err "insert system: UNIQUE constraint failed: systems.mac", d)
      else
        let id := systems_seq d + 1 in
        (Ok (created_value id mac hostname),
         {| systems := systems d ++ [created_row id mac hostname now];
            systems_seq := id; images := images d; settings := settings d |})
  end.

Definition set_image (img : option Z) (now : string) (s : System) : System :=
  {| ID := ID s; MAC := MAC s; Hostname := Hostname s; ImageID := img;
     ProfileID := ProfileID s; Vars := Vars s; IPAddr := IPAddr s;
     LastSeenAt := LastSeenAt s; State := State s;
     StateChangedAt := StateChangedAt s; CreatedAt := CreatedAt s;
     UpdatedAt := now |}.

Definition set_profile (p : option Z) (now : string) (s : System) : System :=
  {| ID := ID s; MAC := MAC s; Hostname := Hostname s; ImageID := ImageID s;
     ProfileID := p; Vars := Vars s; IPAddr := IPAddr s;
     LastSeenAt := LastSeenAt s; State := State s;
     StateChangedAt := StateChangedAt s; CreatedAt := CreatedAt s;
     UpdatedAt := now |}.

Definition set_vars (v now : string) (s : System) : System :=
  {| ID := ID s; MAC := MAC s; Hostname := Hostname s; ImageID := ImageID s;
     ProfileID := ProfileID s; Vars := v; IPAddr := IPAddr s;
     LastSeenAt := LastSeenAt s; State := State s;
     StateChangedAt := StateChangedAt s; CreatedAt := CreatedAt s;
     UpdatedAt := now |}.

Definition set_info (mac hostname now : string) (s : System) : System :=
  {| ID := ID s; MAC := mac; Hostname := hostname; ImageID := ImageID s;
     ProfileID := ProfileID s; Vars := Vars s; IPAddr := IPAddr s;
     LastSeenAt := LastSeenAt s; State := State s;
     StateChangedAt := StateChangedAt s; CreatedAt := CreatedAt s;
     UpdatedAt := now |}.

(** [image_id] references [images(id)] and foreign keys are enforced
    ([PRAGMA foreign_keys=ON]): pointing a row at an image that does not
    exist fails the statement. *)
Definition UpdateSystemImage (d : DB) (now : string) (id : Z) (imageID : option Z)
  : option string * DB :=
  let dangling :=
    match imageID with
    | Some i => negb (existsb (fun img => ImgID img =? i) (images d))
    | None => false
    end in
  if existsb (by_id id) (systems d) && dangling
  then (Some "FOREIGN KEY constraint failed", d)
  else (None, with_systems d (fst (update_where (by_id id) (set_image imageID now)
                                                (systems d)))).

Definition UpdateSystemVars (d : DB) (now : string) (id : Z) (vars : string) : DB :=
  let vars := if String.eqb vars "" then "{}" else vars in
  with_systems d (fst (update_where (by_id id) (set_vars vars now) (systems d))).

(** The new [mac] must not be the one of another row (UNIQUE). *)
Definition UpdateSystemInfo (d : DB) (now : string) (id : Z) (mac hostname : string)
  : option string * DB :=
  match normalizeMAC mac with
  | Err e => (Some e, d)
  | Ok mac =>
      if existsb (by_id id) (systems d)
         && existsb (fun s => by_mac mac s && negb (by_id id s)) (systems d)
      then (Some "UNIQUE constraint failed: systems.mac", d)
      else (None, with_systems d (fst (update_where (by_id id)
                                         (set_info mac hostname now) (systems d))))
  end.

Definition DeleteSystem (d : DB) (id : Z) : DB :=
  with_systems d (filter (fun s => negb (by_id id s)) (systems d)).

(** [profile_id] references [profiles(id)] in the same way; the
    [profiles] table is not part of the store here, [profile_exists] says
    which ids it holds. *)
Definition UpdateSystemProfile (profile_exists : Z -> bool) (d : DB)
  (now : string) (id : Z) (profileID : option Z) : option string * DB :=
  let dangling :=
    match profileID with
    | Some p => negb (profile_exists p)
    | None => false
    end in
  if existsb (by_id id) (systems d) && dangling
  then (Some "FOREIGN KEY constraint failed", d)
  else (None, with_systems d (fst (update_where (by_id id) (set_profile profileID now)
                                                (systems d)))).

(** *** settings *)

Definition by_key (key : string) (kv : string * string) : bool :=
  String.eqb (fst kv) key.

(** [INSERT ... ON CONFLICT(key) DO UPDATE SET value = excluded.value] *)
Definition SetSetting (d : DB) (key value : string) : DB :=
  {| systems := systems d; systems_seq := systems_seq d; images := images d;
     settings :=
       if existsb (by_key key) (settings d)
       then map (fun kv => if by_key key kv then (fst kv, value) else kv) (settings d)
       else (settings d ++ [(key, value)])%list |}.

Definition DeleteSetting (d : DB) (key : string) : DB :=
  {| systems := systems d; systems_seq := systems_seq d; images := images d;
     settings := filter (fun kv => negb (by_key key kv)) (settings d) |}.

End sysops.

(** ** The operator's handlers for machines and settings *)

Module crud.

Import db httpserver handlers sysops.

Definition html (b : string) : Response :=
  {| status := 200; contentType := "text/html; charset=utf-8"; body := b |}.

(** [w.WriteHeader(http.StatusOK)] and nothing else. *)
Definition empty_ok : Response :=
  {| status := 200; contentType := ""; body := "" |}.

Section Crud.

(** The templates: [system_row] as [renderSystemRow] runs it, [system_row]
    with the empty name maps of [handleCreateSystem], and [confirm_global];
    and the ids of the [profiles] table. *)
Variable system_row : DB -> System -> string.
Variable system_row_new : System -> string.
Variable confirm_global : bool -> string.
Variable profile_exists : Z -> bool.

Definition handleCreateSystem (s : Server) (now : Clock) (r : Request)
  : Response * Server :=
  let mac := Get "mac" (Form r) in
  let hostname := Get "hostname" (Form r) in
  if String.eqb mac "" then (Error "MAC address is required" 400, s)
  else
    match CreateSystem (DB_ s) (datetime now) mac hostname with
    | (Err _, d) => (Error "Failed to create system" 400, with_db s d)
    | (Ok sys, d) =>
        let s := with_db s d in
        let s := fireSystemEvent s now sys "discovered" in
        (html (system_row_new sys), s)
    end.

(** [image_id] and [profile_id] of the form: empty, ["0"] and text that is
    not a number all mean no assignment. *)
Definition form_id (v : string) : option Z :=
  if negb (String.eqb v "") && negb (String.eqb v "0") then strconv.ParseInt v
  else None.

Definition handleUpdateSystem (s : Server) (now : Clock) (r : Request)
  : Response * Server :=
  match strconv.ParseInt (Get "id" (PathValues r)) with
  | None => (Error "Invalid ID" 400, s)
  | Some id =>
      let mac := Get "mac" (Form r) in
      let hostname := Get "hostname" (Form r) in
      let vars := Get "vars" (Form r) in
      match UpdateSystemInfo (DB_ s) (datetime now) id mac hostname with
      | (Some _, d) => (Error "Failed to update system" 400, with_db s d)
      | (None, d) =>
          let d := UpdateSystemVars d (datetime now) id vars in
          let imageID := form_id (Get "image_id" (Form r)) in
          match UpdateSystemImage d (datetime now) id imageID with
          | (Some _, d) => (Error "Internal Server Error" 500, with_db s d)
          | (None, d) =>
              let profileID := form_id (Get "profile_id" (Form r)) in
              match UpdateSystemProfile profile_exists d (datetime now) id profileID with
              | (Some _, d) => (Error "Internal Server Error" 500, with_db s d)
              | (None, d) =>
                  let s := with_db s d in
                  (renderSystemRow system_row s id, s)
              end
          end
      end
  end.

Definition handleDeleteSystem (s : Server) (now : Clock) (r : Request)
  : Response * Server :=
  match strconv.ParseInt (Get "id" (PathValues r)) with
  | None => (Error "Invalid ID" 400, s)
  | Some id => (empty_ok, with_db s (DeleteSystem (DB_ s) id))
  end.

Definition handleToggleConfirmGlobal (s : Server) (now : Clock) (r : Request)
  : Response * Server :=
  let val := if String.eqb (Get "value" (Form r)) "true" then "1" else "0" in
  (html (confirm_global (String.eqb val "1")),
   with_db s (SetSetting (DB_ s) "confirm_reimage" val)).

End Crud.

End crud.
(** ** internal/httpserver/middleware.go: sessions *)

Module session.

Import db httpserver.

Definition sessionMaxAge : Z := 30 * 24 * 60 * 60.

(** The value of the [duh_session] cookie that [createSession] sets:
    [base64url(expiry "|" base64url(HMAC(key, expiry)))]. *)
Definition createSession (key : string) (now : Clock) : string :=
  let expiry := unix now + sessionMaxAge in
  let payload := strconv.FormatInt expiry in
  let sig := hmac.Sum key payload in
  base64.EncodeToString (payload ++ "|" ++ base64.EncodeToString sig)%string.

(** [cookie] is the value of the request's [duh_session] cookie, [None]
    when the request has none. *)
Definition validateSession (key : string) (now : Clock) (cookie : option string)
  : bool :=
  if (String.length key =? 0)%nat then false
  else
    match cookie with
    | None => false
    | Some value =>
        match base64.DecodeString value with
        | None => false
        | Some raw =>
            match strings.SplitN2 raw "|" with
            | [expiryStr; sigB64] =>
                match strconv.ParseInt expiryStr with
                | None => false
                | Some expiry =>
                    if expiry <? unix now then false
                    else
                      match base64.DecodeString sigB64 with
                      | None => false
                      | Some sig => hmac.Equal (hmac.Sum key expiryStr) sig
                      end
                end
            | _ => false
            end
        end
    end.

(** What [AuthMiddleware] does with a request: hand it to the wrapped
    handler, answer 401 with an [HX-Redirect] header, or redirect to
    [/login] with 302. *)
Inductive verdict :=
| Next
| Unauthorized
| ToLogin.

(** [hash] and [key] are what [getAuthState] returns, [hx] the value of
    the [HX-Request] header. *)
Definition AuthMiddleware (hash key : string) (now : Clock)
  (cookie : option string) (hx : string) : verdict :=
  if String.eqb hash "" then Next
  else if validateSession key now cookie then Next
  else if String.eqb hx "true" then Unauthorized
  else ToLogin.

End session.

(** ** internal/tftpserver and the HTTP routes of the iPXE binaries *)

Module tftpserver.

Import db httpserver.

(** The [files] map: request name to embedded path. *)
Definition files : list (string * string) :=
  [ ("undionly.kpxe", "ipxebin/undionly.kpxe");
    ("ipxe.efi", "ipxebin/ipxe.efi");
    ("ipxe-arm64.efi", "ipxebin/ipxe-arm64.efi") ].

Definition lookup (name : string) : option string :=
  option_map snd (find (fun kv => String.eqb (fst kv) name) files).

Section Embedded.

(** [ipxeFS.ReadFile] *)
Variable ReadFile : string -> result string.

Definition GetIPXEBinary (name : string) : result string :=
  match lookup name with
  | None => Err ("unknown iPXE binary: " ++ name)
  | Some path => ReadFile path
  end.

(** What [readHandler] sends, or its error. *)
Definition readHandler (filename : string) : result string :=
  match lookup filename with
  | None => Err ("file not found: " ++ filename)
  | Some path =>
      match ReadFile path with
      | Err e => Err ("read embedded file: " ++ e)
      | Ok data => Ok data
      end
  end.

Definition serveIPXEBinary (name contentType : string) : Response :=
  match GetIPXEBinary name with
  | Err _ => Error "iPXE binary not found" 404
  | Ok data => {| status := 200; contentType := contentType; body := data |}
  end.

(** [GET /ipxe.efi], [GET /ipxe-arm64.efi] and [GET /undionly.kpxe] as
    [registerRoutes] wires them to [handleServeIPXE],
    [handleServeIPXEArm64] and [handleServeUndionly]. *)
Definition ipxe_route (path : string) : option Response :=
  if String.eqb path "/ipxe.efi" then Some (serveIPXEBinary "ipxe.efi" "application/efi")
  else if String.eqb path "/ipxe-arm64.efi"
  then Some (serveIPXEBinary "ipxe-arm64.efi" "application/efi")
  else if String.eqb path "/undionly.kpxe"
  then Some (serveIPXEBinary "undionly.kpxe" "application/octet-stream")
  else None.

End Embedded.

End tftpserver.

(** ** internal/webhook: the dispatcher, and the [webhooks] table *)

Module dispatcher.

Import db httpserver.

Record Webhook := {
  WID : Z;
  URL : string;
  Secret : string;
  Events : string;
  Enabled : bool
}.

(** The [webhooks] table in id order and its AUTOINCREMENT mark. *)
Record Table := {
  rows : list Webhook;
  seq : Z
}.

(** [INSERT INTO webhooks (url, secret, events)]; [enabled] defaults to 1. *)
Definition CreateWebhook (t : Table) (url secret events : string) : Z * Table :=
  let id := seq t + 1 in
  (id, {| rows := rows t ++ [ {| WID := id; URL := url; Secret := secret;
                                 Events := events; Enabled := true |} ];
          seq := id |}).

Definition GetWebhook (t : Table) (id : Z) : option Webhook :=
  find (fun w => WID w =? id) (rows t).

Definition UpdateWebhook (t : Table) (id : Z) (url secret events : string)
  (enabled : bool) : Table :=
  {| rows := map (fun w => if WID w =? id
                           then {| WID := WID w; URL := url; Secret := secret;
                                   Events := events; Enabled := enabled |}
                           else w) (rows t);
     seq := seq t |}.

Definition DeleteWebhook (t : Table) (id : Z) : Table :=
  {| rows := filter (fun w => negb (WID w =? id)) (rows t); seq := seq t |}.

(** [SELECT ... WHERE enabled = 1 ORDER BY id] *)
Definition ListEnabledWebhooks (t : Table) : list Webhook :=
  filter Enabled (rows t).

(** [strings.Split(s, sep)] for a one-byte separator. *)
Fixpoint Split (s : string) (sep : ascii) : list string :=
  match s with
  | EmptyString => [EmptyString]
  | String c r =>
      if Ascii.eqb c sep then EmptyString :: Split r sep
      else match Split r sep with
           | h :: t => String c h :: t
           | [] => [String c EmptyString]
           end
  end.

Definition matchEvent (pattern eventType : string) : bool :=
  if String.eqb pattern "*" then true
  else existsb (fun p => String.eqb (TrimSpace p) eventType) (Split pattern ",").

(** The webhooks that the worker delivers an event to, in order. *)
Definition recipients (t : Table) (e : webhook.Event) : list Webhook :=
  filter (fun wh => matchEvent (Events wh) (webhook.Type_ e)) (ListEnabledWebhooks t).

(** The [X-Webhook-Signature] header that [deliver] sets on a body. *)
Definition signature (wh : Webhook) (body : string) : option string :=
  if negb (String.eqb (Secret wh) "")
  then Some (hex.EncodeToString (hmac.Sum (Secret wh) body))
  else None.

(** The event channel, [make(chan Event, 100)]: the events waiting for the
    worker, oldest first. *)
Definition capacity : nat := 100.

Definition stamp (now : Clock) (e : webhook.Event) : webhook.Event :=
  if String.eqb (webhook.Timestamp e) ""
  then {| webhook.Type_ := webhook.Type_ e;
          webhook.Timestamp := rfc3339 now;
          webhook.Data_id := webhook.Data_id e;
          webhook.Data_mac := webhook.Data_mac e;
          webhook.Data_hostname := webhook.Data_hostname e;
          webhook.Data_ip_addr := webhook.Data_ip_addr e;
          webhook.Data_state := webhook.Data_state e |}
  else e.

(** [Dispatcher.Fire]: a non-blocking send; the event is dropped when the
    channel is full. *)
Definition Fire (ch : list webhook.Event) (now : Clock) (e : webhook.Event)
  : list webhook.Event :=
  if (List.length ch <? capacity)%nat then (ch ++ [stamp now e])%list else ch.

(** The worker's [range d.ch]: the oldest event, if any, leaves the channel. *)
Definition receive (ch : list webhook.Event)
  : option (webhook.Event * list webhook.Event) :=
  match ch with
  | [] => None
  | e :: rest => Some (e, rest)
  end.

Section Handlers.

(** The [webhook_row] template. *)
Variable webhook_row : Webhook -> string.

Definition handleCreateWebhook (t : Table) (r : Request) : Response * Table :=
  let url := TrimSpace (Get "url" (Form r)) in
  let secret := Get "secret" (Form r) in
  let events := Get "events" (Form r) in
  if String.eqb url "" then (Error "URL is required" 400, t)
  else
    let events := if String.eqb events "" then "*" else events in
    let '(id, t) := CreateWebhook t url secret events in
    match GetWebhook t id with
    | None => (Error "Internal Server Error" 500, t)
    | Some wh =>
        ({| status := 200; contentType := "text/html; charset=utf-8";
            body := webhook_row wh |}, t)
    end.

Definition handleToggleWebhook (t : Table) (r : Request) : Response * Table :=
  match strconv.ParseInt (Get "id" (PathValues r)) with
  | None => (Error "Invalid ID" 400, t)
  | Some id =>
      match GetWebhook t id with
      | None => (Error "Webhook not found" 404, t)
      | Some wh =>
          let t := UpdateWebhook t id (URL wh) (Secret wh) (Events wh)
                                 (negb (Enabled wh)) in
          ({| status := 200; contentType := "text/html; charset=utf-8";
              body := webhook_row {| WID := WID wh; URL := URL wh; Secret := Secret wh;
                                     Events := Events wh;
                                     Enabled := negb (Enabled wh) |} |}, t)
      end
  end.

End Handlers.

End dispatcher.

(** ** Serving image and overlay files *)

Module files.

Import db httpserver.

Definition is_slash (c : ascii) : bool := Ascii.eqb c "/".

Fixpoint drop_slashes (l : list ascii) : list ascii :=
  match l with
  | [] => []
  | c :: r => if is_slash c then drop_slashes r else l
  end.

Fixpoint until_slash (l : list ascii) : list ascii :=
  match l with
  | [] => []
  | c :: r => if is_slash c then [] else c :: until_slash r
  end.

(** [filepath.Base] (Unix): trailing slashes are dropped, then everything up
    to the last slash; the empty path gives [.], a path of slashes [/]. *)
Definition Base (path : string) : string :=
  if String.eqb path "" then "."
  else
    match rev (until_slash (drop_slashes (rev (list_ascii_of_string path)))) with
    | [] => "/"
    | e => string_of_list_ascii e
    end.

(** What a file handler does: answer by itself, or call [http.ServeFile] on
    [filepath.Join(dir..., name)]. *)
Inductive answer :=
| Refuse (resp : Response)
| ServeFile (dir : list string) (name : string).

Definition serve_under (s : Server) (dataDir kind : string) (now : Clock)
  (r : Request) : answer :=
  if negb (validateToken s now r) then Refuse (Error "Forbidden" 403)
  else
    match strconv.ParseInt (Get "id" (PathValues r)) with
    | None => Refuse (Error "Invalid ID" 400)
    | Some idNum =>
        let name := Base (Get "name" (PathValues r)) in
        if String.eqb name "." || String.eqb name ".."
        then Refuse (Error "Invalid filename" 400)
        else ServeFile [dataDir; kind; strconv.FormatInt idNum] name
    end.

Definition handleServeImageFile (s : Server) (dataDir : string) :=
  serve_under s dataDir "images".

Definition handleServeOverlayFile (s : Server) (dataDir : string) :=
  serve_under s dataDir "profiles".

End files.

(** * Further definitions used to state the properties *)

Module more.

Import db httpserver handlers sysops crud props.

(** The five states of a machine. *)
Definition states : list string :=
  ["discovered"; "queued"; "provisioning"; "ready"; "failed"].

(** What the schema and the code together promise of the [systems] table:
    MACs and ids are unique, no id is above the AUTOINCREMENT mark, every
    MAC is in canonical form and every state is one of the five. *)
Definition store_ok (d : DB) : Prop :=
  NoDup (map MAC (systems d)) /\
  NoDup (map ID (systems d)) /\
  Forall (fun s => ID s <= systems_seq d) (systems d) /\
  Forall (fun s => normalizeMAC (MAC s) = Ok (MAC s)) (systems d) /\
  Forall (fun s => In (State s) states) (systems d).

(** The routes of [registerRoutes] that read or write the [systems] table
    and the settings. *)
Inductive route :=
| GET_boot_ipxe
| POST_callback
| POST_systems
| PUT_system
| DELETE_system
| PUT_system_state
| PUT_confirm_reimage.

Section Mux.

Variable SplitHostPort : string -> option (string * string).
Variable renderBootScript :
  Server -> Clock -> Request -> System -> Image -> option string.
Variable system_row : DB -> System -> string.
Variable system_row_new : System -> string.
Variable confirm_global : bool -> string.
Variable profile_exists : Z -> bool.

Definition handle (rt : route) : Server -> Clock -> Request -> Response * Server :=
  match rt with
  | GET_boot_ipxe => handleBootScript SplitHostPort renderBootScript
  | POST_callback => handleCallback
  | POST_systems => handleCreateSystem system_row_new
  | PUT_system => handleUpdateSystem system_row profile_exists
  | DELETE_system => handleDeleteSystem
  | PUT_system_state => handleSystemStateAction system_row
  | PUT_confirm_reimage => handleToggleConfirmGlobal confirm_global
  end.

(** Requests served one after another, each on its route and at its own
    clock reading. *)
Fixpoint serve_all (s : Server) (reqs : list (route * Clock * Request))
  : list Response * Server :=
  match reqs with
  | [] => ([], s)
  | (rt, now, r) :: rest =>
      let '(resp, s1) := handle rt s now r in
      let '(resps, s2) := serve_all s1 rest in
      (resp :: resps, s2)
  end.

End Mux.

(** The reply to a DISCOVER of an ARM64 UEFI PXE client. *)
Definition arm64_reply : proxydhcp.DHCPv4 :=
  Eval vm_compute in
    match proxydhcp.handler dotted dhcp_server [0; 0; 0; 0] (discover "PXEClient" [0; 11]) with
    | Some resp => resp
    | None => discover "" []
    end.

(** A catalog file with another checksum, and an entry with other
    variable definitions. *)
Definition rechecksum (sha : catalog.File -> string) (f : catalog.File)
  : catalog.File :=
  {| catalog.FName := catalog.FName f; catalog.FURL := catalog.FURL f;
     catalog.FSHA256 := sha f |}.

Definition with_vars (vs : list catalog.VarDef) (e : catalog.Entry) : catalog.Entry :=
  {| catalog.ID := catalog.ID e; catalog.Icon := catalog.Icon e;
     catalog.IconColor := catalog.IconColor e;
     catalog.Name := catalog.Name e; catalog.Description := catalog.Description e;
     catalog.Version := catalog.Version e; catalog.Arch := catalog.Arch e;
     catalog.BootType := catalog.BootType e; catalog.Cmdline := catalog.Cmdline e;
     catalog.IPXEScript := catalog.IPXEScript e; catalog.Files := catalog.Files e;
     catalog.OSFamily := catalog.OSFamily e;
     catalog.KernelParams := catalog.KernelParams e;
     catalog.ConfigTemplate := catalog.ConfigTemplate e;
     catalog.Vars := vs |}.

(** The order of file names that [Entry.Hash] sorts by. *)
Definition name_lt (f g : catalog.File) : Prop :=
  catalog.ltb (catalog.FName f) (catalog.FName g) = true.

(** [listed pattern t]: [t] is one of the comma-separated entries of
    [pattern], white space around an entry not counting. *)
Definition listed (pattern t : string) : bool :=
  existsb (fun p => String.eqb (TrimSpace p) t) (dispatcher.Split pattern ",").

(** What happens on the event channel: a handler fires an event, or the
    worker takes the oldest one (and waits when there is none). *)
Inductive chan_op :=
| Send (now : Clock) (e : webhook.Event)
| Recv.

Definition chan_step (ch : list webhook.Event) (op : chan_op) : list webhook.Event :=
  match op with
  | Send now e => dispatcher.Fire ch now e
  | Recv => match dispatcher.receive ch with
            | Some (_, rest) => rest
            | None => ch
            end
  end.

(** What a boot request may not change of a row. *)
Definition assignment (s : System) :=
  (ID s, MAC s, Hostname s, ImageID s, ProfileID s, Vars s).

End more.

(** * Properties *)

Import db httpserver handlers props.

(** ** The library models on published test vectors *)

Example sha256_empty :
  hex.EncodeToString (sha256.Sum256 "")
  = "e3b0c44298fc1c149afbf4c8996fb92427ae41e4649b934ca495991b7852b855".
Proof. vm_compute. reflexivity. Qed.

Example sha256_abc :
  hex.EncodeToString (sha256.Sum256 "abc")
  = "ba7816bf8f01cfea414140de5dae2223b00361a396177a9cb410ff61f20015ad".
Proof. vm_compute. reflexivity. Qed.

Example sha256_two_blocks :
  hex.EncodeToString
    (sha256.Sum256 "abcdbcdecdefdefgefghfghighijhijkijkljklmklmnlmnomnopnopq")
  = "248d6a61d20638b8e5c026930c3e6039a33ce45964ff2167f6ecedd419db06c1".
Proof. vm_compute. reflexivity. Qed.

Example hmac_rfc4231_case2 :
  hex.EncodeToString (hmac.Sum "Jefe" "what do ya want for nothing?")
  = "5bdcc146bf60754e6a042426089575c75a003f089d2739839dec58b964ec3843".
Proof. vm_compute. reflexivity. Qed.

Example base64_rfc4648 :
  base64.EncodeToString "foobar" = "Zm9vYmFy" /\
  base64.EncodeToString "fo" = "Zm8" /\
  base64.EncodeToString (string_of [0xfb; 0xff]) = "-_8" /\
  base64.DecodeString "Zm8" = Some "fo" /\
  base64.DecodeString "Zm8=" = None /\
  base64.DecodeString "Z" = None.
Proof. vm_compute. repeat split. Qed.

Example normalizeMAC_forms :
  normalizeMAC "AA-BB-CC-DD-EE-FF" = Ok "aa:bb:cc:dd:ee:ff" /\
  normalizeMAC " aabb.ccdd.eeff " = Ok "aa:bb:cc:dd:ee:ff" /\
  normalizeMAC "aa:bb:cc:dd:ee" = Err "invalid MAC address: aa:bb:cc:dd:ee" /\
  normalizeMAC "aa:bb:cc:dd:ee:fg" = Err "invalid MAC address: aa:bb:cc:dd:ee:fg".
Proof. vm_compute. repeat split. Qed.

(** Scenario S3: an unknown MAC boots from 10.0.0.7. *)
Example scenario_S3 :
  let out := handleBootScript split_last_colon sample_render (server_with [] "")
               (clk 1767225600) (boot_request "aa-bb-cc-dd-ee-ff") in
  fst out = text ipxe.ExitScript /\
  map (fun r => (MAC r, State r, IPAddr r)) (systems (DB_ (snd out)))
    = [("aa:bb:cc:dd:ee:ff", "discovered", "10.0.0.7")] /\
  map webhook.Type_ (fired (snd out)) = ["system.discovered"].
Proof. vm_compute. repeat split. Qed.

(** Scenario S1: BIOS PXE discovery. *)
Example scenario_S1 :
  let reply := proxydhcp.handler dotted dhcp_server [0; 0; 0; 0] (discover "PXEClient" []) in
  option_map proxydhcp.YourIPAddr reply = Some safenet.IPv4zero /\
  option_map proxydhcp.ServerIPAddr reply = Some (safenet.IPv4 10 0 0 1) /\
  option_map (fun d => proxydhcp.OptGet proxydhcp.OptionServerIdentifier (proxydhcp.Opts d))
             reply = Some (Some [10; 0; 0; 1]) /\
  option_map (fun d => option_map string_of
                (proxydhcp.OptGet proxydhcp.OptionBootfileName (proxydhcp.Opts d)))
             reply = Some (Some "undionly.kpxe") /\
  option_map (fun d => proxydhcp.OptGet proxydhcp.OptionVendorSpecificInformation
                         (proxydhcp.Opts d))
             reply = Some (Some [6; 1; 8; 255]) /\
  option_map proxydhcp.MessageType reply = Some proxydhcp.MessageTypeOffer.
Proof. vm_compute. repeat split. Qed.

(** ** The operator state actions *)


Lemma find_update_by_id id f rows sys :
  (forall s, ID (f s) = ID s) ->
  find (by_id id) rows = Some sys ->
  find (by_id id) (fst (update_where (by_id id) f rows)) = Some (f sys).
Proof.
  intros Hf. unfold update_where; simpl.
  induction rows as [|x rows IH]; simpl; [discriminate|].
  destruct (by_id id x) eqn:E.
  - intros [= ->]. simpl. unfold by_id in *. rewrite Hf, E. reflexivity.
  - intros H. simpl. rewrite E. auto.
Qed.

Lemma with_db_same s : with_db s (DB_ s) = s.
Proof. destruct s; reflexivity. Qed.


(** ** normalizeMAC *)

Lemma ascii_of_byte_of c : ascii_of (byte_of c) = c.
Proof.
  unfold ascii_of, byte_of. rewrite N2Z.id. apply ascii_N_embedding.
Qed.

Lemma byte_of_range c : 0 <= byte_of c < 256.
Proof.
  unfold byte_of. pose proof (N_ascii_bounded c). lia.
Qed.

Lemma string_of_bytes_of s : string_of (bytes_of s) = s.
Proof.
  induction s as [|c s IH]; simpl; [reflexivity|].
  now rewrite ascii_of_byte_of, IH.
Qed.

Lemma is_hex_cases b :
  is_hex b = true ->
  In b [48; 49; 50; 51; 52; 53; 54; 55; 56; 57; 97; 98; 99; 100; 101; 102].
Proof.
  unfold is_hex. intros H.
  assert (48 <= b <= 57 \/ 97 <= b <= 102) as Hr by lia.
  simpl. lia.
Qed.

Ltac hex_cases H :=
  apply is_hex_cases in H; simpl in H;
  repeat (destruct H as [H|H]; [subst; reflexivity|]); contradiction.

Lemma drop_space_hex b r : is_hex b = true -> drop_space (b :: r) = None.
Proof. intros H. hex_cases H. Qed.

Lemma drop_space_rev_hex b r : is_hex b = true -> drop_space_rev (b :: r) = None.
Proof. intros H. hex_cases H. Qed.

Lemma lower_hex b : is_hex b = true -> lower b = b.
Proof. intros H. hex_cases H. Qed.

Lemma is_sep_hex b : is_hex b = true -> is_sep b = false.
Proof. intros H. hex_cases H. Qed.

Lemma keep_digit b l :
  is_hex b = true ->
  filter (fun b => negb (is_sep b)) (b :: l) = b :: filter (fun b => negb (is_sep b)) l.
Proof. intros H. simpl. now rewrite (is_sep_hex _ H). Qed.

Lemma drop_colon l :
  filter (fun b => negb (is_sep b)) (58 :: l) = filter (fun b => negb (is_sep b)) l.
Proof. reflexivity. Qed.

Lemma trim_with_stop drop fuel l : drop l = None -> trim_with drop fuel l = l.
Proof. intros H. destruct fuel; simpl; [reflexivity|]. now rewrite H. Qed.

Lemma normalizeMAC_shape mac m :
  normalizeMAC mac = Ok m ->
  exists c0 c1 c2 c3 c4 c5 c6 c7 c8 c9 c10 c11,
    m = canon c0 c1 c2 c3 c4 c5 c6 c7 c8 c9 c10 c11 /\
    forallb is_hex (map byte_of [c0; c1; c2; c3; c4; c5; c6; c7; c8; c9; c10; c11]) = true.
Proof.
  unfold normalizeMAC.
  set (hex := strip_seps (ToLower (TrimSpace mac))).
  destruct (String.length hex =? 12)%nat eqn:Hlen; simpl; [|discriminate].
  destruct (forallb is_hex (bytes_of hex)) eqn:Hhex; simpl; [|discriminate].
  apply Nat.eqb_eq in Hlen.
  do 12 (destruct hex as [|? hex]; [discriminate Hlen|]).
  destruct hex; [|discriminate Hlen].
  intros [= <-]. do 12 eexists. split; [reflexivity|exact Hhex].
Qed.

Lemma normalizeMAC_canon c0 c1 c2 c3 c4 c5 c6 c7 c8 c9 c10 c11 :
  forallb is_hex (map byte_of [c0; c1; c2; c3; c4; c5; c6; c7; c8; c9; c10; c11]) = true ->
  normalizeMAC (canon c0 c1 c2 c3 c4 c5 c6 c7 c8 c9 c10 c11)
  = Ok (canon c0 c1 c2 c3 c4 c5 c6 c7 c8 c9 c10 c11).
Proof.
  intros H. cbn [forallb map] in H.
  repeat (apply andb_prop in H; destruct H as [? H]).
  unfold normalizeMAC.
  assert (Ht : TrimSpace (canon c0 c1 c2 c3 c4 c5 c6 c7 c8 c9 c10 c11)
               = canon c0 c1 c2 c3 c4 c5 c6 c7 c8 c9 c10 c11).
  { unfold TrimSpace.
    rewrite (trim_with_stop drop_space) by (cbn [canon bytes_of]; now apply drop_space_hex).
    rewrite (trim_with_stop drop_space_rev)
      by (cbn [canon bytes_of rev app]; now apply drop_space_rev_hex).
    rewrite rev_involutive. apply string_of_bytes_of. }
  rewrite Ht.
  assert (Hs : strip_seps (ToLower (canon c0 c1 c2 c3 c4 c5 c6 c7 c8 c9 c10 c11))
               = digits12 c0 c1 c2 c3 c4 c5 c6 c7 c8 c9 c10 c11).
  { unfold strip_seps, ToLower, digits12. f_equal.
    cbn [canon bytes_of map].
    change (byte_of ":"%char) with 58. change (lower 58) with 58.
    rewrite !lower_hex by assumption.
    cbn [string_of bytes_of].
    rewrite !ascii_of_byte_of.
    change (byte_of (ascii_of 58)) with 58.
    repeat first [rewrite keep_digit by assumption | rewrite drop_colon].
    reflexivity. }
  rewrite Hs. unfold digits12. cbn [map string_of String.length Nat.eqb negb].
  repeat rewrite ascii_of_byte_of.
  cbn [bytes_of forallb].
  repeat match goal with Hx : is_hex _ = true |- _ => rewrite Hx; clear Hx end.
  reflexivity.
Qed.

(** Normalisation is idempotent (invariant 1 of the specification). *)
Lemma normalizeMAC_idem mac m : normalizeMAC mac = Ok m -> normalizeMAC m = Ok m.
Proof.
  intros H. apply normalizeMAC_shape in H.
  destruct H as (c0&c1&c2&c3&c4&c5&c6&c7&c8&c9&c10&c11&->&H).
  now apply normalizeMAC_canon.
Qed.

(** ** Auto-registration *)

Lemma existsb_find_none {A} (f : A -> bool) l :
  find f l = None -> existsb f l = false.
Proof.
  induction l as [|x l IH]; simpl; [reflexivity|].
  destruct (f x); [discriminate|auto].
Qed.

Lemma existsb_find_some {A} (f : A -> bool) l x :
  find f l = Some x -> existsb f l = true.
Proof.
  induction l as [|y l IH]; simpl; [discriminate|].
  destruct (f y); [reflexivity|auto].
Qed.

Lemma find_app_none {A} (f : A -> bool) l x :
  find f l = None -> f x = true -> find f (l ++ [x]) = Some x.
Proof.
  induction l as [|y l IH]; simpl; intros H Hx.
  - now rewrite Hx.
  - destruct (f y); [discriminate|auto].
Qed.

Lemma find_update_by_mac m f rows :
  (forall s, MAC (f s) = MAC s) ->
  find (by_mac m) (fst (update_where (by_mac m) f rows))
  = option_map f (find (by_mac m) rows).
Proof.
  intros Hf. unfold update_where; simpl.
  induction rows as [|x rows IH]; simpl; [reflexivity|].
  destruct (by_mac m x) eqn:E; simpl.
  - unfold by_mac in *. now rewrite Hf, E.
  - now rewrite E.
Qed.

Lemma filter_update_by_mac m f rows :
  (forall s, MAC (f s) = MAC s) ->
  filter (by_mac m) (fst (update_where (by_mac m) f rows))
  = map f (filter (by_mac m) rows).
Proof.
  intros Hf. unfold update_where; simpl.
  induction rows as [|x rows IH]; simpl; [reflexivity|].
  destruct (by_mac m x) eqn:E; simpl.
  - unfold by_mac in *. rewrite Hf, E. simpl. now f_equal.
  - now rewrite E.
Qed.

Lemma find_filter_nil {A} (f : A -> bool) l :
  find f l = None <-> filter f l = [].
Proof.
  induction l as [|x l IH]; simpl; [tauto|].
  destruct (f x); [split; discriminate|exact IH].
Qed.

Lemma by_mac_refl sys : by_mac (MAC sys) sys = true.
Proof. unfold by_mac. apply String.eqb_refl. Qed.

Lemma AutoRegister_invalid d now mac ip e :
  normalizeMAC mac = Err e -> AutoRegister d now mac ip = (Err e, d).
Proof. unfold AutoRegister. now intros ->. Qed.

Lemma AutoRegister_new d now mac ip m :
  normalizeMAC mac = Ok m ->
  find (by_mac m) (systems d) = None ->
  AutoRegister d now mac ip =
    (Ok (Some (new_row (systems_seq d + 1) m ip now), true),
     {| systems := systems d ++ [new_row (systems_seq d + 1) m ip now];
        systems_seq := systems_seq d + 1;
        images := images d; settings := settings d |}).
Proof.
  intros Hm Hf. unfold AutoRegister, insert_or_ignore. rewrite Hm.
  rewrite (existsb_find_none _ _ Hf). cbn [Nat.ltb Nat.leb negb].
  unfold GetSystemByMAC. rewrite (normalizeMAC_idem _ _ Hm). cbn [systems].
  rewrite (find_app_none _ _ _ Hf); [reflexivity|].
  unfold by_mac, new_row; cbn. apply String.eqb_refl.
Qed.

Lemma AutoRegister_existing d now mac ip m sys :
  normalizeMAC mac = Ok m ->
  find (by_mac m) (systems d) = Some sys ->
  AutoRegister d now mac ip =
    (Ok (Some (touch ip now sys), false),
     with_systems d (fst (update_where (by_mac m) (touch ip now) (systems d)))).
Proof.
  intros Hm Hf. unfold AutoRegister, insert_or_ignore. rewrite Hm.
  rewrite (existsb_find_some _ _ _ Hf). cbn [Nat.ltb Nat.leb negb].
  unfold TouchSystem. rewrite (normalizeMAC_idem _ _ Hm). cbn [snd].
  unfold GetSystemByMAC. rewrite (normalizeMAC_idem _ _ Hm).
  unfold with_systems at 1. cbn [systems].
  rewrite find_update_by_mac by reflexivity. rewrite Hf. reflexivity.
Qed.



(** ** The boot script handler *)

Lemma not_bootable_exit sys :
  not_bootable sys ->
  match ImageID sys with
  | None => true
  | Some _ => negb (String.eqb (State sys) "queued") || String.eqb (Hostname sys) ""
  end = true.
Proof.
  intros [H|[H|H]].
  - now rewrite H.
  - destruct (ImageID sys); [|reflexivity]. rewrite H. apply orb_true_r.
  - destruct (ImageID sys); [|reflexivity].
    destruct (String.eqb_spec (State sys) "queued"); [contradiction|reflexivity].
Qed.

Lemma boot_no_mac SHP render s now r :
  Get "mac" (URL_Query r) = "" ->
  handleBootScript SHP render s now r = (text ipxe.ExitScript, s).
Proof. unfold handleBootScript. now intros ->. Qed.

Lemma boot_invalid_mac SHP render s now r e :
  normalizeMAC (Get "mac" (URL_Query r)) = Err e ->
  handleBootScript SHP render s now r = (text ipxe.ExitScript, s).
Proof.
  intros H. unfold handleBootScript, bootAutoRegister.
  destruct (String.eqb _ ""); [reflexivity|].
  rewrite (AutoRegister_invalid _ _ _ _ _ H). now rewrite with_db_same.
Qed.

Lemma boot_new_mac SHP render s now r m :
  normalizeMAC (Get "mac" (URL_Query r)) = Ok m ->
  find (by_mac m) (systems (DB_ s)) = None ->
  let row := new_row (systems_seq (DB_ s) + 1) m (clientAddr SHP r) (datetime now) in
  handleBootScript SHP render s now r =
    (text ipxe.ExitScript,
     {| DB_ := {| systems := systems (DB_ s) ++ [row];
                  systems_seq := systems_seq (DB_ s) + 1;
                  images := images (DB_ s); settings := settings (DB_ s) |};
        ServerURL := ServerURL s; signingKey := signingKey s;
        fired := fired s ++ [system_event now row "discovered"] |}).
Proof.
  intros Hm Hf row. unfold handleBootScript, bootAutoRegister.
  destruct (String.eqb_spec (Get "mac" (URL_Query r)) "") as [E|_].
  { rewrite E in Hm. discriminate Hm. }
  rewrite (AutoRegister_new _ _ _ _ _ Hm Hf). reflexivity.
Qed.

Lemma boot_idle_mac SHP render s now r m sys :
  normalizeMAC (Get "mac" (URL_Query r)) = Ok m ->
  find (by_mac m) (systems (DB_ s)) = Some sys ->
  not_bootable sys ->
  handleBootScript SHP render s now r =
    (text ipxe.ExitScript,
     with_db s (with_systems (DB_ s)
                  (fst (update_where (by_mac m)
                          (touch (clientAddr SHP r) (datetime now))
                          (systems (DB_ s)))))).
Proof.
  intros Hm Hf Hn. unfold handleBootScript, bootAutoRegister.
  destruct (String.eqb_spec (Get "mac" (URL_Query r)) "") as [E|_].
  { rewrite E in Hm. discriminate Hm. }
  rewrite (AutoRegister_existing _ _ _ _ _ _ Hm Hf).
  pose proof (not_bootable_exit sys Hn) as Hx.
  cbn [touch ImageID State Hostname].
  destruct (ImageID sys); [|reflexivity].
  rewrite Hx. reflexivity.
Qed.

(** C7.  A GET /boot.ipxe request is answered with exactly the exit script
    (status 200, text/plain) whenever the machine its MAC names has no
    assigned image, or an empty hostname, or is in a state other than
    [queued]; a MAC with no row is auto-registered by this very request in
    state [discovered] and gets the exit script as well. *)
Theorem boot_exit_script_unless_ready
  (SHP : string -> option (string * string))
  (render : Server -> Clock -> Request -> System -> Image -> option string)
  (s : Server) (now : Clock) (r : Request) :
  (forall m sys,
      normalizeMAC (Get "mac" (URL_Query r)) = Ok m ->
      find (by_mac m) (systems (DB_ s)) = Some sys ->
      not_bootable sys) ->
  fst (handleBootScript SHP render s now r) = text ipxe.ExitScript /\
  body (fst (handleBootScript SHP render s now r))
    = ("#!ipxe" ++ LF ++ "exit" ++ LF)%string.
Proof.
  intros H.
  assert (fst (handleBootScript SHP render s now r) = text ipxe.ExitScript) as E.
  { destruct (normalizeMAC (Get "mac" (URL_Query r))) as [m|e] eqn:Hm.
    - destruct (find (by_mac m) (systems (DB_ s))) as [sys|] eqn:Hf.
      + now rewrite (boot_idle_mac _ _ _ _ _ _ _ Hm Hf (H _ _ eq_refl Hf)).
      + now rewrite (boot_new_mac _ _ _ _ _ _ Hm Hf).
    - now rewrite (boot_invalid_mac _ _ _ _ _ _ Hm). }
  split; [exact E|]. rewrite E. reflexivity.
Qed.

Lemma boot_exit_script_unless_ready_witness :
  (forall m sys,
      normalizeMAC (Get "mac" (URL_Query (boot_request "AA-BB-CC-DD-EE-FF"))) = Ok m ->
      find (by_mac m)
           (systems (DB_ (server_with
              [machine 1 "aa:bb:cc:dd:ee:ff" "node01" (Some 1) "ready"] ""))) = Some sys ->
      not_bootable sys) /\
  body (fst (handleBootScript split_last_colon sample_render
               (server_with [machine 1 "aa:bb:cc:dd:ee:ff" "node01" (Some 1) "ready"] "")
               (clk 1767225600) (boot_request "AA-BB-CC-DD-EE-FF")))
    = ("#!ipxe" ++ LF ++ "exit" ++ LF)%string.
Proof.
  assert (forall m sys,
      normalizeMAC (Get "mac" (URL_Query (boot_request "AA-BB-CC-DD-EE-FF"))) = Ok m ->
      find (by_mac m)
           (systems (DB_ (server_with
              [machine 1 "aa:bb:cc:dd:ee:ff" "node01" (Some 1) "ready"] ""))) = Some sys ->
      not_bootable sys) as H.
  { intros m sys Hm Hf. vm_compute in Hm. injection Hm as <-.
    vm_compute in Hf. injection Hf as <-.
    right; right. discriminate. }
  split; [exact H|].
  exact (proj2 (boot_exit_script_unless_ready split_last_colon sample_render _ _ _ H)).
Defined.

(** C10.  A GET /boot.ipxe request whose [mac] parameter is absent or empty,
    or fails normalisation (after trimming, lower-casing and removing the
    separators it is not twelve hexadecimal digits), is answered 200 with
    exactly the exit script, and the server is left as it was: no row is
    created, no machine changes and no event is fired. *)
Theorem boot_without_valid_mac
  (SHP : string -> option (string * string))
  (render : Server -> Clock -> Request -> System -> Image -> option string)
  (s : Server) (now : Clock) (r : Request) :
  let mac := Get "mac" (URL_Query r) in
  let hex := strip_seps (ToLower (TrimSpace mac)) in
  mac = "" \/ String.length hex <> 12%nat \/ forallb is_hex (bytes_of hex) = false ->
  let resp := fst (handleBootScript SHP render s now r) in
  status resp = 200 /\
  body resp = ("#!ipxe" ++ LF ++ "exit" ++ LF)%string /\
  snd (handleBootScript SHP render s now r) = s.
Proof.
  intros mac hex H resp. subst resp.
  assert (handleBootScript SHP render s now r = (text ipxe.ExitScript, s)) as E.
  { destruct H as [H|H].
    - now apply boot_no_mac.
    - assert (exists e, normalizeMAC mac = Err e) as [e He].
      { unfold normalizeMAC. fold hex. destruct H as [H|H].
        + apply Nat.eqb_neq in H. rewrite H. simpl. eauto.
        + rewrite H. destruct (String.length hex =? 12)%nat; simpl; eauto. }
      now apply boot_invalid_mac with e. }
  rewrite E. repeat split.
Qed.

Lemma boot_without_valid_mac_witness :
  (let mac := Get "mac" (URL_Query (boot_request "aa:bb:cc:dd:ee:zz")) in
   let hex := strip_seps (ToLower (TrimSpace mac)) in
   mac = "" \/ String.length hex <> 12%nat \/ forallb is_hex (bytes_of hex) = false) /\
  snd (handleBootScript split_last_colon sample_render
         (server_with [] "") (clk 1767225600) (boot_request "aa:bb:cc:dd:ee:zz"))
    = server_with [] "".
Proof.
  assert (let mac := Get "mac" (URL_Query (boot_request "aa:bb:cc:dd:ee:zz")) in
          let hex := strip_seps (ToLower (TrimSpace mac)) in
          mac = "" \/ String.length hex <> 12%nat
          \/ forallb is_hex (bytes_of hex) = false) as H.
  { right; right. vm_compute. reflexivity. }
  split; [exact H|].
  exact (proj2 (proj2 (boot_without_valid_mac split_last_colon sample_render
                         (server_with [] "") (clk 1767225600)
                         (boot_request "aa:bb:cc:dd:ee:zz") H))).
Defined.

(** ** Auto-registration happens once *)

Lemma find_filter_hd {A} (f : A -> bool) l : find f l = hd_error (filter f l).
Proof.
  induction l as [|x l IH]; simpl; [reflexivity|].
  destruct (f x); [reflexivity|exact IH].
Qed.

Lemma update_where_length cond f rows :
  List.length (fst (update_where cond f rows)) = List.length rows.
Proof. unfold update_where; simpl. apply length_map. Qed.

Lemma boot_idle_step SHP render s now r m :
  normalizeMAC (Get "mac" (URL_Query r)) = Ok m ->
  lone_discovered m s ->
  let s1 := snd (handleBootScript SHP render s now r) in
  fst (handleBootScript SHP render s now r) = text ipxe.ExitScript /\
  lone_discovered m s1 /\ fired s1 = fired s /\
  List.length (systems (DB_ s1)) = List.length (systems (DB_ s)).
Proof.
  intros Hm (row & Hrows & Hmac & Hst) s1. subst s1.
  assert (find (by_mac m) (systems (DB_ s)) = Some row) as Hf.
  { rewrite find_filter_hd. unfold rows_with_mac in Hrows. now rewrite Hrows. }
  assert (not_bootable row) as Hn.
  { right; right. rewrite Hst. discriminate. }
  rewrite (boot_idle_mac _ _ _ _ _ _ _ Hm Hf Hn). cbn [fst snd].
  split; [reflexivity|]. split; [|split].
  - exists (touch (clientAddr SHP r) (datetime now) row).
    unfold rows_with_mac, with_db, with_systems. cbn [DB_ systems].
    rewrite filter_update_by_mac by reflexivity.
    unfold rows_with_mac in Hrows. rewrite Hrows. auto.
  - reflexivity.
  - unfold with_db, with_systems. cbn [DB_ systems]. apply update_where_length.
Qed.

Lemma serve_idle SHP render m reqs : forall s,
  Forall (fun cr => normalizeMAC (Get "mac" (URL_Query (snd cr))) = Ok m) reqs ->
  lone_discovered m s ->
  let out := serve (handleBootScript SHP render) s reqs in
  Forall (fun resp => resp = text ipxe.ExitScript) (fst out) /\
  lone_discovered m (snd out) /\ fired (snd out) = fired s /\
  List.length (systems (DB_ (snd out))) = List.length (systems (DB_ s)).
Proof.
  induction reqs as [|[now r] reqs IH]; intros s Hall Hl; simpl.
  - auto.
  - inversion Hall as [|? ? Hm Hrest]; subst. simpl in Hm.
    destruct (boot_idle_step SHP render s now r m Hm Hl) as (Hr & Hl1 & Hf1 & Hn1).
    destruct (handleBootScript SHP render s now r) as [resp s1]. cbn [fst snd] in *.
    specialize (IH s1 Hrest Hl1).
    destruct (serve (handleBootScript SHP render) s1 reqs) as [resps s2].
    cbn [fst snd] in *. destruct IH as (Ha & Hb & Hc & Hd).
    repeat split; [constructor; assumption|assumption|congruence|congruence].
Qed.

Lemma boot_existing_no_discovered SHP render s now r m sys :
  normalizeMAC (Get "mac" (URL_Query r)) = Ok m ->
  find (by_mac m) (systems (DB_ s)) = Some sys ->
  let s1 := snd (handleBootScript SHP render s now r) in
  events_of_type "system.discovered" (fired s1)
    = events_of_type "system.discovered" (fired s) /\
  List.length (systems (DB_ s1)) = List.length (systems (DB_ s)).
Proof.
  intros Hm Hf s1. subst s1. unfold handleBootScript, bootAutoRegister.
  destruct (String.eqb_spec (Get "mac" (URL_Query r)) "") as [E|_].
  { rewrite E in Hm. discriminate Hm. }
  rewrite (AutoRegister_existing _ _ _ _ _ _ Hm Hf).
  set (d1 := with_systems _ _).
  assert (List.length (systems d1) = List.length (systems (DB_ s))) as Hlen.
  { subst d1. unfold with_systems. cbn [systems]. apply update_where_length. }
  cbn [touch ImageID State Hostname MAC ID].
  destruct (ImageID sys); [|split; [reflexivity|exact Hlen]].
  destruct (negb _ || _); [split; [reflexivity|exact Hlen]|].
  destruct (GetImage _ _); [|split; [reflexivity|exact Hlen]].
  destruct (render _ _ _ _ _); [|split; [reflexivity|exact Hlen]].
  cbn [snd fireSystemEvent Fire fired with_db DB_ webhook.Timestamp].
  split.
  - unfold events_of_type. rewrite filter_app. cbn. apply app_nil_r.
  - unfold UpdateSystemState, with_systems. cbn [systems].
    rewrite update_where_length. exact Hlen.
Qed.

(** C5.  Auto-registration through GET /boot.ipxe, invoked any number of
    times (at least once) for a MAC that has no row, leaves exactly one row
    for it, in state [discovered] and with the normalised MAC, and fires
    exactly one event, a [system.discovered] for that MAC; every response
    is the exit script.  [AutoRegister] reports the machine as new exactly
    when its insert affected a row.  For a MAC that already has a row, the
    auto-registration step reports it as not new, creates no row, fires no
    event and sets the row's observed IP and last-seen time; the handler as
    a whole creates no row and fires no [system.discovered] event. *)
Theorem auto_register_once
  (SHP : string -> option (string * string))
  (render : Server -> Clock -> Request -> System -> Image -> option string) :
  (forall s reqs m,
      reqs <> [] ->
      Forall (fun cr => normalizeMAC (Get "mac" (URL_Query (snd cr))) = Ok m) reqs ->
      rows_with_mac (DB_ s) m = [] ->
      let out := serve (handleBootScript SHP render) s reqs in
      (exists row, rows_with_mac (DB_ (snd out)) m = [row] /\ MAC row = m /\
                   State row = "discovered") /\
      List.length (systems (DB_ (snd out))) = S (List.length (systems (DB_ s))) /\
      (exists e, fired (snd out) = fired s ++ [e] /\
                 webhook.Type_ e = "system.discovered" /\ webhook.Data_mac e = m)%list /\
      Forall (fun resp => resp = text ipxe.ExitScript) (fst out))
  /\
  (forall d now mac ip m,
      normalizeMAC mac = Ok m ->
      forall sys isNew, fst (AutoRegister d now mac ip) = Ok (sys, isNew) ->
      isNew = (0 <? snd (insert_or_ignore d m ip now))%nat /\
      isNew = negb (existsb (by_mac m) (systems d)))
  /\
  (forall s now r m sys,
      normalizeMAC (Get "mac" (URL_Query r)) = Ok m ->
      find (by_mac m) (systems (DB_ s)) = Some sys ->
      let mac := Get "mac" (URL_Query r) in
      let ip := clientAddr SHP r in
      let seen := touch ip (datetime now) sys in
      let s1 := snd (bootAutoRegister SHP s now r mac) in
      let s2 := snd (handleBootScript SHP render s now r) in
      fst (AutoRegister (DB_ s) (datetime now) mac ip) = Ok (Some seen, false) /\
      fst (bootAutoRegister SHP s now r mac) = Ok (Some seen) /\
      fired s1 = fired s /\
      List.length (systems (DB_ s1)) = List.length (systems (DB_ s)) /\
      find (by_mac m) (systems (DB_ s1)) = Some seen /\
      IPAddr seen = ip /\ LastSeenAt seen = datetime now /\
      List.length (systems (DB_ s2)) = List.length (systems (DB_ s)) /\
      events_of_type "system.discovered" (fired s2)
        = events_of_type "system.discovered" (fired s)).
Proof.
  split; [|split].
  - intros s reqs m Hne Hall Hnone out. subst out.
    destruct reqs as [|[now r] reqs]; [contradiction|].
    inversion Hall as [|? ? Hm Hrest]; subst. simpl in Hm.
    apply find_filter_nil in Hnone.
    simpl. rewrite (boot_new_mac SHP render s now r m Hm Hnone).
    set (row := new_row _ _ _ _). set (s1 := Build_Server _ _ _ _).
    assert (lone_discovered m s1) as Hl.
    { exists row. subst s1. unfold rows_with_mac. cbn [DB_ systems].
      rewrite filter_app. apply find_filter_nil in Hnone. rewrite Hnone.
      cbn [filter app]. change (MAC row) with m.
      unfold by_mac at 1. change (MAC row) with m. rewrite String.eqb_refl.
      auto. }
    destruct (serve_idle SHP render m reqs s1 Hrest Hl) as (Ha & Hb & Hc & Hd).
    destruct (serve (handleBootScript SHP render) s1 reqs) as [resps s2].
    cbn [fst snd] in *.
    split; [exact Hb|]. split.
    { rewrite Hd. subst s1. cbn [DB_ systems]. rewrite length_app. simpl. lia. }
    split.
    { exists (system_event now row "discovered"). rewrite Hc. subst s1.
      cbn [fired]. auto. }
    constructor; [reflexivity|exact Ha].
  - intros d now mac ip m Hm sys isNew. unfold AutoRegister. rewrite Hm.
    unfold insert_or_ignore.
    destruct (existsb (by_mac m) (systems d)); cbn [Nat.ltb Nat.leb negb snd];
      match goal with |- context [GetSystemByMAC ?d' m] =>
        destruct (GetSystemByMAC d' m) end;
      cbn [fst]; intros [= _ <-]; auto.
  - intros s now r m sys Hm Hf mac ip seen s1 s2. subst s1 s2 mac.
    unfold bootAutoRegister. fold ip.
    rewrite (AutoRegister_existing _ _ _ _ _ _ Hm Hf). fold seen. cbn [fst snd].
    split; [reflexivity|]. split; [reflexivity|]. split; [reflexivity|].
    split.
    { unfold with_db, with_systems. cbn [DB_ systems]. apply update_where_length. }
    split.
    { unfold with_db, with_systems. cbn [DB_ systems].
      rewrite find_update_by_mac by reflexivity. now rewrite Hf. }
    split; [reflexivity|]. split; [reflexivity|].
    destruct (boot_existing_no_discovered SHP render s now r m sys Hm Hf); auto.
Qed.

Lemma auto_register_once_witness :
  three_boots <> [] /\
  Forall (fun cr => normalizeMAC (Get "mac" (URL_Query (snd cr))) = Ok "aa:bb:cc:dd:ee:ff")
         three_boots /\
  rows_with_mac (DB_ (server_with [] "")) "aa:bb:cc:dd:ee:ff" = [] /\
  List.length (systems (DB_ (snd (serve (handleBootScript split_last_colon sample_render)
                                        (server_with [] "") three_boots)))) = 1%nat.
Proof.
  assert (three_boots <> []) as H1 by discriminate.
  assert (Forall (fun cr => normalizeMAC (Get "mac" (URL_Query (snd cr)))
                            = Ok "aa:bb:cc:dd:ee:ff") three_boots) as H2.
  { repeat constructor. }
  assert (rows_with_mac (DB_ (server_with [] "")) "aa:bb:cc:dd:ee:ff" = []) as H3
    by reflexivity.
  split; [exact H1|]. split; [exact H2|]. split; [exact H3|].
  exact (proj1 (proj2 (proj1 (auto_register_once split_last_colon sample_render)
                         (server_with [] "") three_boots "aa:bb:cc:dd:ee:ff" H1 H2 H3))).
Defined.

(** ** The provisioning callback *)

Lemma find_map_by_mac m g rows :
  (forall s, MAC (g s) = MAC s) ->
  find (by_mac m) (map g rows) = option_map g (find (by_mac m) rows).
Proof.
  intros Hg. induction rows as [|x rows IH]; simpl; [reflexivity|].
  unfold by_mac at 1. rewrite Hg. fold (by_mac m x).
  destruct (by_mac m x); [reflexivity|exact IH].
Qed.

Lemma validateToken_key s1 s2 now r :
  signingKey s1 = signingKey s2 -> validateToken s1 now r = validateToken s2 now r.
Proof. unfold validateToken. now intros ->. Qed.

Lemma Transition_to_ready d now mac m sys :
  normalizeMAC mac = Ok m ->
  find (by_mac m) (systems d) = Some sys ->
  State sys = "provisioning" \/ State sys = "ready" ->
  exists d' sys',
    TransitionSystemStateByMAC d now mac "provisioning" "ready" = (None, d') /\
    find (by_mac m) (systems d') = Some sys' /\
    State sys' = "ready" /\ MAC sys' = MAC sys /\ ID sys' = ID sys /\
    Hostname sys' = Hostname sys /\ IPAddr sys' = IPAddr sys /\
    List.length (systems d') = List.length (systems d).
Proof.
  intros Hm Hf Hst. unfold TransitionSystemStateByMAC, update_where. rewrite Hm.
  cbv beta iota zeta.
  set (cond := fun s => by_mac m s && String.eqb (State s) "provisioning").
  set (g := fun s => if cond s then set_state "ready" now s else s).
  change (fun s : System => if by_mac m s && String.eqb (State s) "provisioning"
                            then set_state "ready" now s else s) with g.
  assert (Hfind : find (by_mac m) (map g (systems d)) = Some (g sys)).
  { rewrite find_map_by_mac; [rewrite Hf; reflexivity|].
    intros s. unfold g. now destruct (cond s). }
  assert (Hg : State (g sys) = "ready" /\ MAC (g sys) = MAC sys /\ ID (g sys) = ID sys
               /\ Hostname (g sys) = Hostname sys /\ IPAddr (g sys) = IPAddr sys).
  { unfold g. destruct (cond sys) eqn:E; cbn; [auto|].
    destruct Hst as [Hp|Hr]; [|auto].
    unfold cond in E. rewrite Hp in E.
    assert (by_mac m sys = true) as Hb.
    { apply find_some in Hf. tauto. }
    rewrite Hb in E. discriminate E. }
  exists (with_systems d (map g (systems d))), (g sys).
  split.
  - destruct (List.length (filter cond (systems d)) =? 0)%nat; [|reflexivity].
    change (systems (with_systems d (map g (systems d)))) with (map g (systems d)).
    rewrite Hfind. destruct Hg as (-> & _). reflexivity.
  - unfold with_systems; cbn [systems]. rewrite length_map. tauto.
Qed.

Lemma callback_ok s now r m sys :
  validateToken s now r = true ->
  normalizeMAC (Get "mac" (PathValues r)) = Ok m ->
  find (by_mac m) (systems (DB_ s)) = Some sys ->
  State sys = "provisioning" \/ State sys = "ready" ->
  exists s' sys',
    handleCallback s now r = (json_status_ok, s') /\
    find (by_mac m) (systems (DB_ s')) = Some sys' /\ State sys' = "ready" /\
    signingKey s' = signingKey s /\
    fired s' = (fired s ++ [system_event now sys' "ready"])%list.
Proof.
  intros Hv Hm Hf Hst. unfold handleCallback. rewrite Hv. cbn [negb].
  destruct (String.eqb_spec (Get "mac" (PathValues r)) "") as [E|_].
  { rewrite E in Hm. discriminate Hm. }
  destruct (Transition_to_ready (DB_ s) (datetime now) _ m sys Hm Hf Hst)
    as (d' & sys' & Ht & Hf' & Hs' & _).
  rewrite Ht. cbn [with_db DB_]. unfold GetSystemByMAC. rewrite Hm, Hf'.
  eexists _, sys'. split; [reflexivity|].
  cbn [fireSystemEvent Fire DB_ fired signingKey webhook.Timestamp].
  rewrite String.eqb_refl. auto.
Qed.

(** What the handler does on repeated callbacks: every one of them is
    answered [{"status":"ok"}], the machine ends in [ready], and every one
    of them fires a [system.ready] event. *)
Lemma callbacks_fire_every_time m reqs : forall s sys,
  Forall (fun cr => validateToken s (fst cr) (snd cr) = true /\
                    normalizeMAC (Get "mac" (PathValues (snd cr))) = Ok m) reqs ->
  find (by_mac m) (systems (DB_ s)) = Some sys ->
  State sys = "provisioning" \/ State sys = "ready" ->
  let out := serve handleCallback s reqs in
  Forall (fun resp => resp = json_status_ok) (fst out) /\
  (State sys = "ready" \/ reqs <> [] -> state_of_mac (DB_ (snd out)) m = Some "ready") /\
  List.length (events_of_type "system.ready" (fired (snd out)))
    = (List.length (events_of_type "system.ready" (fired s)) + List.length reqs)%nat.
Proof.
  induction reqs as [|[now r] reqs IH]; intros s sys Hall Hf Hst; simpl.
  - repeat split; [constructor| |lia].
    intros [H|H]; [|congruence]. unfold state_of_mac. rewrite Hf. simpl. now rewrite H.
  - inversion Hall as [|? ? [Hv Hm] Hrest]; subst. cbn [fst snd] in *.
    destruct (callback_ok s now r m sys Hv Hm Hf Hst)
      as (s1 & sys1 & Hc & Hf1 & Hs1 & Hk & Hfired).
    rewrite Hc.
    assert (Forall (fun cr => validateToken s1 (fst cr) (snd cr) = true /\
                      normalizeMAC (Get "mac" (PathValues (snd cr))) = Ok m) reqs) as Hrest'.
    { eapply Forall_impl; [|exact Hrest]. intros cr [H1 H2]. split; [|exact H2].
      rewrite <- H1. now apply validateToken_key. }
    specialize (IH s1 sys1 Hrest' Hf1 (or_intror Hs1)).
    destruct (serve handleCallback s1 reqs) as [resps s2]. cbn [fst snd] in *.
    destruct IH as (Ha & Hb & Hn).
    split; [constructor; [reflexivity|exact Ha]|]. split.
    + intros _. apply Hb. now left.
    + rewrite Hn, Hfired. unfold events_of_type. rewrite filter_app, length_app.
      cbn. lia.
Qed.

Lemma filter_filter_by_mac (p : System -> bool) m rows :
  filter (fun s => by_mac m s && p s) rows = filter p (filter (by_mac m) rows).
Proof.
  induction rows as [|x rows IH]; simpl; [reflexivity|].
  destruct (by_mac m x); simpl; [|exact IH].
  destruct (p x); [now f_equal|exact IH].
Qed.

Lemma map_guard_id {A} (c : A -> bool) (f : A -> A) l :
  filter c l = [] -> map (fun x => if c x then f x else x) l = l.
Proof.
  induction l as [|x l IH]; simpl; [reflexivity|].
  destruct (c x); [discriminate|]. intros H. now rewrite IH.
Qed.

(** A callback for a machine that is neither [provisioning] nor [ready]
    fails with status 500 and changes nothing. *)
Lemma callback_wrong_state s now r m sys :
  validateToken s now r = true ->
  normalizeMAC (Get "mac" (PathValues r)) = Ok m ->
  rows_with_mac (DB_ s) m = [sys] ->
  State sys <> "provisioning" -> State sys <> "ready" ->
  handleCallback s now r = (Error "Internal Server Error" 500, s).
Proof.
  intros Hv Hm Hrows Hp Hr. unfold handleCallback. rewrite Hv. cbn [negb].
  destruct (String.eqb_spec (Get "mac" (PathValues r)) "") as [E|_].
  { rewrite E in Hm. discriminate Hm. }
  unfold TransitionSystemStateByMAC, update_where. rewrite Hm. cbv beta iota zeta.
  assert (filter (fun s0 => by_mac m s0 && String.eqb (State s0) "provisioning")
                 (systems (DB_ s)) = []) as Hnil.
  { rewrite filter_filter_by_mac. unfold rows_with_mac in Hrows. rewrite Hrows.
    simpl. destruct (String.eqb_spec (State sys) "provisioning"); [contradiction|reflexivity]. }
  rewrite Hnil. rewrite (map_guard_id _ _ _ Hnil). cbn [List.length Nat.eqb].
  assert (with_systems (DB_ s) (systems (DB_ s)) = DB_ s) as -> by (now destruct (DB_ s)).
  rewrite find_filter_hd. unfold rows_with_mac in Hrows. rewrite Hrows. cbn [hd_error].
  destruct (String.eqb_spec (State sys) "ready"); [contradiction|].
  now rewrite with_db_same.
Qed.

(** C1: the code at a failing input.  A machine in [provisioning] receives
    two signed callbacks.  Both are answered [{"status":"ok"}] and the
    machine ends in [ready], as the claim says; but each of them fires a
    [system.ready] event, so two are emitted where the claim allows one. *)
Theorem callback_twice_fires_two_ready_events :
  let out := serve handleCallback provisioning_server two_callbacks in
  fst out = [json_status_ok; json_status_ok] /\
  state_of_mac (DB_ (snd out)) "aa:bb:cc:dd:ee:ff" = Some "ready" /\
  List.length (events_of_type "system.ready" (fired (snd out))) = 2%nat.
Proof. vm_compute. repeat split. Qed.

(** ** The proxy-DHCP reply *)

Import proxydhcp.

Lemma siaddr_UpdateOption code v d :
  ServerIPAddr (UpdateOption code v d) = ServerIPAddr d.
Proof. reflexivity. Qed.

Lemma siaddr_WithOptionCopied req code d :
  ServerIPAddr (WithOptionCopied req code d) = ServerIPAddr d.
Proof. unfold WithOptionCopied. now destruct (OptGet code (Opts req)). Qed.

(** What [NewReplyFromRequest] leaves in [siaddr] when the modifiers start
    with a message type and [WithServerIP ip] and go on with options only. *)
Lemma siaddr_of_reply xid pkt m ip (opts : list (Z * list Z)) :
  ServerIPAddr
    (NewReplyFromRequest xid pkt
       (WithMessageType m :: WithServerIP ip
        :: map (fun o => WithOption (fst o) (snd o)) opts)) = ip.
Proof.
  unfold NewReplyFromRequest, New. cbn [app fold_left].
  match goal with |- ServerIPAddr (fold_left _ _ ?d0) = _ =>
    assert (ServerIPAddr d0 = ip) as H0 by reflexivity; revert H0; generalize d0
  end.
  induction opts as [|o opts IH]; intros d Hd; cbn [map fold_left]; [exact Hd|].
  apply IH. exact Hd.
Qed.

(** The reply to every eligible request, PXE or HTTP Boot alike, carries
    the server's own address in [siaddr] and [0.0.0.0] in [yiaddr]. *)
Lemma handler_reply_addresses IPString s xid pkt :
  MessageType pkt = MessageTypeDiscover \/ MessageType pkt = MessageTypeRequest ->
  isPXEClient pkt = true \/ isHTTPBootClient pkt = true ->
  exists resp,
    handler IPString s xid pkt = Some resp /\
    ServerIPAddr resp = ServerIP s /\
    YourIPAddr resp = safenet.IPv4 0 0 0 0.
Proof.
  intros Hm Hc. unfold handler.
  assert (negb (MessageType pkt =? MessageTypeDiscover)
          && negb (MessageType pkt =? MessageTypeRequest) = false) as ->.
  { destruct Hm as [-> | ->]; reflexivity. }
  assert (negb (isPXEClient pkt) && negb (isHTTPBootClient pkt) = false) as ->.
  { destruct Hc as [-> | ->]; [reflexivity|apply andb_false_r]. }
  eexists. split; [reflexivity|]. split; [|reflexivity].
  cbn [set_yiaddr ServerIPAddr].
  set (bootFile := if isIPXEClient pkt then _ else _).
  destruct (isHTTPBootClient pkt); cbn [negb app].
  - destruct (MessageType pkt =? MessageTypeRequest);
      rewrite ?siaddr_UpdateOption;
      exact (siaddr_of_reply xid pkt MessageTypeOffer (ServerIP s)
               [(_, _); (_, _); (_, _)]).
  - reflexivity.
Qed.

(** C2: the code at a failing input, scenario S2 of the specification.  A
    UEFI x64 HTTP-Boot DISCOVER (option 60 [HTTPClient], option 93
    [0x0007]) is answered with the HTTP URL of [ipxe.efi] and class
    [HTTPClient], as specified, but with [siaddr] set to the server's own
    address [10.0.0.1], not left at [0.0.0.0]. *)
Theorem http_boot_reply_has_siaddr_self :
  let reply := handler dotted dhcp_server [0; 0; 0; 0] (discover "HTTPClient" [0; 7]) in
  isHTTPBootClient (discover "HTTPClient" [0; 7]) = true /\
  option_map ServerIPAddr reply = Some (safenet.IPv4 10 0 0 1) /\
  option_map ServerIPAddr reply <> Some safenet.IPv4zero /\
  option_map YourIPAddr reply = Some safenet.IPv4zero /\
  option_map (fun d => option_map string_of (OptGet OptionBootfileName (Opts d))) reply
    = Some (Some "http://10.0.0.1:8080/ipxe.efi") /\
  option_map (fun d => option_map string_of (OptGet OptionClassIdentifier (Opts d))) reply
    = Some (Some "HTTPClient").
Proof. vm_compute. repeat split. discriminate. Qed.

(** ** The SSRF guard *)

Import safenet.

Lemma byte_cases (p : Z -> bool) :
  forallb p (map Z.of_nat (seq 0 256)) = true ->
  forall b, is_byte b = true -> p b = true.
Proof.
  intros H b Hb. rewrite forallb_forall in H. apply H.
  unfold is_byte in Hb. apply andb_prop in Hb. destruct Hb as [H0 H1].
  apply Z.leb_le in H0. apply Z.ltb_lt in H1.
  rewrite <- (Z2Nat.id b) by assumption. apply in_map. apply in_seq. lia.
Qed.

Lemma land_255 b : is_byte b = true -> Z.land b 255 = b.
Proof.
  intros H. apply Z.eqb_eq.
  exact (byte_cases (fun b => Z.land b 255 =? b) eq_refl b H).
Qed.

Lemma land_240 b : is_byte b = true ->
  (Z.land 16 240 =? Z.land b 240) = (16 <=? b) && (b <=? 31).
Proof.
  intros H. apply Bool.eqb_prop.
  exact (byte_cases (fun b => Bool.eqb (Z.land 16 240 =? Z.land b 240)
                                       ((16 <=? b) && (b <=? 31))) eq_refl b H).
Qed.

Lemma land_254 b : is_byte b = true ->
  (Z.land 252 254 =? Z.land b 254) = (b =? 0xfc) || (b =? 0xfd).
Proof.
  intros H. apply Bool.eqb_prop.
  exact (byte_cases (fun b => Bool.eqb (Z.land 252 254 =? Z.land b 254)
                                       ((b =? 0xfc) || (b =? 0xfd))) eq_refl b H).
Qed.

Lemma land_192 b : is_byte b = true ->
  (Z.land b 192 =? 128) = (0x80 <=? b) && (b <=? 0xbf).
Proof.
  intros H. apply Bool.eqb_prop.
  exact (byte_cases (fun b => Bool.eqb (Z.land b 192 =? 128)
                                       ((0x80 <=? b) && (b <=? 0xbf))) eq_refl b H).
Qed.

(** Turning an equation between boolean tests on integers into linear
    arithmetic. *)
Ltac bool_lia :=
  apply Bool.eq_iff_eq_true;
  repeat rewrite ?orb_true_iff, ?andb_true_iff, ?Z.eqb_eq, ?Z.leb_le, ?Z.ltb_lt;
  intuition (try lia; try discriminate).

Lemma if_true_orb (x y : bool) : (if x then true else y) = x || y.
Proof. now destruct x. Qed.

Lemma Contains_v4 n0 n1 n2 n3 m0 m1 m2 m3 a b c d :
  Contains {| nn := [n0; n1; n2; n3]; mask := [m0; m1; m2; m3] |} [a; b; c; d]
  = (Z.land n0 m0 =? Z.land a m0) && ((Z.land n1 m1 =? Z.land b m1)
    && ((Z.land n2 m2 =? Z.land c m2) && ((Z.land n3 m3 =? Z.land d m3) && true))).
Proof. reflexivity. Qed.

Lemma privateRanges_v4 a b c d :
  is_byte a = true -> is_byte b = true ->
  existsb (fun r => Contains r [a; b; c; d]) privateRanges
  = (a =? 10) || ((a =? 172) && (16 <=? b) && (b <=? 31))
    || ((a =? 192) && (b =? 168)) || ((a =? 169) && (b =? 254)).
Proof.
  intros Ha Hb. unfold privateRanges. cbn [existsb].
  change (CIDRMask 8 32) with [255; 0; 0; 0].
  change (CIDRMask 12 32) with [255; 240; 0; 0].
  change (CIDRMask 16 32) with [255; 255; 0; 0].
  rewrite !Contains_v4.
  change (Contains {| nn := 0xfc :: repeat 0 15; mask := CIDRMask 7 128 |} [a; b; c; d])
    with false.
  change (Contains {| nn := IPv6loopback; mask := CIDRMask 128 128 |} [a; b; c; d])
    with false.
  rewrite !Z.land_0_r, !(land_255 a Ha), !(land_255 b Hb), (land_240 b Hb).
  change (Z.land 10 255) with 10. change (Z.land 172 255) with 172.
  change (Z.land 192 255) with 192. change (Z.land 168 255) with 168.
  change (Z.land 169 255) with 169. change (Z.land 254 255) with 254.
  change (0 =? 0) with true.
  bool_lia.
Qed.

Lemma isPrivateIP_v4 a b c d :
  is_byte a = true -> is_byte b = true ->
  isPrivateIP [a; b; c; d]
  = listed_private [a; b; c; d] || IsUnspecified [a; b; c; d]
    || IsLinkLocalMulticast [a; b; c; d].
Proof.
  intros Ha Hb. unfold isPrivateIP. rewrite if_true_orb.
  rewrite (privateRanges_v4 a b c d Ha Hb).
  change (IsLoopback [a; b; c; d]) with (a =? 127).
  change (IsLinkLocalUnicast [a; b; c; d]) with ((a =? 169) && (b =? 254)).
  change (listed_private [a; b; c; d]) with (listed_v4 a b).
  unfold listed_v4.
  generalize (IsLinkLocalMulticast [a; b; c; d]) (IsUnspecified [a; b; c; d]).
  intros x y. destruct x, y; bool_lia.
Qed.

Lemma land_0_eqb x : (Z.land 0 0 =? Z.land x 0) = true.
Proof. rewrite !Z.land_0_r. reflexivity. Qed.

Lemma land_255_eqb n x :
  is_byte n = true -> is_byte x = true ->
  (Z.land n 255 =? Z.land x 255) = (x =? n).
Proof. intros Hn Hx. rewrite (land_255 n Hn), (land_255 x Hx). apply Z.eqb_sym. Qed.

Section V6.

Variables b0 b1 b2 b3 b4 b5 b6 b7 b8 b9 b10 b11 b12 b13 b14 b15 : Z.

Let ip : IP := [b0; b1; b2; b3; b4; b5; b6; b7; b8; b9; b10; b11; b12; b13; b14; b15].

Hypothesis Hbytes : forallb is_byte ip = true.

Lemma To4_16 :
  To4 ip = if eq_bytes [b0; b1; b2; b3; b4; b5; b6; b7; b8; b9; b10; b11] v4InV6Prefix
           then Some [b12; b13; b14; b15] else None.
Proof. reflexivity. Qed.

Lemma isPrivateIP_mapped :
  eq_bytes [b0; b1; b2; b3; b4; b5; b6; b7; b8; b9; b10; b11] v4InV6Prefix = true ->
  isPrivateIP ip = listed_private ip || IsUnspecified ip || IsLinkLocalMulticast ip.
Proof.
  intros E. pose proof Hbytes as Hb. subst ip.
  cbn [forallb] in Hb. repeat (apply andb_prop in Hb; destruct Hb as [? Hb]).
  cbn [eq_bytes v4InV6Prefix List.length Nat.eqb combine forallb fst snd andb] in E.
  repeat (apply andb_prop in E; destruct E as [?E E]).
  repeat match goal with Hx : (_ =? _) = true |- _ => apply Z.eqb_eq in Hx; subst end.
  change (isPrivateIP [0; 0; 0; 0; 0; 0; 0; 0; 0; 0; 255; 255; b12; b13; b14; b15])
    with (isPrivateIP [b12; b13; b14; b15]).
  change (listed_private [0; 0; 0; 0; 0; 0; 0; 0; 0; 0; 255; 255; b12; b13; b14; b15])
    with (listed_private [b12; b13; b14; b15]).
  change (IsUnspecified [0; 0; 0; 0; 0; 0; 0; 0; 0; 0; 255; 255; b12; b13; b14; b15])
    with (IsUnspecified [b12; b13; b14; b15]).
  change (IsLinkLocalMulticast [0; 0; 0; 0; 0; 0; 0; 0; 0; 0; 255; 255; b12; b13; b14; b15])
    with (IsLinkLocalMulticast [b12; b13; b14; b15]).
  now apply isPrivateIP_v4.
Qed.

Lemma isPrivateIP_native :
  eq_bytes [b0; b1; b2; b3; b4; b5; b6; b7; b8; b9; b10; b11] v4InV6Prefix = false ->
  isPrivateIP ip = listed_private ip || IsUnspecified ip || IsLinkLocalMulticast ip.
Proof.
  intros E. pose proof Hbytes as Hb.
  assert (To4 ip = None) as H4 by (rewrite To4_16, E; reflexivity).
  subst ip. cbn [forallb] in Hb. repeat (apply andb_prop in Hb; destruct Hb as [? Hb]).
  set (ip := [b0; b1; b2; b3; b4; b5; b6; b7; b8; b9; b10; b11; b12; b13; b14; b15]) in *.
  assert (Hlo : Contains {| nn := IPv6loopback; mask := CIDRMask 128 128 |} ip
                = eq_bytes ip IPv6loopback).
  { unfold Contains. rewrite H4. subst ip.
    change (CIDRMask 128 128) with (repeat 255 16).
    cbn [nn mask IPv6loopback repeat app List.length Nat.eqb combine forallb fst snd
         eq_bytes andb].
    rewrite !land_255_eqb by (assumption || reflexivity).
    reflexivity. }
  assert (Hula : Contains {| nn := 0xfc :: repeat 0 15; mask := CIDRMask 7 128 |} ip
                 = (b0 =? 0xfc) || (b0 =? 0xfd)).
  { unfold Contains. rewrite H4. subst ip.
    change (CIDRMask 7 128) with (254 :: repeat 0 15).
    cbn [nn mask repeat List.length Nat.eqb combine forallb fst snd andb].
    rewrite !land_0_eqb, land_254 by assumption. cbn [andb].
    apply andb_true_r. }
  assert (Hv4 : forall n m, List.length n = 4%nat ->
                            Contains {| nn := n; mask := m |} ip = false).
  { intros n m Hn. unfold Contains. rewrite H4. cbn [nn]. rewrite Hn. reflexivity. }
  assert (Hun : IsUnspecified ip = eq_bytes ip IPv6unspecified).
  { unfold IsUnspecified.
    assert (Equal ip IPv4zero = false) as ->; [|reflexivity].
    apply Bool.not_true_iff_false. intros Hz. apply Bool.not_true_iff_false in E.
    apply E. subst ip.
    cbn [Equal IPv4zero IPv4 v4InV6Prefix app List.length Nat.eqb eq_bytes combine
         forallb fst snd andb] in Hz |- *.
    repeat (apply andb_prop in Hz; destruct Hz as [?Hz Hz]).
    repeat match goal with Hx : (_ =? _) = true |- _ => rewrite Hx; clear Hx end.
    reflexivity. }
  unfold isPrivateIP. rewrite if_true_orb. unfold privateRanges. cbn [existsb].
  rewrite Hlo, Hula, !Hv4 by reflexivity. rewrite Hun.
  unfold listed_private, listed_v6, IsLoopback, IsLinkLocalUnicast. rewrite H4.
  change (Equal ip IPv6loopback) with (eq_bytes ip IPv6loopback).
  change (List.length ip =? 16)%nat with true.
  change (at_ 0 ip) with b0. change (at_ 1 ip) with b1.
  rewrite (land_192 b1) by assumption.
  generalize (IsLinkLocalMulticast ip) (eq_bytes ip IPv6unspecified)
             (eq_bytes ip IPv6loopback) (b0 =? 254) (b0 =? 252) (b0 =? 253)
             (128 <=? b1) (b1 <=? 191).
  intros x1 x2 x3 x4 x5 x6 x7 x8.
  destruct x1, x2, x3, x4, x5, x6, x7, x8; reflexivity.
Qed.

End V6.

Lemma length_16 {A} (l : list A) :
  List.length l = 16%nat ->
  exists b0 b1 b2 b3 b4 b5 b6 b7 b8 b9 b10 b11 b12 b13 b14 b15,
    l = [b0; b1; b2; b3; b4; b5; b6; b7; b8; b9; b10; b11; b12; b13; b14; b15].
Proof.
  intros H. do 16 (destruct l as [|? l]; [discriminate H|]).
  destruct l; [|discriminate H]. repeat eexists.
Qed.

(** What the guard blocks: the listed addresses, and also the unspecified
    addresses [0.0.0.0] and [::] and link-local multicast. *)
Lemma isPrivateIP_spec ip :
  valid_ip ip = true ->
  isPrivateIP ip = listed_private ip || IsUnspecified ip || IsLinkLocalMulticast ip.
Proof.
  unfold valid_ip. intros H. apply andb_prop in H. destruct H as [Hl Hb].
  apply orb_prop in Hl. destruct Hl as [Hl|Hl]; apply Nat.eqb_eq in Hl.
  - do 4 (destruct ip as [|? ip]; [discriminate Hl|]).
    destruct ip; [|discriminate Hl].
    cbn [forallb] in Hb. repeat (apply andb_prop in Hb; destruct Hb as [? Hb]).
    now apply isPrivateIP_v4.
  - destruct (length_16 ip Hl)
      as (b0&b1&b2&b3&b4&b5&b6&b7&b8&b9&b10&b11&b12&b13&b14&b15&->).
    destruct (eq_bytes [b0; b1; b2; b3; b4; b5; b6; b7; b8; b9; b10; b11] v4InV6Prefix)
      eqn:E.
    + now apply isPrivateIP_mapped.
    + now apply isPrivateIP_native.
Qed.

Lemma find_existsb {A} (f : A -> bool) l :
  existsb f l = match find f l with Some _ => true | None => false end.
Proof.
  induction l as [|x l IH]; simpl; [reflexivity|]. now destruct (f x).
Qed.

Lemma existsb_blocked ips :
  forallb valid_ip ips = true -> existsb isPrivateIP ips = existsb blocked ips.
Proof.
  induction ips as [|ip ips IH]; simpl; [reflexivity|].
  intros H. apply andb_prop in H. destruct H as [Hv Hr].
  rewrite (isPrivateIP_spec ip Hv), (IH Hr). reflexivity.
Qed.

(** C9 (as amended).  When the host of the dialled address resolves to
    addresses of which at least one is private, loopback or link-local as
    listed (127/8, ::1, 169.254/16, fe80::/10, 10/8, 172.16/12, 192.168/16,
    fc00::/7), the dial function returns an error and never reaches the
    dialer.  It reaches the dialer exactly when no resolved address is
    listed, unspecified (0.0.0.0, ::) or link-local multicast. *)
Theorem ssrf_guard
  (SHP : string -> option (string * string))
  (Lookup : string -> db.result (list IP))
  (network addr host port : string) (ips : list IP) :
  SHP addr = Some (host, port) ->
  Lookup host = db.Ok ips ->
  forallb valid_ip ips = true ->
  (existsb listed_private ips = true ->
   exists e, SafeDialContext SHP Lookup network addr = Refused e) /\
  (existsb blocked ips = false <->
   SafeDialContext SHP Lookup network addr = Dial network (JoinHostPort host port)).
Proof.
  intros Hs Hl Hv. unfold SafeDialContext. rewrite Hs, Hl.
  pose proof (existsb_blocked ips Hv) as Hb. rewrite find_existsb in Hb.
  split.
  - intros Hp.
    assert (existsb blocked ips = true) as Hx.
    { apply existsb_exists in Hp. destruct Hp as (ip & Hin & Hp).
      apply existsb_exists. exists ip. split; [exact Hin|].
      unfold blocked. now rewrite Hp. }
    rewrite Hx in Hb. destruct (find isPrivateIP ips); [eauto|discriminate Hb].
  - destruct (find isPrivateIP ips); rewrite <- Hb; split;
      try discriminate; reflexivity.
Qed.

Lemma ssrf_guard_witness :
  split_last_colon "intranet.example:443" = Some ("intranet.example", "443") /\
  resolves_to [IPv4 10 0 0 5] "intranet.example" = db.Ok [IPv4 10 0 0 5] /\
  forallb valid_ip [IPv4 10 0 0 5] = true /\
  existsb listed_private [IPv4 10 0 0 5] = true /\
  exists e, SafeDialContext split_last_colon (resolves_to [IPv4 10 0 0 5])
                            "tcp" "intranet.example:443" = Refused e.
Proof.
  split; [reflexivity|]. split; [reflexivity|]. split; [reflexivity|].
  split; [reflexivity|].
  exact (proj1 (ssrf_guard split_last_colon (resolves_to [IPv4 10 0 0 5])
                  "tcp" "intranet.example:443" "intranet.example" "443"
                  [IPv4 10 0 0 5] eq_refl eq_refl eq_refl) eq_refl).
Defined.

(** C9, as stated, fails in its second half: [0.0.0.0] is none of the
    listed addresses, yet the guard refuses a host that resolves to it. *)
Lemma unspecified_address_is_blocked :
  existsb listed_private [[0; 0; 0; 0]] = false /\
  SafeDialContext split_last_colon (resolves_to [[0; 0; 0; 0]]) "tcp" "zero.example:80"
  <> Dial "tcp" (JoinHostPort "zero.example" "80").
Proof. split; [reflexivity|]. vm_compute. discriminate. Qed.

(** ** The catalog content hash *)

Import catalog.

Lemma append_assoc (a b c : string) : ((a ++ b) ++ c = a ++ (b ++ c))%string.
Proof. induction a as [|x a IH]; simpl; [reflexivity|]. now rewrite IH. Qed.

Lemma length_append (a b : string) :
  String.length (a ++ b) = (String.length a + String.length b)%nat.
Proof. induction a as [|x a IH]; simpl; [reflexivity|]. now rewrite IH. Qed.

Lemma append_inv_head (p x y : string) : (p ++ x = p ++ y)%string -> x = y.
Proof. induction p as [|c p IH]; simpl; [auto|]. intros [= H]. auto. Qed.

Lemma append_inv_tail (x y t : string) : (x ++ t = y ++ t)%string -> x = y.
Proof.
  revert y. induction x as [|c x IH]; intros [|d y] H; simpl in H.
  - reflexivity.
  - apply (f_equal String.length) in H. simpl in H. rewrite length_append in H. lia.
  - apply (f_equal String.length) in H. simpl in H. rewrite length_append in H. lia.
  - injection H as -> H. f_equal. auto.
Qed.

Lemma append_nonempty (p x : string) : (p ++ x = p)%string -> x = "".
Proof.
  intros H. apply (f_equal String.length) in H. rewrite length_append in H.
  destruct x; [reflexivity|simpl in H; lia].
Qed.

Lemma field_inj (x y r : string) : (field x ++ r = field y ++ r)%string -> x = y.
Proof.
  intros H. apply append_inv_tail in H. unfold field in H.
  now apply append_inv_tail in H.
Qed.

Lemma field_nonempty (x r : string) : (field x ++ r)%string <> "".
Proof.
  intros H. apply (f_equal String.length) in H. unfold field in H.
  rewrite !length_append in H. simpl in H. lia.
Qed.

Lemma unhex_digits c :
  unhex (hex.digit (Z.shiftr (byte_of c) 4)) (hex.digit (Z.land (byte_of c) 15)) = c.
Proof. destruct c as [[] [] [] [] [] [] [] []]; reflexivity. Qed.

Lemma hex_EncodeToString_inj s1 s2 :
  hex.EncodeToString s1 = hex.EncodeToString s2 -> s1 = s2.
Proof.
  revert s2. induction s1 as [|c s1 IH]; intros [|d s2] H; simpl in H;
    try discriminate; [reflexivity|].
  injection H as H1 H2 H3.
  rewrite <- (unhex_digits c), <- (unhex_digits d), H1, H2.
  f_equal. auto.
Qed.

(** Two entries hash alike exactly when SHA-256 sends what is written for
    them to the same digest. *)
Lemma Hash_eq_iff e1 e2 :
  Hash e1 = Hash e2 <-> sha256.Sum256 (hash_input e1) = sha256.Sum256 (hash_input e2).
Proof.
  unfold Hash. split; [apply hex_EncodeToString_inj|now intros ->].
Qed.

Lemma eqb_empty_neq x y :
  x <> y -> String.eqb x "" = true -> String.eqb y "" = true -> False.
Proof.
  intros H Hx Hy. apply String.eqb_eq in Hx, Hy. congruence.
Qed.

(** Replacing one hashed string field by a different value changes what
    is written to the hash. *)
Lemma hash_input_sensitive f v e :
  v <> get_field f e -> hash_input (set_field f v e) <> hash_input e.
Proof.
  intros Hv H. apply Hv. clear Hv.
  destruct f; unfold hash_input, has_extended in H;
    cbn [set_field get_field Name Description Version Arch BootType Cmdline
         IPXEScript Files OSFamily KernelParams ConfigTemplate Vars] in H |- *.
  1-7:
    destruct (negb (String.eqb (OSFamily e) "") || negb (String.eqb (KernelParams e) "")
              || negb (String.eqb (ConfigTemplate e) "") || (0 <? List.length (Vars e))%nat);
    [apply append_inv_tail in H|];
    unfold base_input in H;
    cbn [Name Description Version Arch BootType Cmdline IPXEScript Files] in H;
    repeat first [ apply field_inj in H; exact H
                 | apply append_inv_head in H ].
  all: unfold extended_input in H;
    cbn [OSFamily KernelParams ConfigTemplate Vars Name Description Version Arch
         BootType Cmdline IPXEScript Files base_input] in H;
    change (base_input _) with (base_input e) in H.
  all: destruct (String.eqb v "") eqn:E1;
    destruct (String.eqb (OSFamily e) "") eqn:E2;
    destruct (String.eqb (KernelParams e) "") eqn:E3;
    destruct (String.eqb (ConfigTemplate e) "") eqn:E4;
    destruct (0 <? List.length (Vars e))%nat eqn:E5;
    cbn [negb orb] in H;
    try (apply String.eqb_eq in E1; apply String.eqb_eq in E2; congruence);
    try (apply String.eqb_eq in E1; apply String.eqb_eq in E3; congruence);
    try (apply String.eqb_eq in E1; apply String.eqb_eq in E4; congruence);
    try (apply append_inv_head in H;
         repeat first [ apply field_inj in H; exact H
                      | apply append_inv_head in H ]);
    try (apply append_nonempty in H; exfalso; exact (field_nonempty _ _ H));
    try (symmetry in H; apply append_nonempty in H; exfalso;
         exact (field_nonempty _ _ H)).
Qed.

Lemma Hash_sensitive f v e :
  v <> get_field f e ->
  ~ sha256_collision (hash_input (set_field f v e)) (hash_input e) ->
  Hash (set_field f v e) <> Hash e.
Proof.
  intros Hv Hc H. apply Hash_eq_iff in H. apply Hc. split; [|exact H].
  now apply hash_input_sensitive.
Qed.

Lemma Hash_unhashed id icon color e : Hash (set_unhashed id icon color e) = Hash e.
Proof. reflexivity. Qed.

(** C3 (as amended).  Entries that differ only in fields that are not
    hashed (catalog id, icon, icon colour) have the same content hash.  The
    description is hashed: entries that differ only in the description are
    written to SHA-256 as different byte strings, exactly like entries that
    differ only in the cmdline, and so their content hashes differ unless
    those two byte strings are a SHA-256 collision. *)
Theorem content_hash_by_field (e : Entry) :
  (forall id icon color, Hash (set_unhashed id icon color e) = Hash e) /\
  (forall d, d <> Description e ->
     hash_input (set_field HDescription d e) <> hash_input e /\
     (~ sha256_collision (hash_input (set_field HDescription d e)) (hash_input e) ->
      Hash (set_field HDescription d e) <> Hash e)) /\
  (forall c, c <> Cmdline e ->
     hash_input (set_field HCmdline c e) <> hash_input e /\
     (~ sha256_collision (hash_input (set_field HCmdline c e)) (hash_input e) ->
      Hash (set_field HCmdline c e) <> Hash e)).
Proof.
  split; [intros; apply Hash_unhashed|]. split.
  - intros d Hd. split.
    + exact (hash_input_sensitive HDescription d e Hd).
    + exact (Hash_sensitive HDescription d e Hd).
  - intros c Hc. split.
    + exact (hash_input_sensitive HCmdline c e Hc).
    + exact (Hash_sensitive HCmdline c e Hc).
Qed.

Lemma content_hash_by_field_witness :
  "console=tty0" <> Cmdline u24_entry /\
  ~ sha256_collision (hash_input (set_field HCmdline "console=tty0" u24_entry))
                     (hash_input u24_entry) /\
  Hash (set_field HCmdline "console=tty0" u24_entry) <> Hash u24_entry.
Proof.
  assert ("console=tty0" <> Cmdline u24_entry) as H1 by discriminate.
  assert (~ sha256_collision (hash_input (set_field HCmdline "console=tty0" u24_entry))
                             (hash_input u24_entry)) as H2.
  { intros [_ H]. vm_compute in H. discriminate H. }
  split; [exact H1|]. split; [exact H2|].
  exact (proj2 (proj2 (proj2 (content_hash_by_field u24_entry)) "console=tty0" H1) H2).
Defined.

(** C3, as stated, fails in its first half: the entry of scenario S6 and
    the same entry with a new description have different content hashes. *)
Lemma new_description_changes_content_hash :
  let e' := set_field HDescription "Long-term support server image" u24_entry in
  set_field HDescription (Description u24_entry) e' = u24_entry /\
  Hash e' <> Hash u24_entry.
Proof. split; [reflexivity|]. vm_compute. discriminate. Qed.




(** ** Signed URLs *)

(** With no signing key every request passes. *)
Lemma validateToken_without_key s now r :
  signingKey s = "" -> validateToken s now r = true.
Proof. unfold validateToken. now intros ->. Qed.

(** C6: the code at a failing input.  With a signing key set, the server
    signs the callback URL [http://10.0.0.1:8080/api/v1/systems/<mac>/callback]
    as its handlers do; the token is bound to that whole text.  Ten seconds
    later the machine requests the URL: the request path is
    [/api/v1/systems/<mac>/callback], the token is the one just issued and
    far from expired, and [validateToken] answers false, so the callback is
    refused with 403. *)
Theorem signed_callback_url_is_refused :
  let t0 := clk 1767225600 in
  let tok := token (signingKey keyed_server) (1767225600 + 3600) callback_url in
  let r := {| URL_Path := callback_path; URL_Query := [("tok", tok)];
              PathValues := [("mac", "aa:bb:cc:dd:ee:ff")]; Form := [];
              RemoteAddr := "10.0.0.7:49153"; Host := "10.0.0.1:8080" |} in
  signURL keyed_server t0 callback_url = (callback_url ++ "?tok=" ++ tok)%string /\
  validateToken keyed_server (clk 1767225610) r = false /\
  status (fst (handleCallback keyed_server (clk 1767225610) r)) = 403.
Proof. vm_compute. repeat split. Qed.

(** *** Decimal text of integers *)

Lemma byte_of_ascii_of b : 0 <= b < 256 -> byte_of (ascii_of b) = b.
Proof.
  intros H. unfold byte_of, ascii_of.
  rewrite N_ascii_embedding by lia. lia.
Qed.

Lemma byte_of_digit d : 0 <= d < 10 -> byte_of (strconv.digit d) = 48 + d.
Proof. intros H. unfold strconv.digit. apply byte_of_ascii_of. lia. Qed.

Lemma uint_acc_digits fuel : forall n acc,
  0 <= n < 10 ^ Z.of_nat fuel ->
  exists k, 0 <= k /\
    forall a, strconv.uint_acc (strconv.digits fuel n acc) a
              = strconv.uint_acc acc (a * 10 ^ k + n).
Proof.
  induction fuel as [|fuel IH]; intros n acc Hn.
  - simpl in Hn. exists 0. split; [lia|]. intros a. simpl.
    f_equal. lia.
  - cbn [strconv.digits]. destruct (n <? 10) eqn:E.
    + apply Z.ltb_lt in E. exists 1. split; [lia|]. intros a.
      cbn [strconv.uint_acc]. rewrite byte_of_digit by lia.
      replace ((48 <=? 48 + n) && (48 + n <=? 57)) with true
        by (symmetry; apply andb_true_intro; split; apply Z.leb_le; lia).
      f_equal. lia.
    + apply Z.ltb_ge in E.
      assert (0 <= n / 10 < 10 ^ Z.of_nat fuel) as Hq.
      { rewrite Nat2Z.inj_succ, Z.pow_succ_r in Hn by lia.
        split; [apply Z.div_pos; lia|apply Z.div_lt_upper_bound; lia]. }
      destruct (IH (n / 10) (String (strconv.digit (n mod 10)) acc) Hq) as (k & Hk & IHk).
      exists (k + 1). split; [lia|]. intros a. rewrite IHk.
      cbn [strconv.uint_acc].
      assert (0 <= n mod 10 < 10) as Hm by (apply Z.mod_pos_bound; lia).
      rewrite byte_of_digit by lia.
      replace ((48 <=? 48 + n mod 10) && (48 + n mod 10 <=? 57)) with true
        by (symmetry; apply andb_true_intro; split; apply Z.leb_le; lia).
      f_equal. rewrite Z.pow_add_r, Z.pow_1_r by lia.
      pose proof (Z.div_mod n 10). lia.
Qed.

Lemma enough_fuel n :
  0 <= n -> 0 <= n < 10 ^ Z.of_nat (S (Z.to_nat (Z.log2 n))).
Proof.
  intros Hn. split; [exact Hn|].
  rewrite Nat2Z.inj_succ, Z2Nat.id by apply Z.log2_nonneg.
  destruct (Z.eq_dec n 0) as [->|Hz]; [reflexivity|].
  pose proof (Z.log2_spec n ltac:(lia)) as [_ Hlt].
  eapply Z.lt_le_trans; [exact Hlt|].
  apply Z.pow_le_mono_l. pose proof (Z.log2_nonneg n). lia.
Qed.

Lemma digits_head fuel n acc :
  0 <= n ->
  exists d r, 0 <= d < 10 /\
    strconv.digits (S fuel) n acc = String (strconv.digit d) r.
Proof.
  revert n acc. induction fuel as [|fuel IH]; intros n acc Hn.
  - cbn [strconv.digits]. destruct (n <? 10) eqn:E.
    + apply Z.ltb_lt in E. exists n, acc. split; [lia|reflexivity].
    + exists (n mod 10), acc.
      split; [apply Z.mod_pos_bound; lia|reflexivity].
  - cbn [strconv.digits]. destruct (n <? 10) eqn:E.
    + apply Z.ltb_lt in E. exists n, acc. split; [lia|reflexivity].
    + apply IH. apply Z.div_pos; lia.
Qed.

Lemma digit_not_sign d :
  0 <= d < 10 ->
  Ascii.eqb (strconv.digit d) "-" = false /\ Ascii.eqb (strconv.digit d) "+" = false
  /\ Ascii.eqb (strconv.digit d) "." = false.
Proof.
  intros H. assert (d = 0 \/ d = 1 \/ d = 2 \/ d = 3 \/ d = 4 \/ d = 5 \/ d = 6
                    \/ d = 7 \/ d = 8 \/ d = 9) as Hc by lia.
  repeat (destruct Hc as [->|Hc]; [repeat split|]). subst. repeat split.
Qed.

(** [ParseInt] reads back what [FormatInt] writes, for every [int64]. *)
Lemma ParseInt_FormatInt n :
  - 2 ^ 63 <= n < 2 ^ 63 -> strconv.ParseInt (strconv.FormatInt n) = Some n.
Proof.
  intros Hn. unfold strconv.FormatInt. destruct (n <? 0) eqn:E.
  - apply Z.ltb_lt in E. unfold strconv.ParseInt.
    change (Ascii.eqb "-" "-") with true. change (Ascii.eqb "-" "+") with false.
    cbn [orb negb andb].
    set (s := strconv.digits _ (- n) "").
    assert (strconv.ParseUint s = Some (- n)) as ->.
    { destruct (uint_acc_digits _ (- n) "" (enough_fuel (- n) ltac:(lia)))
        as (k & Hk & Hacc).
      destruct (digits_head (Z.to_nat (Z.log2 (- n))) (- n) "" ltac:(lia))
        as (d & r & Hd & Hs).
      unfold strconv.ParseUint. fold s in Hacc, Hs. rewrite Hacc.
      rewrite Hs. cbn [strconv.uint_acc]. rewrite Z.mul_0_l, Z.add_0_l.
      replace (- n <? 2 ^ 64) with true; [reflexivity|].
      symmetry. apply Z.ltb_lt. lia. }
    replace (2 ^ 63 <? - n) with false by (symmetry; apply Z.ltb_ge; lia).
    f_equal. lia.
  - apply Z.ltb_ge in E.
    destruct (uint_acc_digits _ n "" (enough_fuel n E)) as (k & Hk & Hacc).
    destruct (digits_head (Z.to_nat (Z.log2 n)) n "" E) as (d & r & Hd & Hs).
    destruct (digit_not_sign d Hd) as (Hm & Hp & _).
    unfold strconv.ParseInt. rewrite Hs, Hm, Hp. cbn [orb negb andb].
    rewrite <- Hs. unfold strconv.ParseUint. rewrite Hacc, Hs.
    cbn [strconv.uint_acc]. rewrite Z.mul_0_l, Z.add_0_l.
    replace (n <? 2 ^ 64) with true by (symmetry; apply Z.ltb_lt; lia).
    replace (2 ^ 63 <=? n) with false by (symmetry; apply Z.leb_gt; lia).
    reflexivity.
Qed.

Lemma cut_free c a b :
  free_of c a = true -> strings.cut c (a ++ String c b) = Some (a, b).
Proof.
  induction a as [|x a IH]; simpl.
  - now rewrite Ascii.eqb_refl.
  - intros H. apply andb_prop in H. destruct H as [Hx Ha].
    apply negb_true_iff in Hx. now rewrite Hx, (IH Ha).
Qed.

Lemma cut_none c s : free_of c s = true -> strings.cut c s = None.
Proof.
  induction s as [|x s IH]; simpl; [reflexivity|].
  intros H. apply andb_prop in H. destruct H as [Hx Hs].
  apply negb_true_iff in Hx. now rewrite Hx, (IH Hs).
Qed.

Lemma digits_free fuel : forall n acc,
  0 <= n -> free_of "." acc = true -> free_of "." (strconv.digits fuel n acc) = true.
Proof.
  induction fuel as [|fuel IH]; intros n acc Hn Hacc; cbn [strconv.digits];
    [exact Hacc|].
  destruct (n <? 10) eqn:E.
  - apply Z.ltb_lt in E. cbn [free_of].
    destruct (digit_not_sign n ltac:(lia)) as (_ & _ & ->). exact Hacc.
  - apply IH; [apply Z.div_pos; lia|]. cbn [free_of].
    destruct (digit_not_sign (n mod 10) ltac:(apply Z.mod_pos_bound; lia))
      as (_ & _ & ->).
    exact Hacc.
Qed.

Lemma FormatInt_free n : free_of "." (strconv.FormatInt n) = true.
Proof.
  unfold strconv.FormatInt. destruct (n <? 0) eqn:E.
  - apply Z.ltb_lt in E. cbn [free_of]. apply digits_free; [lia|reflexivity].
  - apply Z.ltb_ge in E. apply digits_free; [lia|reflexivity].
Qed.

(** *** base64 *)

Lemma lor_add x lo k :
  0 <= k -> 0 <= lo < 2 ^ k -> x mod 2 ^ k = 0 -> Z.lor x lo = x + lo.
Proof.
  intros Hk Hlo Hx.
  assert (Z.land x lo = 0) as Hd.
  { apply Z.bits_inj'. intros n Hn. rewrite Z.land_spec, Z.bits_0.
    destruct (Z.lt_ge_cases n k) as [Hlt|Hge].
    - rewrite (Z.div_mod x (2 ^ k)) by lia. rewrite Hx, Z.add_0_r, Z.mul_comm.
      now rewrite Z.mul_pow2_bits_low.
    - rewrite <- (Z.mod_small lo (2 ^ k)) by lia.
      rewrite Z.mod_pow2_bits_high by lia. apply andb_false_r. }
  rewrite <- (Z.lxor_lor _ _ Hd). symmetry. now apply Z.add_nocarry_lxor.
Qed.

Lemma val3 a b c :
  0 <= a < 256 -> 0 <= b < 256 -> 0 <= c < 256 ->
  Z.lor (Z.lor (Z.shiftl a 16) (Z.shiftl b 8)) c = a * 65536 + b * 256 + c.
Proof.
  intros Ha Hb Hc. rewrite !Z.shiftl_mul_pow2 by lia.
  rewrite (lor_add (a * 2 ^ 16) (b * 2 ^ 8) 16); try lia.
  - rewrite (lor_add _ c 8); try lia.
    change (2 ^ 16) with (256 * 2 ^ 8).
    rewrite Z.mul_assoc, <- Z.mul_add_distr_r. apply Z.mod_mul. lia.
  - apply Z.mod_mul. lia.
Qed.

Lemma val4 d0 d1 d2 d3 :
  0 <= d0 < 64 -> 0 <= d1 < 64 -> 0 <= d2 < 64 -> 0 <= d3 < 64 ->
  Z.lor (Z.lor (Z.lor (Z.shiftl d0 18) (Z.shiftl d1 12)) (Z.shiftl d2 6)) d3
  = d0 * 262144 + d1 * 4096 + d2 * 64 + d3.
Proof.
  intros H0 H1 H2 H3. rewrite !Z.shiftl_mul_pow2 by lia.
  rewrite (lor_add (d0 * 2 ^ 18) (d1 * 2 ^ 12) 18); try lia.
  - rewrite (lor_add _ (d2 * 2 ^ 6) 12); try lia.
    + rewrite (lor_add _ d3 6); try lia.
      change (2 ^ 18) with (4096 * 2 ^ 6). change (2 ^ 12) with (64 * 2 ^ 6).
      rewrite !Z.mul_assoc, <- !Z.mul_add_distr_r. apply Z.mod_mul. lia.
    + change (2 ^ 18) with (64 * 2 ^ 12).
      rewrite Z.mul_assoc, <- Z.mul_add_distr_r. apply Z.mod_mul. lia.
  - apply Z.mod_mul. lia.
Qed.

Lemma val2 a b :
  0 <= a < 256 -> 0 <= b < 256 ->
  Z.lor (Z.shiftl a 16) (Z.shiftl b 8) = a * 65536 + b * 256.
Proof.
  intros Ha Hb. rewrite <- (Z.lor_0_r (Z.lor _ _)). rewrite val3 by lia. lia.
Qed.

Lemma val4_3 d0 d1 d2 :
  0 <= d0 < 64 -> 0 <= d1 < 64 -> 0 <= d2 < 64 ->
  Z.lor (Z.lor (Z.shiftl d0 18) (Z.shiftl d1 12)) (Z.shiftl d2 6)
  = d0 * 262144 + d1 * 4096 + d2 * 64.
Proof.
  intros H0 H1 H2. rewrite <- (Z.lor_0_r (Z.lor _ _)). rewrite val4 by lia. lia.
Qed.

Lemma sextet_of v : Z.land v 0x3f = v mod 64.
Proof. change 0x3f with (Z.ones 6). now rewrite Z.land_ones by lia. Qed.

Lemma octet_of v : base64.byte8 v = v mod 256.
Proof.
  unfold base64.byte8. change 0xff with (Z.ones 8). now rewrite Z.land_ones by lia.
Qed.

Lemma dec6_enc6 v : 0 <= v < 64 -> base64.dec6 (base64.enc6 v) = Some v.
Proof.
  intros H.
  assert (forallb (fun v => match base64.dec6 (base64.enc6 v) with
                            | Some w => w =? v
                            | None => false
                            end) (map Z.of_nat (seq 0 64)) = true) as Hall
    by reflexivity.
  rewrite forallb_forall in Hall. specialize (Hall v).
  destruct (base64.dec6 (base64.enc6 v)) as [w|].
  - f_equal. apply Z.eqb_eq. apply Hall.
    rewrite <- (Z2Nat.id v) by lia. apply in_map, in_seq. lia.
  - discriminate Hall.
    rewrite <- (Z2Nat.id v) by lia. apply in_map, in_seq. lia.
Qed.

Lemma sextets_cons v r :
  0 <= v < 64 ->
  base64.sextets (String (base64.enc6 v) r) = option_map (cons v) (base64.sextets r).
Proof. intros H. cbn [base64.sextets]. now rewrite dec6_enc6. Qed.

Lemma triples_ind (P : string -> Prop) :
  P "" -> (forall a, P (String a "")) -> (forall a b, P (String a (String b ""))) ->
  (forall a b c r, P r -> P (String a (String b (String c r)))) ->
  forall s, P s.
Proof.
  intros H0 H1 H2 H3 s.
  assert (P s /\ (forall a, P (String a s)) /\ (forall a b, P (String a (String b s))))
    as [H _].
  { induction s as [|c s (IH0 & IH1 & IH2)]; [auto|].
    split; [exact (IH1 c)|]. split; [exact (fun a => IH2 a c)|].
    intros a b. exact (H3 a b c s IH0). }
  exact H.
Qed.

Ltac sextet_range :=
  match goal with |- 0 <= ?x mod 64 < 64 => apply Z.mod_pos_bound; lia end.

(** Decoding undoes encoding, on every byte string. *)
Lemma base64_round_trip s :
  base64.DecodeString (base64.EncodeToString s) = Some s.
Proof.
  unfold base64.DecodeString.
  assert (exists l, base64.sextets (base64.EncodeToString s) = Some l /\
                    base64.quanta l = Some (bytes_of s)) as (l & -> & Hq).
  2:{ rewrite Hq. cbn. now rewrite string_of_bytes_of. }
  induction s as [|a|a b|a b c r (l & Hl & Hq)] using triples_ind.
  - exists []. split; reflexivity.
  - pose proof (byte_of_range a) as Ha.
    cbn [base64.EncodeToString]. rewrite !sextet_of.
    rewrite !sextets_cons by sextet_range. cbn [base64.sextets option_map].
    eexists. split; [reflexivity|]. cbn [base64.quanta bytes_of].
    rewrite octet_of, !Z.shiftr_div_pow2, !Z.shiftl_mul_pow2 by lia.
    rewrite (lor_add _ _ 18); try lia.
    + do 2 f_equal.
      change (2 ^ 18) with 262144. change (2 ^ 12) with 4096.
      change (2 ^ 16) with 65536. Z.div_mod_to_equations. lia.
    + change (2 ^ 18) with 262144. change (2 ^ 12) with 4096.
      change (2 ^ 16) with 65536. Z.div_mod_to_equations. lia.
    + apply Z.mod_mul. lia.
  - pose proof (byte_of_range a) as Ha. pose proof (byte_of_range b) as Hb.
    cbn [base64.EncodeToString]. rewrite !sextet_of.
    rewrite !sextets_cons by sextet_range. cbn [base64.sextets option_map].
    eexists. split; [reflexivity|]. cbn [base64.quanta bytes_of].
    rewrite !octet_of. rewrite (val2 _ _ Ha Hb).
    set (d0 := Z.shiftr _ 18 mod 64). set (d1 := Z.shiftr _ 12 mod 64).
    set (d2 := Z.shiftr _ 6 mod 64).
    rewrite (val4_3 d0 d1 d2) by (subst d0 d1 d2; sextet_range).
    subst d0 d1 d2. rewrite !Z.shiftr_div_pow2 by lia.
    change (2 ^ 18) with 262144. change (2 ^ 12) with 4096.
    change (2 ^ 16) with 65536. change (2 ^ 8) with 256. change (2 ^ 6) with 64.
    do 2 f_equal; [|f_equal]; Z.div_mod_to_equations; lia.
  - pose proof (byte_of_range a) as Ha. pose proof (byte_of_range b) as Hb.
    pose proof (byte_of_range c) as Hc.
    cbn [base64.EncodeToString]. rewrite !sextet_of.
    rewrite !sextets_cons by sextet_range. rewrite Hl. cbn [option_map].
    eexists. split; [reflexivity|]. cbn [base64.quanta bytes_of]. rewrite Hq.
    cbn [option_map]. rewrite !octet_of. rewrite (val3 _ _ _ Ha Hb Hc).
    set (d0 := Z.shiftr _ 18 mod 64). set (d1 := Z.shiftr _ 12 mod 64).
    set (d2 := Z.shiftr _ 6 mod 64). set (d3 := (_ + _ + byte_of c) mod 64).
    rewrite (val4 d0 d1 d2 d3) by (subst d0 d1 d2 d3; sextet_range).
    subst d0 d1 d2 d3. rewrite !Z.shiftr_div_pow2 by lia.
    change (2 ^ 18) with 262144. change (2 ^ 12) with 4096.
    change (2 ^ 16) with 65536. change (2 ^ 8) with 256. change (2 ^ 6) with 64.
    f_equal. f_equal; [|f_equal; [|f_equal]]; Z.div_mod_to_equations; lia.
Qed.

(** *** Signing and verifying *)

Lemma encode_nonempty c s : base64.EncodeToString (String c s) <> "".
Proof. destruct s as [|b [|d r]]; discriminate. Qed.

Lemma append_dot_nonempty a b : (a ++ String "." b)%string <> "".
Proof. destruct a; discriminate. Qed.

Lemma length_eqb_0 k : k <> "" -> (String.length k =? 0)%nat = false.
Proof. destruct k; [congruence|reflexivity]. Qed.

(** What [validateToken] computes on a token issued by [token]: the token
    is accepted until its expiry, provided the text it was bound to and the
    path of the request have the same HMAC. *)
Lemma validateToken_of_token s now r e text :
  signingKey s <> "" ->
  - 2 ^ 63 <= e < 2 ^ 63 ->
  Get "tok" (URL_Query r) = token (signingKey s) e text ->
  validateToken s now r
  = (unix now <=? e)
    && hmac.Equal (hmac.Sum (signingKey s) (strconv.FormatInt e ++ "|" ++ text))
                  (hmac.Sum (signingKey s) (strconv.FormatInt e ++ "|" ++ URL_Path r)).
Proof.
  intros Hk He Htok. unfold validateToken. rewrite (length_eqb_0 _ Hk), Htok.
  unfold token.
  set (sig := hmac.Sum (signingKey s) (strconv.FormatInt e ++ "|" ++ text)).
  set (inner := (strconv.FormatInt e ++ "." ++ base64.EncodeToString sig)%string).
  assert (String.eqb (base64.EncodeToString inner) "" = false) as ->.
  { apply String.eqb_neq. subst inner.
    destruct (strconv.FormatInt e ++ "." ++ base64.EncodeToString sig)%string eqn:E.
    - exfalso. exact (append_dot_nonempty _ _ E).
    - apply encode_nonempty. }
  rewrite base64_round_trip. subst inner. unfold strings.SplitN2.
  change ("." ++ base64.EncodeToString sig)%string
    with (String "." (base64.EncodeToString sig)).
  rewrite (cut_free "." _ _ (FormatInt_free e)).
  rewrite (ParseInt_FormatInt e He), base64_round_trip.
  rewrite Z.leb_antisym. destruct (e <? unix now); reflexivity.
Qed.

(** A token bound to the very text of the request path verifies exactly
    until its expiry, one hour after signing. *)
Lemma sign_then_verify_bare_path s t0 now r :
  signingKey s <> "" ->
  free_of "?" (URL_Path r) = true ->
  - 2 ^ 63 <= unix t0 + tokenExpiry < 2 ^ 63 ->
  let tok := token (signingKey s) (unix t0 + tokenExpiry) (URL_Path r) in
  Get "tok" (URL_Query r) = tok ->
  signURL s t0 (URL_Path r) = (URL_Path r ++ "?tok=" ++ tok)%string /\
  validateToken s now r = (unix now <=? unix t0 + tokenExpiry).
Proof.
  intros Hk Hq He tok Htok. split.
  - unfold signURL. rewrite (length_eqb_0 _ Hk), (cut_none _ _ Hq). reflexivity.
  - rewrite (validateToken_of_token s now r _ _ Hk He Htok).
    unfold hmac.Equal. rewrite String.eqb_refl. apply andb_true_r.
Qed.

(** * Further properties *)

(** ** The [systems] table keeps its shape *)

Import db httpserver handlers sysops crud more.

Lemma map_update_where {A} (g : System -> A) c f rows :
  (forall s, g (f s) = g s) ->
  map g (fst (update_where c f rows)) = map g rows.
Proof.
  intros H. unfold update_where. cbn [fst]. rewrite map_map.
  apply map_ext. intros s. destruct (c s); [apply H | reflexivity].
Qed.

Lemma Forall_update_where (P : System -> Prop) c f rows :
  (forall s, P s -> P (f s)) ->
  Forall P rows -> Forall P (fst (update_where c f rows)).
Proof.
  intros H HF. unfold update_where. cbn [fst]. apply Forall_map.
  eapply Forall_impl; [|exact HF]. intros s Hs. cbn.
  destruct (c s); [apply H; exact Hs | exact Hs].
Qed.

Lemma update_ok d c f :
  (forall s, db.ID (f s) = db.ID s) -> (forall s, MAC (f s) = MAC s) ->
  (forall s, In (State s) states -> In (State (f s)) states) ->
  store_ok d -> store_ok (with_systems d (fst (update_where c f (systems d)))).
Proof.
  intros Hid Hmac Hst (H1 & H2 & H3 & H4 & H5).
  unfold store_ok, with_systems. cbn [systems systems_seq].
  rewrite (map_update_where MAC) by exact Hmac.
  rewrite (map_update_where db.ID) by exact Hid.
  repeat split; try assumption.
  - apply Forall_update_where; [|exact H3]. intros s. rewrite Hid. exact (fun x => x).
  - apply Forall_update_where; [|exact H4]. intros s. rewrite Hmac. exact (fun x => x).
  - apply Forall_update_where; [exact Hst | exact H5].
Qed.

Lemma existsb_by_mac_false m rows :
  existsb (by_mac m) rows = false -> ~ In m (map MAC rows).
Proof.
  intros H Hin. apply in_map_iff in Hin. destruct Hin as (s & Hs & Hin).
  assert (existsb (by_mac m) rows = true) as E.
  { apply existsb_exists. exists s. split; [exact Hin|].
    unfold by_mac. rewrite Hs. apply String.eqb_refl. }
  congruence.
Qed.

Lemma NoDup_snoc {A} (l : list A) x : NoDup l -> ~ In x l -> NoDup (l ++ [x]).
Proof.
  intros H Hx. apply NoDup_rev in H. rewrite <- (rev_involutive (l ++ [x])).
  apply NoDup_rev. rewrite rev_app_distr. cbn. constructor; [|exact H].
  rewrite <- in_rev. exact Hx.
Qed.

Lemma insert_ok d row :
  store_ok d ->
  existsb (by_mac (MAC row)) (systems d) = false ->
  db.ID row = systems_seq d + 1 ->
  normalizeMAC (MAC row) = Ok (MAC row) ->
  In (State row) states ->
  store_ok {| systems := systems d ++ [row]; systems_seq := systems_seq d + 1;
              images := images d; settings := settings d |}.
Proof.
  intros (H1 & H2 & H3 & H4 & H5) Hm Hid Hc Hs.
  unfold store_ok. cbn [systems systems_seq].
  rewrite !map_app. cbn [map].
  repeat split.
  - apply NoDup_snoc; [exact H1 | apply existsb_by_mac_false; exact Hm].
  - apply NoDup_snoc; [exact H2|]. intros Hin. apply in_map_iff in Hin.
    destruct Hin as (s & Hs' & Hin). rewrite Forall_forall in H3.
    specialize (H3 s Hin). lia.
  - apply Forall_app. split.
    + eapply Forall_impl; [|exact H3]. cbn. intros; lia.
    + constructor; [lia | constructor].
  - apply Forall_app. split; [exact H4 | constructor; [exact Hc | constructor]].
  - apply Forall_app. split; [exact H5 | constructor; [exact Hs | constructor]].
Qed.

Lemma in_states_discovered : In "discovered" states.
Proof. cbn. auto. Qed.

Lemma touch_ok d m ip now :
  store_ok d ->
  store_ok (with_systems d (fst (update_where (by_mac m) (touch ip now) (systems d)))).
Proof. apply update_ok; intros s; try reflexivity. exact (fun x => x). Qed.

Lemma set_state_ok d c st now :
  In st states -> store_ok d ->
  store_ok (with_systems d (fst (update_where c (set_state st now) (systems d)))).
Proof. intros Hst. apply update_ok; intros s; try reflexivity. intros _. exact Hst. Qed.

Lemma AutoRegister_ok d now mac ip :
  store_ok d -> store_ok (snd (AutoRegister d now mac ip)).
Proof.
  intros Hd. destruct (normalizeMAC mac) as [m|e] eqn:Hm.
  - destruct (find (by_mac m) (systems d)) as [sys|] eqn:Hf.
    + rewrite (AutoRegister_existing _ _ _ _ _ _ Hm Hf). cbn [snd].
      apply touch_ok. exact Hd.
    + rewrite (AutoRegister_new _ _ _ _ _ Hm Hf). cbn [snd].
      apply insert_ok; try reflexivity; try exact Hd.
      * cbn. apply existsb_find_none. exact Hf.
      * cbn. exact (normalizeMAC_idem _ _ Hm).
      * exact in_states_discovered.
  - rewrite (AutoRegister_invalid _ _ _ _ _ Hm). exact Hd.
Qed.

Lemma Transition_ok d now mac from to :
  In to states -> store_ok d ->
  store_ok (snd (TransitionSystemStateByMAC d now mac from to)).
Proof.
  intros Hto Hd. unfold TransitionSystemStateByMAC.
  destruct (normalizeMAC mac) as [m|e]; [|exact Hd].
  set (cond := fun s => by_mac m s && String.eqb (State s) from).
  pose proof (set_state_ok d cond to now Hto Hd) as Hk.
  unfold update_where in *. cbn [fst] in Hk.
  destruct (List.length (filter cond (systems d)) =? 0)%nat; [|exact Hk].
  match goal with |- context [find ?p ?l] => destruct (find p l) as [cur|] end;
    [destruct (String.eqb (State cur) to)|]; exact Hk.
Qed.

Lemma CreateSystem_ok d now mac hostname :
  store_ok d -> store_ok (snd (CreateSystem d now mac hostname)).
Proof.
  intros Hd. unfold CreateSystem.
  destruct (normalizeMAC mac) as [m|e] eqn:Hm; [|exact Hd].
  destruct (existsb (by_mac m) (systems d)) eqn:He; [exact Hd|].
  cbn [snd]. apply insert_ok; try reflexivity; try exact Hd.
  - exact He.
  - cbn. exact (normalizeMAC_idem _ _ Hm).
  - exact in_states_discovered.
Qed.

Lemma NoDup_map_filter {A B} (g : A -> B) p l :
  NoDup (map g l) -> NoDup (map g (filter p l)).
Proof.
  induction l as [|a l IH]; cbn; intros H; [constructor|].
  inversion H as [|x l' Hx Hl]; subst.
  destruct (p a); cbn; [constructor|]; auto.
  intros Hin. apply Hx. apply in_map_iff in Hin. destruct Hin as (y & Hy & Hin).
  apply in_map_iff. exists y. split; [exact Hy|]. apply filter_In in Hin. tauto.
Qed.

Lemma Forall_filter {A} (P : A -> Prop) p l : Forall P l -> Forall P (filter p l).
Proof.
  intros H. apply Forall_forall. intros x Hx. apply filter_In in Hx.
  rewrite Forall_forall in H. apply H. tauto.
Qed.

Lemma DeleteSystem_ok d id : store_ok d -> store_ok (DeleteSystem d id).
Proof.
  intros (H1 & H2 & H3 & H4 & H5). unfold store_ok, DeleteSystem, with_systems.
  cbn [systems systems_seq].
  repeat split; try (apply NoDup_map_filter; assumption);
    apply Forall_filter; assumption.
Qed.

(** Replacing the MAC of the row [id] by one that no other row carries. *)
Lemma rename_keeps_macs_unique id m f rows :
  (forall s, MAC (f s) = m) ->
  NoDup (map db.ID rows) -> NoDup (map MAC rows) ->
  (forall s, In s rows -> MAC s = m -> db.ID s = id) ->
  NoDup (map MAC (map (fun s => if by_id id s then f s else s) rows)).
Proof.
  intros Hf. induction rows as [|a r IH]; cbn [map]; intros Hid Hmac Hother;
    [constructor|].
  inversion Hid as [|x l Hx Hl]; inversion Hmac as [|y l' Hy Hl']; subst.
  assert (NoDup (map MAC (map (fun s => if by_id id s then f s else s) r))) as Hr.
  { apply IH; try assumption. intros s Hs. apply Hother. right. exact Hs. }
  constructor; [|exact Hr].
  intros Hin. rewrite map_map in Hin. apply in_map_iff in Hin.
  destruct Hin as (s & Hs & Hin).
  unfold by_id in *.
  destruct (db.ID a =? id) eqn:Ea; destruct (db.ID s =? id) eqn:Es.
  - apply Hx. apply in_map_iff. exists s. split; [lia | exact Hin].
  - rewrite Hf in Hs. assert (db.ID s = id) by (apply Hother; [right; exact Hin | exact Hs]).
    lia.
  - rewrite Hf in Hs. assert (db.ID a = id) by (apply Hother; [left; reflexivity | congruence]).
    lia.
  - apply Hy. apply in_map_iff. exists s. split; [exact Hs | exact Hin].
Qed.

Lemma UpdateSystemInfo_ok d now id mac hostname :
  store_ok d -> store_ok (snd (UpdateSystemInfo d now id mac hostname)).
Proof.
  intros Hd. unfold UpdateSystemInfo.
  destruct (normalizeMAC mac) as [m|e] eqn:Hm; [|exact Hd].
  destruct (existsb (by_id id) (systems d)) eqn:Hex; cbn [andb].
  - destruct (existsb (fun s => by_mac m s && negb (by_id id s)) (systems d)) eqn:Ho;
      [exact Hd|].
    cbn [snd]. destruct Hd as (H1 & H2 & H3 & H4 & H5).
    unfold store_ok, with_systems. cbn [systems systems_seq].
    rewrite (map_update_where db.ID) by reflexivity.
    repeat split; try assumption.
    + unfold update_where. cbn [fst].
      apply (rename_keeps_macs_unique id m); try assumption; [reflexivity|].
      intros s Hs Hsm.
      destruct (by_id id s) eqn:Eid; [unfold by_id in Eid; lia|].
      assert (existsb (fun s => by_mac m s && negb (by_id id s)) (systems d) = true) as E.
      { apply existsb_exists. exists s. split; [exact Hs|].
        rewrite Eid. unfold by_mac. rewrite Hsm, String.eqb_refl. reflexivity. }
      congruence.
    + apply Forall_update_where; [|exact H3]. intros s. exact (fun x => x).
    + apply Forall_forall. intros s Hs. unfold update_where in Hs. cbn [fst] in Hs.
      apply in_map_iff in Hs. destruct Hs as (t & Ht & Hin).
      rewrite Forall_forall in H4.
      destruct (by_id id t); subst s; [exact (normalizeMAC_idem _ _ Hm) | apply H4; exact Hin].
    + apply Forall_update_where; [|exact H5]. intros s. exact (fun x => x).
  - cbn [snd]. unfold update_where. cbn [fst].
    rewrite map_guard_id; [destruct d; exact Hd|].
    apply find_filter_nil. destruct (find (by_id id) (systems d)) eqn:Ef; [|reflexivity].
    apply existsb_find_some in Ef. congruence.
Qed.

Lemma UpdateSystemVars_ok d now id vars :
  store_ok d -> store_ok (UpdateSystemVars d now id vars).
Proof. apply update_ok; intros s; try reflexivity. exact (fun x => x). Qed.

Lemma UpdateSystemImage_ok d now id img :
  store_ok d -> store_ok (snd (UpdateSystemImage d now id img)).
Proof.
  intros Hd. unfold UpdateSystemImage.
  match goal with |- context [if ?c then _ else _] => destruct c end; [exact Hd|].
  cbn [snd]. apply update_ok; try exact Hd; intros s; try reflexivity. exact (fun x => x).
Qed.

Lemma UpdateSystemProfile_ok pe d now id p :
  store_ok d -> store_ok (snd (UpdateSystemProfile pe d now id p)).
Proof.
  intros Hd. unfold UpdateSystemProfile.
  match goal with |- context [if ?c then _ else _] => destruct c end; [exact Hd|].
  cbn [snd]. apply update_ok; try exact Hd; intros s; try reflexivity. exact (fun x => x).
Qed.

Ltac eqb_cases :=
  repeat match goal with
         | H : context [String.eqb ?a ?b] |- _ =>
             let E := fresh "E" in
             destruct (String.eqb a b) eqn:E;
             [apply String.eqb_eq in E | apply String.eqb_neq in E]
         end.

Lemma stateAction_target action sys st :
  stateAction action sys = Ok st ->
  In st ["discovered"; "queued"; "ready"; "failed"] /\ st <> State sys.
Proof.
  unfold stateAction. intros H.
  destruct (ImageID sys); eqb_cases; cbn in H; try discriminate H;
    injection H as <-; (split; [cbn; tauto | congruence]).
Qed.

Lemma stateAction_states action sys st :
  stateAction action sys = Ok st -> In st states.
Proof.
  intros H. apply stateAction_target in H. destruct H as [H _].
  cbn in *. intuition.
Qed.

Section Invariant.

Variable SHP : string -> option (string * string).
Variable render : Server -> Clock -> Request -> System -> Image -> option string.
Variable row : DB -> System -> string.
Variable row_new : System -> string.
Variable cg : bool -> string.
Variable pe : Z -> bool.

Lemma handleBootScript_ok s now r :
  store_ok (DB_ s) -> store_ok (DB_ (snd (handleBootScript SHP render s now r))).
Proof.
  intros Hs. unfold handleBootScript, bootAutoRegister.
  destruct (String.eqb (Get "mac" (URL_Query r)) ""); [exact Hs|].
  pose proof (AutoRegister_ok (DB_ s) (datetime now) (Get "mac" (URL_Query r))
                (clientAddr SHP r) Hs) as Ha.
  destruct (AutoRegister _ _ _ _) as [[[sys isNew]|e] d]; cbn [snd] in Ha;
    [|exact Ha].
  destruct sys as [sy|]; [|exact Ha].
  cbv zeta. cbn iota.
  set (s0 := if isNew then _ else _).
  assert (DB_ s0 = d) as E by (subst s0; destruct isNew; reflexivity).
  clearbody s0.
  destruct (ImageID sy); [|cbn [snd]; rewrite E; exact Ha].
  destruct (negb _ || _); [cbn [snd]; rewrite E; exact Ha|].
  destruct (GetImage _ _); [|cbn [snd]; rewrite E; exact Ha].
  destruct (render _ _ _ _ _); [|cbn [snd]; rewrite E; exact Ha].
  cbn [snd fireSystemEvent Fire DB_ with_db]. rewrite E.
  apply set_state_ok; [cbn; tauto | exact Ha].
Qed.

Lemma handleCallback_ok s now r :
  store_ok (DB_ s) -> store_ok (DB_ (snd (handleCallback s now r))).
Proof.
  intros Hs. unfold handleCallback.
  destruct (negb _); [exact Hs|].
  destruct (String.eqb _ ""); [exact Hs|].
  pose proof (Transition_ok (DB_ s) (datetime now) (Get "mac" (PathValues r))
                "provisioning" "ready") as Ht.
  destruct (TransitionSystemStateByMAC _ _ _ _ _) as [[e|] d]; cbn [snd] in *.
  - apply Ht; [cbn; tauto | exact Hs].
  - cbn [with_db DB_].
    destruct (GetSystemByMAC d _) as [[sys|]|]; cbn [fireSystemEvent Fire DB_];
      (apply Ht; [cbn; tauto | exact Hs]).
Qed.

Lemma handleSystemStateAction_ok s now r :
  store_ok (DB_ s) -> store_ok (DB_ (snd (handleSystemStateAction row s now r))).
Proof.
  intros Hs. unfold handleSystemStateAction.
  destruct (strconv.ParseInt _) as [id|]; [|exact Hs].
  destruct (GetSystemByID _ _) as [[sys|]|]; try exact Hs.
  destruct (stateAction _ sys) as [st|msg] eqn:Ea; [|exact Hs].
  cbn [snd fireSystemEvent Fire DB_ with_db]. unfold UpdateSystemState.
  apply set_state_ok; [exact (stateAction_states _ _ _ Ea) | exact Hs].
Qed.

Lemma handleCreateSystem_ok s now r :
  store_ok (DB_ s) -> store_ok (DB_ (snd (handleCreateSystem row_new s now r))).
Proof.
  intros Hs. unfold handleCreateSystem.
  destruct (String.eqb _ ""); [exact Hs|].
  pose proof (CreateSystem_ok (DB_ s) (datetime now) (Get "mac" (Form r))
                (Get "hostname" (Form r)) Hs) as Hc.
  destruct (CreateSystem _ _ _ _) as [[sys|e] d]; exact Hc.
Qed.

Lemma handleUpdateSystem_ok s now r :
  store_ok (DB_ s) -> store_ok (DB_ (snd (handleUpdateSystem row pe s now r))).
Proof.
  intros Hs. unfold handleUpdateSystem.
  destruct (strconv.ParseInt _) as [id|]; [|exact Hs].
  pose proof (UpdateSystemInfo_ok (DB_ s) (datetime now) id (Get "mac" (Form r))
                (Get "hostname" (Form r)) Hs) as H1.
  destruct (UpdateSystemInfo _ _ _ _ _) as [[e|] d1]; cbn [snd] in H1; [exact H1|].
  pose proof (UpdateSystemVars_ok d1 (datetime now) id (Get "vars" (Form r)) H1) as H2.
  pose proof (UpdateSystemImage_ok _ (datetime now) id
                (form_id (Get "image_id" (Form r))) H2) as H3.
  destruct (UpdateSystemImage _ _ _ _) as [[e|] d3]; cbn [snd] in H3; [exact H3|].
  pose proof (UpdateSystemProfile_ok pe _ (datetime now) id
                (form_id (Get "profile_id" (Form r))) H3) as H4.
  destruct (UpdateSystemProfile _ _ _ _ _) as [[e|] d4]; exact H4.
Qed.

Lemma handleDeleteSystem_ok s now r :
  store_ok (DB_ s) -> store_ok (DB_ (snd (handleDeleteSystem s now r))).
Proof.
  intros Hs. unfold handleDeleteSystem.
  destruct (strconv.ParseInt _); [|exact Hs].
  apply DeleteSystem_ok. exact Hs.
Qed.

Lemma handle_ok rt s now r :
  store_ok (DB_ s) -> store_ok (DB_ (snd (handle SHP render row row_new cg pe rt s now r))).
Proof.
  destruct rt; cbn [handle].
  - apply handleBootScript_ok.
  - apply handleCallback_ok.
  - apply handleCreateSystem_ok.
  - apply handleUpdateSystem_ok.
  - apply handleDeleteSystem_ok.
  - apply handleSystemStateAction_ok.
  - exact (fun H => H).
Qed.

End Invariant.

(** X1.  Whatever requests the boot endpoint, the callback endpoint and
    the operator's machine and settings endpoints serve, in whatever order,
    the [systems] table keeps its shape: one row per MAC and per id, ids
    never above the AUTOINCREMENT mark, every MAC stored in its canonical
    form [xx:xx:xx:xx:xx:xx], every state one of discovered, queued,
    provisioning, ready and failed. *)
Theorem store_stays_well_formed
  (SHP : string -> option (string * string))
  (render : Server -> Clock -> Request -> System -> Image -> option string)
  (row : DB -> System -> string) (row_new : System -> string)
  (cg : bool -> string) (pe : Z -> bool)
  (reqs : list (route * Clock * Request)) (s : Server) :
  store_ok (DB_ s) ->
  store_ok (DB_ (snd (serve_all SHP render row row_new cg pe s reqs))).
Proof.
  revert s. induction reqs as [|[[rt now] r] rest IH]; intros s Hs; [exact Hs|].
  cbn [serve_all].
  pose proof (handle_ok SHP render row row_new cg pe rt s now r Hs) as H1.
  destruct (handle _ _ _ _ _ _ rt s now r) as [resp s1]. cbn [snd] in H1.
  specialize (IH s1 H1).
  destruct (serve_all _ _ _ _ _ _ s1 rest) as [resps s2]. exact IH.
Qed.

Lemma store_stays_well_formed_witness :
  store_ok (DB_ (server_with [] "")) /\
  store_ok (DB_ (snd (serve_all split_last_colon sample_render sample_row
                        (fun sys => MAC sys) (fun b => if b then "on" else "off")
                        (fun _ => false) (server_with [] "")
                        [ (POST_systems, clk 1767225600,
                           {| URL_Path := "/systems"; URL_Query := []; PathValues := [];
                              Form := [("mac", "AA-BB-CC-DD-EE-FF"); ("hostname", "node01")];
                              RemoteAddr := "10.0.0.9:50000"; Host := "10.0.0.1:8080" |});
                          (GET_boot_ipxe, clk 1767225601, boot_request "aabb.ccdd.eeff") ]))).
Proof.
  assert (store_ok (DB_ (server_with [] ""))) as H.
  { unfold store_ok. cbn. repeat split; constructor. }
  split; [exact H|].
  exact (store_stays_well_formed _ _ _ _ _ _ _ _ H).
Defined.

(** ** Requests that are refused *)



Lemma status_Error msg code : status (Error msg code) = code.
Proof. reflexivity. Qed.



(** ** Editing a machine *)

(** X3.  Editing a machine never changes its state: whatever the form
    holds and whether the request succeeds or not, [handleUpdateSystem]
    leaves the ids and states of all rows, in order, as they were. *)
Theorem edit_keeps_states
  (row : DB -> System -> string) (pe : Z -> bool)
  (s : Server) (now : Clock) (r : Request) :
  map (fun t => (db.ID t, State t)) (systems (DB_ (snd (handleUpdateSystem row pe s now r))))
  = map (fun t => (db.ID t, State t)) (systems (DB_ s)).
Proof.
  unfold handleUpdateSystem.
  destruct (strconv.ParseInt _) as [id|]; [|reflexivity].
  unfold UpdateSystemInfo.
  destruct (normalizeMAC _) as [m|e]; [|reflexivity].
  match goal with |- context [if ?c then _ else _] => destruct c end; [reflexivity|].
  unfold UpdateSystemImage, UpdateSystemVars.
  cbn [with_systems systems images].
  match goal with |- context [if ?c then _ else _] => destruct c end.
  { cbn [snd with_db DB_ systems with_systems].
    rewrite !map_update_where by reflexivity. reflexivity. }
  unfold UpdateSystemProfile. cbn [with_systems systems images].
  match goal with |- context [if ?c then _ else _] => destruct c end;
    cbn [snd with_db DB_ systems with_systems];
    rewrite !map_update_where by reflexivity; reflexivity.
Qed.

Lemma existsb_image_none d i :
  GetImage d i = None -> existsb (fun img => ImgID img =? i) (images d) = false.
Proof. unfold GetImage. apply existsb_find_none. Qed.

(** X4.  Editing a machine is not all-or-nothing.  When the form names
    an image that does not exist, the request is answered 500, yet the new
    MAC, hostname and variables have already been written; image and state
    are as before. *)
Theorem edit_with_missing_image_is_half_done
  (row : DB -> System -> string) (pe : Z -> bool)
  (s : Server) (now : Clock) (r : Request) (id i : Z) (sys : System) (m : string) :
  strconv.ParseInt (Get "id" (PathValues r)) = Some id ->
  find (by_id id) (systems (DB_ s)) = Some sys ->
  normalizeMAC (Get "mac" (Form r)) = Ok m ->
  existsb (fun t => by_mac m t && negb (by_id id t)) (systems (DB_ s)) = false ->
  form_id (Get "image_id" (Form r)) = Some i ->
  GetImage (DB_ s) i = None ->
  let out := handleUpdateSystem row pe s now r in
  status (fst out) = 500 /\
  exists sys',
    find (by_id id) (systems (DB_ (snd out))) = Some sys' /\
    MAC sys' = m /\ Hostname sys' = Get "hostname" (Form r) /\
    Vars sys' = (if String.eqb (Get "vars" (Form r)) "" then "{}" else Get "vars" (Form r)) /\
    ImageID sys' = ImageID sys /\ State sys' = State sys.
Proof.
  intros Hid Hf Hm Ho Hi Hg out. subst out.
  unfold handleUpdateSystem. rewrite Hid.
  unfold UpdateSystemInfo. rewrite Hm, Ho, andb_false_r.
  unfold UpdateSystemVars, UpdateSystemImage. rewrite Hi.
  cbn [with_systems systems images].
  pose proof (find_update_by_id id
                (set_info m (Get "hostname" (Form r)) (datetime now)) _ sys
                (fun _ => eq_refl) Hf) as H1.
  set (vars := if String.eqb (Get "vars" (Form r)) "" then "{}" else Get "vars" (Form r)).
  pose proof (find_update_by_id id (set_vars vars (datetime now)) _ _
                (fun _ => eq_refl) H1) as H2.
  rewrite (existsb_find_some _ _ _ H2), (existsb_image_none _ _ Hg).
  cbn [negb andb fst snd with_db DB_ systems].
  split; [reflexivity|].
  eexists. split; [exact H2|]. cbn. repeat split; reflexivity.
Qed.

Lemma edit_with_missing_image_is_half_done_witness :
  let s := server_with [machine 1 "aa:bb:cc:dd:ee:ff" "node01" (Some 1) "ready"] "" in
  let r := {| URL_Path := "/systems/1"; URL_Query := []; PathValues := [("id", "1")];
              Form := [("mac", "aa:bb:cc:dd:ee:01"); ("hostname", "node02");
                       ("vars", ""); ("image_id", "7")];
              RemoteAddr := "10.0.0.9:50000"; Host := "10.0.0.1:8080" |} in
  strconv.ParseInt (Get "id" (PathValues r)) = Some 1 /\
  find (by_id 1) (systems (DB_ s))
    = Some (machine 1 "aa:bb:cc:dd:ee:ff" "node01" (Some 1) "ready") /\
  normalizeMAC (Get "mac" (Form r)) = Ok "aa:bb:cc:dd:ee:01" /\
  existsb (fun t => by_mac "aa:bb:cc:dd:ee:01" t && negb (by_id 1 t)) (systems (DB_ s))
    = false /\
  form_id (Get "image_id" (Form r)) = Some 7 /\
  GetImage (DB_ s) 7 = None /\
  status (fst (handleUpdateSystem sample_row (fun _ => true) s (clk 1767225600) r)) = 500.
Proof.
  intros s r.
  assert (strconv.ParseInt (Get "id" (PathValues r)) = Some 1) as H1 by reflexivity.
  assert (find (by_id 1) (systems (DB_ s))
          = Some (machine 1 "aa:bb:cc:dd:ee:ff" "node01" (Some 1) "ready")) as H2
    by reflexivity.
  assert (normalizeMAC (Get "mac" (Form r)) = Ok "aa:bb:cc:dd:ee:01") as H3
    by (vm_compute; reflexivity).
  assert (existsb (fun t => by_mac "aa:bb:cc:dd:ee:01" t && negb (by_id 1 t))
                  (systems (DB_ s)) = false) as H4 by reflexivity.
  assert (form_id (Get "image_id" (Form r)) = Some 7) as H5 by reflexivity.
  assert (GetImage (DB_ s) 7 = None) as H6 by reflexivity.
  repeat (split; [assumption|]).
  exact (proj1 (edit_with_missing_image_is_half_done sample_row (fun _ => true)
                  s (clk 1767225600) r 1 7 _ _ H1 H2 H3 H4 H5 H6)).
Defined.

(** ** Boot dispatch of a queued machine *)

Lemma find_by_mac_MAC m rows sys : find (by_mac m) rows = Some sys -> MAC sys = m.
Proof.
  intros H. apply find_some in H. destruct H as [_ H].
  unfold by_mac in H. apply String.eqb_eq in H. exact H.
Qed.

Lemma find_mac_update_by_id m id f rows :
  (forall s, MAC (f s) = MAC s) ->
  find (by_mac m) (fst (update_where (by_id id) f rows))
  = option_map (fun s => if by_id id s then f s else s) (find (by_mac m) rows).
Proof.
  intros Hf. unfold update_where. cbn [fst].
  apply find_map_by_mac. intros s. destruct (by_id id s); [apply Hf | reflexivity].
Qed.

Lemma boot_queued_mac SHP render s now r m sys i img script :
  normalizeMAC (Get "mac" (URL_Query r)) = Ok m ->
  find (by_mac m) (systems (DB_ s)) = Some sys ->
  State sys = "queued" -> ImageID sys = Some i -> Hostname sys <> "" ->
  GetImage (DB_ s) i = Some img ->
  let seen := touch (clientAddr SHP r) (datetime now) sys in
  let d1 := with_systems (DB_ s)
              (fst (update_where (by_mac m) (touch (clientAddr SHP r) (datetime now))
                                 (systems (DB_ s)))) in
  render (with_db s d1) now r seen img = Some script ->
  handleBootScript SHP render s now r =
    (text (if String.eqb (GetSetting (DB_ s) "confirm_reimage") "1"
           then ipxe.WrapWithConfirmation script (Hostname sys) m else script),
     {| DB_ := UpdateSystemState d1 (datetime now) (db.ID sys) "provisioning";
        ServerURL := httpserver.ServerURL s; signingKey := signingKey s;
        fired := fired s ++ [system_event now seen "provisioning"] |}).
Proof.
  intros Hm Hf Hst Hi Hh Hg seen d1 Hr.
  unfold handleBootScript, bootAutoRegister.
  destruct (String.eqb (Get "mac" (URL_Query r)) "") eqn:E.
  { apply String.eqb_eq in E. rewrite E in Hm. discriminate Hm. }
  rewrite (AutoRegister_existing _ _ _ _ _ _ Hm Hf).
  fold seen. fold d1. cbv zeta. cbn iota.
  cbn [touch ImageID State Hostname] in *.
  replace (ImageID seen) with (Some i) by (symmetry; exact Hi).
  replace (State seen) with "queued" by (symmetry; exact Hst).
  replace (Hostname seen) with (Hostname sys) by reflexivity.
  apply String.eqb_neq in Hh. rewrite Hh, String.eqb_refl. cbn [negb orb].
  replace (GetImage (DB_ (with_db s d1)) i) with (Some img)
    by (symmetry; exact Hg).
  rewrite Hr.
  pose proof (find_by_mac_MAC _ _ _ Hf) as Hmac. subst m. reflexivity.
Qed.

(** X5.  A machine that is queued, with an image and a host name, gets
    its boot script from GET /boot.ipxe: the rendered script, wrapped in
    the confirmation menu when the [confirm_reimage] setting is 1.  The
    same request moves it to provisioning and fires one
    [system.provisioning] event, which carries the address the request
    came from. *)
Theorem boot_dispatches_queued_machine
  (SHP : string -> option (string * string))
  (render : Server -> Clock -> Request -> System -> Image -> option string)
  (s : Server) (now : Clock) (r : Request)
  (m : string) (sys : System) (i : Z) (img : Image) (script : string) :
  normalizeMAC (Get "mac" (URL_Query r)) = Ok m ->
  find (by_mac m) (systems (DB_ s)) = Some sys ->
  State sys = "queued" -> ImageID sys = Some i -> Hostname sys <> "" ->
  GetImage (DB_ s) i = Some img ->
  let seen := touch (clientAddr SHP r) (datetime now) sys in
  let d1 := with_systems (DB_ s)
              (fst (update_where (by_mac m) (touch (clientAddr SHP r) (datetime now))
                                 (systems (DB_ s)))) in
  render (with_db s d1) now r seen img = Some script ->
  let out := handleBootScript SHP render s now r in
  fst out = text (if String.eqb (GetSetting (DB_ s) "confirm_reimage") "1"
                  then ipxe.WrapWithConfirmation script (Hostname sys) m
                  else script) /\
  state_of_mac (DB_ (snd out)) m = Some "provisioning" /\
  fired (snd out) = (fired s ++ [system_event now seen "provisioning"])%list /\
  webhook.Data_ip_addr (system_event now seen "provisioning") = clientAddr SHP r.
Proof.
  intros Hm Hf Hst Hi Hh Hg seen d1 Hr out. subst out.
  rewrite (boot_queued_mac SHP render s now r m sys i img script Hm Hf Hst Hi Hh Hg Hr).
  cbn [fst snd DB_ fired]. repeat split.
  unfold state_of_mac, UpdateSystemState. cbn [with_systems systems].
  rewrite find_mac_update_by_id by reflexivity.
  subst d1. cbn [with_systems systems].
  rewrite find_update_by_mac by reflexivity. rewrite Hf. cbn [option_map].
  unfold by_id. cbn [touch db.ID]. rewrite Z.eqb_refl. reflexivity.
Qed.

Lemma boot_dispatches_queued_machine_witness :
  let s := server_with [machine 1 "aa:bb:cc:dd:ee:ff" "node01" (Some 1) "queued"] "" in
  let r := boot_request "AA-BB-CC-DD-EE-FF" in
  let sys := machine 1 "aa:bb:cc:dd:ee:ff" "node01" (Some 1) "queued" in
  let script := ("#!ipxe" ++ LF ++ "kernel http://10.0.0.1:8080/images/1/file/vmlinuz"
                 ++ " console=ttyS0" ++ LF ++ "boot" ++ LF)%string in
  normalizeMAC (Get "mac" (URL_Query r)) = Ok "aa:bb:cc:dd:ee:ff" /\
  find (by_mac "aa:bb:cc:dd:ee:ff") (systems (DB_ s)) = Some sys /\
  State sys = "queued" /\ ImageID sys = Some 1 /\ Hostname sys <> "" /\
  GetImage (DB_ s) 1 = Some sample_image /\
  sample_render
    (with_db s (with_systems (DB_ s)
       (fst (update_where (by_mac "aa:bb:cc:dd:ee:ff")
               (touch (clientAddr split_last_colon r) (datetime (clk 1767225600)))
               (systems (DB_ s))))))
    (clk 1767225600) r
    (touch (clientAddr split_last_colon r) (datetime (clk 1767225600)) sys)
    sample_image = Some script /\
  state_of_mac (DB_ (snd (handleBootScript split_last_colon sample_render s
                            (clk 1767225600) r))) "aa:bb:cc:dd:ee:ff"
    = Some "provisioning".
Proof.
  intros s r sys script.
  assert (normalizeMAC (Get "mac" (URL_Query r)) = Ok "aa:bb:cc:dd:ee:ff") as H1
    by (vm_compute; reflexivity).
  assert (find (by_mac "aa:bb:cc:dd:ee:ff") (systems (DB_ s)) = Some sys) as H2
    by reflexivity.
  assert (State sys = "queued") as H3 by reflexivity.
  assert (ImageID sys = Some 1) as H4 by reflexivity.
  assert (Hostname sys <> "") as H5 by discriminate.
  assert (GetImage (DB_ s) 1 = Some sample_image) as H6 by reflexivity.
  assert (sample_render
    (with_db s (with_systems (DB_ s)
       (fst (update_where (by_mac "aa:bb:cc:dd:ee:ff")
               (touch (clientAddr split_last_colon r) (datetime (clk 1767225600)))
               (systems (DB_ s))))))
    (clk 1767225600) r
    (touch (clientAddr split_last_colon r) (datetime (clk 1767225600)) sys)
    sample_image = Some script) as H7 by reflexivity.
  repeat (split; [assumption|]).
  exact (proj1 (proj2 (boot_dispatches_queued_machine split_last_colon sample_render
                         s (clk 1767225600) r _ sys 1 sample_image script
                         H1 H2 H3 H4 H5 H6 H7))).
Defined.

(** X6.  Boot, callback, boot.  A queued machine that fetches its boot
    script, then posts its callback, then boots again is answered with the
    script, then the JSON status ok, then the exit script; it ends in state
    ready, and the two events fired on the way are [system.provisioning]
    and [system.ready], in this order. *)
Theorem provisioning_round_trip
  (SHP : string -> option (string * string))
  (render : Server -> Clock -> Request -> System -> Image -> option string)
  (s : Server) (t1 t2 t3 : Clock) (r1 cb r3 : Request)
  (m : string) (sys : System) (i : Z) (img : Image) (script : string) :
  normalizeMAC (Get "mac" (URL_Query r1)) = Ok m ->
  normalizeMAC (Get "mac" (PathValues cb)) = Ok m ->
  normalizeMAC (Get "mac" (URL_Query r3)) = Ok m ->
  find (by_mac m) (systems (DB_ s)) = Some sys ->
  State sys = "queued" -> ImageID sys = Some i -> Hostname sys <> "" ->
  GetImage (DB_ s) i = Some img ->
  render (with_db s (with_systems (DB_ s)
            (fst (update_where (by_mac m) (touch (clientAddr SHP r1) (datetime t1))
                               (systems (DB_ s))))))
         t1 r1 (touch (clientAddr SHP r1) (datetime t1) sys) img = Some script ->
  validateToken s t2 cb = true ->
  let out1 := handleBootScript SHP render s t1 r1 in
  let out2 := handleCallback (snd out1) t2 cb in
  let out3 := handleBootScript SHP render (snd out2) t3 r3 in
  fst out1 = text (if String.eqb (GetSetting (DB_ s) "confirm_reimage") "1"
                   then ipxe.WrapWithConfirmation script (Hostname sys) m
                   else script) /\
  fst out2 = json_status_ok /\
  fst out3 = text ipxe.ExitScript /\
  state_of_mac (DB_ (snd out3)) m = Some "ready" /\
  map webhook.Type_ (fired (snd out3))
    = (map webhook.Type_ (fired s) ++ ["system.provisioning"; "system.ready"])%list.
Proof.
  intros Hm1 Hm2 Hm3 Hf Hst Hi Hh Hg Hr Hv out1 out2 out3.
  pose proof (boot_dispatches_queued_machine SHP render s t1 r1 m sys i img script
                Hm1 Hf Hst Hi Hh Hg Hr) as (A1 & A2 & A3 & _).
  fold out1 in A1, A2, A3.
  assert (signingKey (snd out1) = signingKey s) as Hk.
  { subst out1.
    rewrite (boot_queued_mac SHP render s t1 r1 m sys i img script
               Hm1 Hf Hst Hi Hh Hg Hr). reflexivity. }
  unfold state_of_mac in A2.
  destruct (find (by_mac m) (systems (DB_ (snd out1)))) as [sys1|] eqn:Hf1;
    [|discriminate A2].
  cbn [option_map] in A2. injection A2 as Hst1.
  assert (validateToken (snd out1) t2 cb = true) as Hv1
    by (rewrite (validateToken_key (snd out1) s t2 cb Hk); exact Hv).
  destruct (callback_ok (snd out1) t2 cb m sys1 Hv1 Hm2 Hf1 (or_introl Hst1))
    as (s2 & sys2 & B1 & B2 & B3 & B4 & B5).
  assert (out2 = (json_status_ok, s2)) as E2 by exact B1.
  assert (not_bootable sys2) as Hn.
  { right. right. rewrite B3. discriminate. }
  pose proof (boot_idle_mac SHP render s2 t3 r3 m sys2 Hm3 B2 Hn) as C.
  assert (out3 = (text ipxe.ExitScript,
                  with_db s2 (with_systems (DB_ s2)
                    (fst (update_where (by_mac m) (touch (clientAddr SHP r3) (datetime t3))
                                       (systems (DB_ s2))))))) as E3.
  { subst out3. rewrite E2. exact C. }
  rewrite E2, E3. cbn [fst snd with_db DB_ fired with_systems systems].
  split; [exact A1|]. split; [reflexivity|]. split; [reflexivity|]. split.
  - unfold state_of_mac. cbn [systems with_systems].
    rewrite find_update_by_mac by reflexivity. rewrite B2. cbn. rewrite B3. reflexivity.
  - rewrite B5, A3, !map_app, <- app_assoc. reflexivity.
Qed.

Lemma provisioning_round_trip_witness :
  let s := server_with [machine 1 "aa:bb:cc:dd:ee:ff" "node01" (Some 1) "queued"] "" in
  let r1 := boot_request "AA-BB-CC-DD-EE-FF" in
  let cb := callback_request "aa:bb:cc:dd:ee:ff" [] in
  let sys := machine 1 "aa:bb:cc:dd:ee:ff" "node01" (Some 1) "queued" in
  let script := ("#!ipxe" ++ LF ++ "kernel http://10.0.0.1:8080/images/1/file/vmlinuz"
                 ++ " console=ttyS0" ++ LF ++ "boot" ++ LF)%string in
  normalizeMAC (Get "mac" (URL_Query r1)) = Ok "aa:bb:cc:dd:ee:ff" /\
  normalizeMAC (Get "mac" (PathValues cb)) = Ok "aa:bb:cc:dd:ee:ff" /\
  find (by_mac "aa:bb:cc:dd:ee:ff") (systems (DB_ s)) = Some sys /\
  State sys = "queued" /\ ImageID sys = Some 1 /\ Hostname sys <> "" /\
  GetImage (DB_ s) 1 = Some sample_image /\
  sample_render
    (with_db s (with_systems (DB_ s)
       (fst (update_where (by_mac "aa:bb:cc:dd:ee:ff")
               (touch (clientAddr split_last_colon r1) (datetime (clk 1767225600)))
               (systems (DB_ s))))))
    (clk 1767225600) r1
    (touch (clientAddr split_last_colon r1) (datetime (clk 1767225600)) sys)
    sample_image = Some script /\
  validateToken s (clk 1767225700) cb = true /\
  state_of_mac
    (DB_ (snd (handleBootScript split_last_colon sample_render
                 (snd (handleCallback
                         (snd (handleBootScript split_last_colon sample_render s
                                 (clk 1767225600) r1))
                         (clk 1767225700) cb))
                 (clk 1767225800) r1)))
    "aa:bb:cc:dd:ee:ff" = Some "ready".
Proof.
  intros s r1 cb sys script.
  assert (normalizeMAC (Get "mac" (URL_Query r1)) = Ok "aa:bb:cc:dd:ee:ff") as H1
    by (vm_compute; reflexivity).
  assert (normalizeMAC (Get "mac" (PathValues cb)) = Ok "aa:bb:cc:dd:ee:ff") as H2
    by (vm_compute; reflexivity).
  assert (find (by_mac "aa:bb:cc:dd:ee:ff") (systems (DB_ s)) = Some sys) as H3
    by reflexivity.
  assert (State sys = "queued") as H4 by reflexivity.
  assert (ImageID sys = Some 1) as H5 by reflexivity.
  assert (Hostname sys <> "") as H6 by discriminate.
  assert (GetImage (DB_ s) 1 = Some sample_image) as H7 by reflexivity.
  assert (sample_render
    (with_db s (with_systems (DB_ s)
       (fst (update_where (by_mac "aa:bb:cc:dd:ee:ff")
               (touch (clientAddr split_last_colon r1) (datetime (clk 1767225600)))
               (systems (DB_ s))))))
    (clk 1767225600) r1
    (touch (clientAddr split_last_colon r1) (datetime (clk 1767225600)) sys)
    sample_image = Some script) as H8 by reflexivity.
  assert (validateToken s (clk 1767225700) cb = true) as H9 by reflexivity.
  repeat (split; [assumption|]).
  exact (proj1 (proj2 (proj2 (proj2
           (provisioning_round_trip split_last_colon sample_render s
              (clk 1767225600) (clk 1767225700) (clk 1767225800) r1 cb r1
              _ sys 1 sample_image script H1 H2 H1 H3 H4 H5 H6 H7 H8 H9))))).
Defined.

(** ** The confirmation setting *)

Lemma find_key_map key value l :
  find (fun kv : string * string => String.eqb (fst kv) key)
       (map (fun kv => if by_key key kv then (fst kv, value) else kv) l)
  = option_map (fun kv => (fst kv, value))
               (find (fun kv : string * string => String.eqb (fst kv) key) l).
Proof.
  induction l as [|kv l IH]; [reflexivity|].
  cbn [map find]. unfold by_key.
  destruct (String.eqb (fst kv) key) eqn:E; cbn [fst]; rewrite E; [reflexivity | exact IH].
Qed.

Lemma GetSetting_SetSetting d key value :
  GetSetting (SetSetting d key value) key = value.
Proof.
  unfold GetSetting, SetSetting. cbn [settings].
  destruct (existsb (by_key key) (settings d)) eqn:E.
  - rewrite find_key_map.
    rewrite find_existsb in E. unfold by_key in E.
    destruct (find _ (settings d)); [reflexivity | discriminate E].
  - rewrite (find_app_none _ _ (key, value)); [reflexivity| |cbn; apply String.eqb_refl].
    rewrite find_existsb in E. unfold by_key in E.
    destruct (find _ (settings d)); [discriminate E | reflexivity].
Qed.

(** X7.  The operator's confirmation switch decides what a queued
    machine boots next: after PUT /settings/confirm-reimage with value
    [true] its boot script comes wrapped in the confirmation menu, after
    any other value it comes as rendered. *)
Theorem confirm_switch_decides_wrapping
  (SHP : string -> option (string * string))
  (render : Server -> Clock -> Request -> System -> Image -> option string)
  (cg : bool -> string)
  (s : Server) (t0 now : Clock) (r0 r : Request)
  (m : string) (sys : System) (i : Z) (img : Image) (script : string) :
  let s0 := snd (handleToggleConfirmGlobal cg s t0 r0) in
  normalizeMAC (Get "mac" (URL_Query r)) = Ok m ->
  find (by_mac m) (systems (DB_ s)) = Some sys ->
  State sys = "queued" -> ImageID sys = Some i -> Hostname sys <> "" ->
  GetImage (DB_ s) i = Some img ->
  render (with_db s0 (with_systems (DB_ s0)
            (fst (update_where (by_mac m) (touch (clientAddr SHP r) (datetime now))
                               (systems (DB_ s0))))))
         now r (touch (clientAddr SHP r) (datetime now) sys) img = Some script ->
  fst (handleBootScript SHP render s0 now r)
  = text (if String.eqb (Get "value" (Form r0)) "true"
          then ipxe.WrapWithConfirmation script (Hostname sys) m
          else script).
Proof.
  intros s0 Hm Hf Hst Hi Hh Hg Hr.
  assert (systems (DB_ s0) = systems (DB_ s)) as Es by reflexivity.
  assert (GetImage (DB_ s0) i = Some img) as Hg0 by exact Hg.
  rewrite <- Es in Hf.
  rewrite (boot_queued_mac SHP render s0 now r m sys i img script Hm Hf Hst Hi Hh Hg0 Hr).
  cbn [fst]. subst s0. unfold handleToggleConfirmGlobal. cbn [snd with_db DB_].
  rewrite GetSetting_SetSetting.
  destruct (String.eqb (Get "value" (Form r0)) "true"); reflexivity.
Qed.

Lemma confirm_switch_decides_wrapping_witness :
  let s := server_with [machine 1 "aa:bb:cc:dd:ee:ff" "node01" (Some 1) "queued"] "" in
  let r0 := {| URL_Path := "/settings/confirm-reimage"; URL_Query := [];
               PathValues := []; Form := [("value", "true")];
               RemoteAddr := "10.0.0.9:50000"; Host := "10.0.0.1:8080" |} in
  let cg := fun b : bool => if b then "on" else "off" in
  let s0 := snd (handleToggleConfirmGlobal cg s (clk 1767225500) r0) in
  let r := boot_request "AA-BB-CC-DD-EE-FF" in
  let sys := machine 1 "aa:bb:cc:dd:ee:ff" "node01" (Some 1) "queued" in
  let script := ("#!ipxe" ++ LF ++ "kernel http://10.0.0.1:8080/images/1/file/vmlinuz"
                 ++ " console=ttyS0" ++ LF ++ "boot" ++ LF)%string in
  normalizeMAC (Get "mac" (URL_Query r)) = Ok "aa:bb:cc:dd:ee:ff" /\
  find (by_mac "aa:bb:cc:dd:ee:ff") (systems (DB_ s)) = Some sys /\
  State sys = "queued" /\ ImageID sys = Some 1 /\ Hostname sys <> "" /\
  GetImage (DB_ s) 1 = Some sample_image /\
  sample_render
    (with_db s0 (with_systems (DB_ s0)
       (fst (update_where (by_mac "aa:bb:cc:dd:ee:ff")
               (touch (clientAddr split_last_colon r) (datetime (clk 1767225600)))
               (systems (DB_ s0))))))
    (clk 1767225600) r
    (touch (clientAddr split_last_colon r) (datetime (clk 1767225600)) sys)
    sample_image = Some script /\
  fst (handleBootScript split_last_colon sample_render s0 (clk 1767225600) r)
  = text (ipxe.WrapWithConfirmation script "node01" "aa:bb:cc:dd:ee:ff").
Proof.
  intros s r0 cg s0 r sys script.
  assert (normalizeMAC (Get "mac" (URL_Query r)) = Ok "aa:bb:cc:dd:ee:ff") as H1
    by (vm_compute; reflexivity).
  assert (find (by_mac "aa:bb:cc:dd:ee:ff") (systems (DB_ s)) = Some sys) as H2
    by reflexivity.
  assert (State sys = "queued") as H3 by reflexivity.
  assert (ImageID sys = Some 1) as H4 by reflexivity.
  assert (Hostname sys <> "") as H5 by discriminate.
  assert (GetImage (DB_ s) 1 = Some sample_image) as H6 by reflexivity.
  assert (sample_render
    (with_db s0 (with_systems (DB_ s0)
       (fst (update_where (by_mac "aa:bb:cc:dd:ee:ff")
               (touch (clientAddr split_last_colon r) (datetime (clk 1767225600)))
               (systems (DB_ s0))))))
    (clk 1767225600) r
    (touch (clientAddr split_last_colon r) (datetime (clk 1767225600)) sys)
    sample_image = Some script) as H7 by reflexivity.
  repeat (split; [assumption|]).
  exact (confirm_switch_decides_wrapping split_last_colon sample_render cg s
           (clk 1767225500) (clk 1767225600) r0 r _ sys 1 sample_image script
           H1 H2 H3 H4 H5 H6 H7).
Defined.

(** ** Operator actions *)

(** X8.  An operator action that is accepted always moves the machine:
    the new state differs from the old one, it is discovered, queued,
    ready or failed and never provisioning, and the one event fired names
    it while carrying the machine as it was read before the change. *)
Theorem accepted_action_moves_machine
  (row : DB -> System -> string) (s : Server) (now : Clock) (r : Request)
  (id : Z) (sys : System) :
  strconv.ParseInt (Get "id" (PathValues r)) = Some id ->
  find (by_id id) (systems (DB_ s)) = Some sys ->
  status (fst (handleSystemStateAction row s now r)) = 200 ->
  exists st,
    In st ["discovered"; "queued"; "ready"; "failed"] /\ st <> State sys /\
    state_of_id (DB_ (snd (handleSystemStateAction row s now r))) id = Some st /\
    fired (snd (handleSystemStateAction row s now r))
      = (fired s ++ [system_event now sys st])%list.
Proof.
  intros Hid Hf. unfold handleSystemStateAction, GetSystemByID. rewrite Hid, Hf.
  destruct (stateAction (Get "action" (Form r)) sys) as [st|msg] eqn:Ea;
    [|cbn; discriminate].
  intros _. exists st. destruct (stateAction_target _ _ _ Ea) as [H1 H2].
  split; [exact H1|]. split; [exact H2|].
  cbn [snd fireSystemEvent Fire DB_ with_db fired webhook.Timestamp String.eqb].
  split; [|reflexivity].
  unfold state_of_id, UpdateSystemState. cbn [with_systems systems].
  rewrite (find_update_by_id id (set_state st (datetime now)) _ sys
             (fun _ => eq_refl) Hf). reflexivity.
Qed.

Lemma accepted_action_moves_machine_witness :
  let s := server_with [machine 1 "aa:bb:cc:dd:ee:ff" "node01" (Some 1) "provisioning"] "" in
  let r := action_request "1" "mark_failed" in
  strconv.ParseInt (Get "id" (PathValues r)) = Some 1 /\
  find (by_id 1) (systems (DB_ s))
    = Some (machine 1 "aa:bb:cc:dd:ee:ff" "node01" (Some 1) "provisioning") /\
  status (fst (handleSystemStateAction sample_row s (clk 1767225600) r)) = 200 /\
  exists st,
    In st ["discovered"; "queued"; "ready"; "failed"] /\
    st <> "provisioning" /\
    state_of_id (DB_ (snd (handleSystemStateAction sample_row s (clk 1767225600) r))) 1
      = Some st.
Proof.
  intros s r.
  assert (strconv.ParseInt (Get "id" (PathValues r)) = Some 1) as H1 by reflexivity.
  assert (find (by_id 1) (systems (DB_ s))
          = Some (machine 1 "aa:bb:cc:dd:ee:ff" "node01" (Some 1) "provisioning")) as H2
    by reflexivity.
  assert (status (fst (handleSystemStateAction sample_row s (clk 1767225600) r)) = 200)
    as H3 by reflexivity.
  repeat (split; [assumption|]).
  destruct (accepted_action_moves_machine sample_row s (clk 1767225600) r 1 _ H1 H2 H3)
    as (st & A & B & C & _).
  exists st. split; [exact A|]. split; [exact B | exact C].
Defined.

(** ** What a boot request leaves alone *)

Lemma find_by_id_map id (g : System -> System) rows :
  (forall s, db.ID (g s) = db.ID s) ->
  find (by_id id) (map g rows) = option_map g (find (by_id id) rows).
Proof.
  intros Hg. induction rows as [|a l IH]; [reflexivity|].
  cbn [map find]. unfold by_id at 1 3. rewrite Hg.
  destruct (db.ID a =? id); [reflexivity | exact IH].
Qed.

Lemma find_app_l {A} (f : A -> bool) l l' x :
  find f l = Some x -> find f (l ++ l') = Some x.
Proof.
  induction l as [|a l IH]; [discriminate|].
  cbn. destruct (f a); [exact (fun H => H) | exact IH].
Qed.

Lemma NoDup_find_by_id rows x :
  NoDup (map db.ID rows) -> In x rows -> find (by_id (db.ID x)) rows = Some x.
Proof.
  induction rows as [|a l IH]; [contradiction|].
  cbn [map]. intros Hn Hin. inversion Hn as [|y l' Hy Hl]; subst.
  cbn [find]. unfold by_id at 1.
  destruct Hin as [->|Hin]; [rewrite Z.eqb_refl; reflexivity|].
  destruct (db.ID a =? db.ID x) eqn:E; [|exact (IH Hl Hin)].
  exfalso. apply Hy. apply Z.eqb_eq in E. rewrite E. apply in_map. exact Hin.
Qed.

Lemma assignment_touch ip now o : assignment (touch ip now o) = assignment o.
Proof. reflexivity. Qed.

Lemma assignment_set_state st now o : assignment (set_state st now o) = assignment o.
Proof. reflexivity. Qed.

(** X9.  A boot request never edits a machine.  Every row keeps its id,
    MAC, host name, image, profile and variables, and no row is removed;
    the only state change a boot request can make is queued to
    provisioning, and only for the machine whose MAC it carries. *)
Theorem boot_changes_only_the_booting_machine
  (SHP : string -> option (string * string))
  (render : Server -> Clock -> Request -> System -> Image -> option string)
  (s : Server) (now : Clock) (r : Request) (id : Z) (o : System) :
  NoDup (map db.ID (systems (DB_ s))) ->
  find (by_id id) (systems (DB_ s)) = Some o ->
  exists n,
    find (by_id id) (systems (DB_ (snd (handleBootScript SHP render s now r)))) = Some n /\
    assignment n = assignment o /\
    (State n = State o \/
     State o = "queued" /\ State n = "provisioning" /\
     normalizeMAC (Get "mac" (URL_Query r)) = Ok (MAC o)).
Proof.
  intros Hn Ho.
  assert (exists n, find (by_id id) (systems (DB_ s)) = Some n /\
                    assignment n = assignment o /\ State n = State o) as Hsame
    by (exists o; auto).
  destruct (String.eqb (Get "mac" (URL_Query r)) "") eqn:E.
  { apply String.eqb_eq in E. rewrite (boot_no_mac SHP render s now r E).
    destruct Hsame as (n & A & B & C). exists n. auto. }
  destruct (normalizeMAC (Get "mac" (URL_Query r))) as [m|e] eqn:Hm.
  2:{ rewrite (boot_invalid_mac SHP render s now r e Hm).
      destruct Hsame as (n & A & B & C). exists n. auto. }
  destruct (find (by_mac m) (systems (DB_ s))) as [sys|] eqn:Hf.
  2:{ rewrite (boot_new_mac SHP render s now r m Hm Hf). cbn [snd DB_ systems].
      exists o. split; [apply find_app_l; exact Ho | auto]. }
  set (tch := touch (clientAddr SHP r) (datetime now)).
  set (o1 := if by_mac m o then tch o else o).
  assert (find (by_id id) (fst (update_where (by_mac m) tch (systems (DB_ s)))) = Some o1)
    as Ho1.
  { unfold update_where. cbn [fst]. rewrite find_by_id_map.
    - rewrite Ho. reflexivity.
    - intros t. destruct (by_mac m t); reflexivity. }
  assert (assignment o1 = assignment o /\ State o1 = State o) as [Ha1 Hs1]
    by (subst o1; destruct (by_mac m o); split; reflexivity).
  destruct (String.eqb (State sys) "queued") eqn:Eq.
  2:{ rewrite (boot_idle_mac SHP render s now r m sys Hm Hf).
      - cbn [snd with_db DB_ with_systems systems]. exists o1. auto.
      - right. right. apply String.eqb_neq. exact Eq. }
  apply String.eqb_eq in Eq.
  destruct (ImageID sys) as [i|] eqn:Hi.
  2:{ rewrite (boot_idle_mac SHP render s now r m sys Hm Hf (or_introl Hi)).
      cbn [snd with_db DB_ with_systems systems]. exists o1. auto. }
  destruct (String.eqb (Hostname sys) "") eqn:Eh.
  { apply String.eqb_eq in Eh.
    rewrite (boot_idle_mac SHP render s now r m sys Hm Hf (or_intror (or_introl Eh))).
    cbn [snd with_db DB_ with_systems systems]. exists o1. auto. }
  apply String.eqb_neq in Eh.
  unfold handleBootScript, bootAutoRegister. rewrite E.
  rewrite (AutoRegister_existing _ _ _ _ _ _ Hm Hf).
  fold tch. cbv zeta. cbn iota.
  change (ImageID (tch sys)) with (ImageID sys). rewrite Hi.
  change (State (tch sys)) with (State sys). rewrite Eq, String.eqb_refl.
  change (Hostname (tch sys)) with (Hostname sys).
  apply String.eqb_neq in Eh. rewrite Eh. cbn [negb orb].
  destruct (GetImage _ i) as [img|];
    [|cbn [snd with_db DB_ with_systems systems]; exists o1; auto].
  destruct (render _ _ _ _ _) as [script|];
    [|cbn [snd with_db DB_ with_systems systems]; exists o1; auto].
  cbn [snd fireSystemEvent Fire with_db DB_]. unfold UpdateSystemState.
  cbn [with_systems systems]. unfold update_where at 1. cbn [fst].
  rewrite find_by_id_map by (intros t; destruct (by_id _ t); reflexivity).
  rewrite Ho1. cbn [option_map]. eexists. split; [reflexivity|].
  change (db.ID (tch sys)) with (db.ID sys).
  destruct (by_id (db.ID sys) o1) eqn:Eid; [|auto].
  split; [rewrite assignment_set_state; exact Ha1|].
  right.
  assert (db.ID o1 = db.ID o) as Hio by (injection Ha1; auto).
  assert (db.ID o = db.ID sys) as Hios
    by (unfold by_id in Eid; apply Z.eqb_eq in Eid; lia).
  assert (o = sys) as ->.
  { pose proof (NoDup_find_by_id _ o Hn (proj1 (find_some _ _ Ho))) as F1.
    pose proof (NoDup_find_by_id _ sys Hn (proj1 (find_some _ _ Hf))) as F2.
    rewrite Hios in F1. congruence. }
  split; [exact Eq|]. split; [reflexivity|].
  rewrite (find_by_mac_MAC _ _ _ Hf). reflexivity.
Qed.

Lemma boot_changes_only_the_booting_machine_witness :
  let s := server_with [machine 1 "aa:bb:cc:dd:ee:ff" "node01" (Some 1) "queued";
                        machine 2 "aa:bb:cc:dd:ee:00" "node02" (Some 1) "queued"] "" in
  NoDup (map db.ID (systems (DB_ s))) /\
  find (by_id 2) (systems (DB_ s))
    = Some (machine 2 "aa:bb:cc:dd:ee:00" "node02" (Some 1) "queued") /\
  exists n,
    find (by_id 2) (systems (DB_ (snd (handleBootScript split_last_colon sample_render s
                                         (clk 1767225600)
                                         (boot_request "aa:bb:cc:dd:ee:ff"))))) = Some n /\
    assignment n = assignment (machine 2 "aa:bb:cc:dd:ee:00" "node02" (Some 1) "queued").
Proof.
  intros s.
  assert (NoDup (map db.ID (systems (DB_ s)))) as H1.
  { cbn. constructor; [cbn; intros [H|[]]; discriminate H|].
    constructor; [intros []|constructor]. }
  assert (find (by_id 2) (systems (DB_ s))
          = Some (machine 2 "aa:bb:cc:dd:ee:00" "node02" (Some 1) "queued")) as H2
    by reflexivity.
  split; [exact H1|]. split; [exact H2|].
  destruct (boot_changes_only_the_booting_machine split_last_colon sample_render s
              (clk 1767225600) (boot_request "aa:bb:cc:dd:ee:ff") 2 _ H1 H2)
    as (n & A & B & _).
  exists n. split; [exact A | exact B].
Defined.

(** ** Sessions *)

Import session.

Lemma free_of_app c a b :
  free_of c (a ++ b) = free_of c a && free_of c b.
Proof.
  induction a as [|x a IH]; [reflexivity|].
  cbn. rewrite IH. apply andb_assoc.
Qed.

Lemma digit_other c d :
  0 <= d < 10 -> (byte_of c <? 48) || (57 <? byte_of c) = true ->
  Ascii.eqb (strconv.digit d) c = false.
Proof.
  intros Hd Hc. apply Ascii.eqb_neq. intros E.
  pose proof (byte_of_digit d Hd) as B. rewrite E in B. lia.
Qed.

Lemma digits_free_of c fuel : forall n acc,
  (byte_of c <? 48) || (57 <? byte_of c) = true ->
  0 <= n -> free_of c acc = true -> free_of c (strconv.digits fuel n acc) = true.
Proof.
  induction fuel as [|fuel IH]; intros n acc Hc Hn Hacc; cbn [strconv.digits];
    [exact Hacc|].
  destruct (n <? 10) eqn:E.
  - apply Z.ltb_lt in E. cbn [free_of].
    rewrite (digit_other c n) by (try lia; exact Hc). exact Hacc.
  - apply IH; [exact Hc | apply Z.div_pos; lia|]. cbn [free_of].
    rewrite (digit_other c (n mod 10)) by (try (apply Z.mod_pos_bound; lia); exact Hc).
    exact Hacc.
Qed.

Lemma FormatInt_free_of c n :
  (byte_of c <? 48) || (57 <? byte_of c) = true -> Ascii.eqb "-" c = false ->
  free_of c (strconv.FormatInt n) = true.
Proof.
  intros Hc Hm. unfold strconv.FormatInt. destruct (n <? 0) eqn:E.
  - apply Z.ltb_lt in E. cbn [free_of]. rewrite Hm. cbn [negb andb].
    apply digits_free_of; [exact Hc | lia | reflexivity].
  - apply Z.ltb_ge in E. apply digits_free_of; [exact Hc | lia | reflexivity].
Qed.

(** The base64url alphabet has neither [|] nor [.]. *)
Lemma enc6_plain v :
  Ascii.eqb (base64.enc6 v) "|" = false /\ Ascii.eqb (base64.enc6 v) "." = false.
Proof.
  unfold base64.enc6. generalize (Z.to_nat v). intros n.
  do 64 (destruct n as [|n]; [split; reflexivity|]).
  split; reflexivity.
Qed.

Lemma Encode_free_of c s :
  (forall v, Ascii.eqb (base64.enc6 v) c = false) ->
  free_of c (base64.EncodeToString s) = true.
Proof.
  intros H. induction s as [| |a b|a b d r IH] using triples_ind;
    cbn [base64.EncodeToString free_of]; rewrite ?H; cbn [negb andb];
    [reflexivity | reflexivity | reflexivity | exact IH].
Qed.

Lemma cookie_nonempty a b : (a ++ String "|" b)%string <> "".
Proof. destruct a; discriminate. Qed.

(** X10.  A session cookie issued at login is accepted for thirty days
    and not a second longer: [validateSession] answers true exactly while
    the clock is at or before the issue time plus 2592000 seconds, and
    until then [AuthMiddleware] hands the request to the wrapped handler. *)
Theorem session_valid_for_thirty_days
  (hash key hx : string) (t0 now : Clock) :
  key <> "" ->
  - 2 ^ 63 <= unix t0 + sessionMaxAge < 2 ^ 63 ->
  validateSession key now (Some (createSession key t0))
    = (unix now <=? unix t0 + 2592000) /\
  (unix now <= unix t0 + 2592000 ->
   AuthMiddleware hash key now (Some (createSession key t0)) hx = Next) /\
  (hash <> "" -> unix t0 + 2592000 < unix now ->
   AuthMiddleware hash key now (Some (createSession key t0)) hx <> Next).
Proof.
  intros Hk He.
  assert (validateSession key now (Some (createSession key t0))
          = (unix now <=? unix t0 + 2592000)) as Hv.
  { unfold validateSession, createSession. rewrite (length_eqb_0 _ Hk).
    rewrite base64_round_trip. unfold strings.SplitN2.
    set (e := unix t0 + sessionMaxAge) in *.
    change ("|" ++ base64.EncodeToString (hmac.Sum key (strconv.FormatInt e)))%string
      with (String "|" (base64.EncodeToString (hmac.Sum key (strconv.FormatInt e)))).
    rewrite (cut_free "|" _ _ (FormatInt_free_of "|" e eq_refl eq_refl)).
    rewrite (ParseInt_FormatInt e He), base64_round_trip.
    unfold hmac.Equal. rewrite String.eqb_refl.
    change (unix t0 + 2592000) with e.
    rewrite Z.leb_antisym. destruct (e <? unix now); reflexivity. }
  split; [exact Hv|]. unfold AuthMiddleware. rewrite Hv. split.
  - intros Hle. apply Z.leb_le in Hle. rewrite Hle.
    destruct (String.eqb hash ""); reflexivity.
  - intros Hh Hlt. apply String.eqb_neq in Hh. rewrite Hh.
    replace (unix now <=? unix t0 + 2592000) with false
      by (symmetry; apply Z.leb_gt; exact Hlt).
    destruct (String.eqb hx "true"); discriminate.
Qed.

Lemma session_valid_for_thirty_days_witness :
  "0123456789abcdef0123456789abcdef" <> "" /\
  - 2 ^ 63 <= unix (clk 1767225600) + sessionMaxAge < 2 ^ 63 /\
  validateSession "0123456789abcdef0123456789abcdef" (clk 1769817600)
    (Some (createSession "0123456789abcdef0123456789abcdef" (clk 1767225600)))
  = (unix (clk 1769817600) <=? unix (clk 1767225600) + 2592000).
Proof.
  assert ("0123456789abcdef0123456789abcdef" <> "") as H1 by discriminate.
  assert (- 2 ^ 63 <= unix (clk 1767225600) + sessionMaxAge < 2 ^ 63) as H2
    by (cbn; lia).
  split; [exact H1|]. split; [exact H2|].
  exact (proj1 (session_valid_for_thirty_days "hash" _ "" (clk 1767225600)
                  (clk 1769817600) H1 H2)).
Defined.

(** X11.  Boot tokens and session cookies are both signed with the one
    signing key, yet neither passes for the other: a [tok] value issued by
    [signURL] is never a valid session cookie, and a session cookie sent as
    [tok] is refused by [validateToken] whenever a key is set. *)
Theorem tokens_and_cookies_do_not_mix
  (s : Server) (key : string) (t0 now : Clock) (e : Z) (text : string) (r : Request) :
  validateSession key now (Some (token (signingKey s) e text)) = false /\
  (signingKey s <> "" ->
   Get "tok" (URL_Query r) = createSession key t0 ->
   validateToken s now r = false).
Proof.
  split.
  - unfold validateSession, token.
    destruct (String.length key =? 0)%nat; [reflexivity|].
    rewrite base64_round_trip. unfold strings.SplitN2.
    rewrite cut_none; [reflexivity|].
    rewrite !free_of_app, (FormatInt_free_of "|" e eq_refl eq_refl).
    rewrite (Encode_free_of "|") by (intros v; apply enc6_plain). reflexivity.
  - intros Hk Htok. unfold validateToken. rewrite (length_eqb_0 _ Hk), Htok.
    destruct (String.eqb (createSession key t0) ""); [reflexivity|].
    unfold createSession. rewrite base64_round_trip. unfold strings.SplitN2.
    rewrite cut_none; [reflexivity|].
    rewrite !free_of_app, (FormatInt_free_of "." _ eq_refl eq_refl).
    rewrite (Encode_free_of ".") by (intros v; apply enc6_plain). reflexivity.
Qed.

Lemma tokens_and_cookies_do_not_mix_witness :
  signingKey keyed_server <> "" /\
  Get "tok" (URL_Query (request_for callback_path
                          (createSession (signingKey keyed_server) (clk 1767225600))))
    = createSession (signingKey keyed_server) (clk 1767225600) /\
  validateToken keyed_server (clk 1767225610)
    (request_for callback_path
       (createSession (signingKey keyed_server) (clk 1767225600))) = false.
Proof.
  assert (signingKey keyed_server <> "") as H1 by discriminate.
  assert (Get "tok" (URL_Query (request_for callback_path
                          (createSession (signingKey keyed_server) (clk 1767225600))))
          = createSession (signingKey keyed_server) (clk 1767225600)) as H2
    by reflexivity.
  split; [exact H1|]. split; [exact H2|].
  exact (proj2 (tokens_and_cookies_do_not_mix keyed_server (signingKey keyed_server)
                  (clk 1767225600) (clk 1767225610) 0 "" _) H1 H2).
Defined.

(** ** Proxy DHCP replies *)

Import proxydhcp tftpserver.

(** X12.  The proxy-DHCP handler answers a packet exactly when it is a
    DISCOVER or a REQUEST whose vendor class starts with PXEClient or
    HTTPClient, and stays silent otherwise.  Its reply echoes the
    transaction id, hardware address, flags and relay address of the
    request, offers no address ([yiaddr] is 0.0.0.0), is an OFFER for a
    DISCOVER and an ACK for a REQUEST, names the server in option 54,
    repeats the client's kind in option 60 and carries the PXE vendor
    options (option 43) for PXE clients only. *)
Theorem proxy_reply_shape
  (IPString : safenet.IP -> string) (s : proxydhcp.Server) (xid : list Z)
  (pkt : DHCPv4) :
  let eligible :=
    ((MessageType pkt =? MessageTypeDiscover) || (MessageType pkt =? MessageTypeRequest))
    && (isPXEClient pkt || isHTTPBootClient pkt) in
  match handler IPString s xid pkt with
  | None => eligible = false
  | Some resp =>
      eligible = true /\
      TransactionID resp = TransactionID pkt /\
      ClientHWAddr resp = ClientHWAddr pkt /\
      Flags resp = Flags pkt /\
      GatewayIPAddr resp = GatewayIPAddr pkt /\
      YourIPAddr resp = safenet.IPv4zero /\
      MessageType resp = (if MessageType pkt =? MessageTypeRequest
                          then MessageTypeAck else MessageTypeOffer) /\
      OptGet OptionServerIdentifier (Opts resp)
        = Some (match safenet.To4 (ServerIP s) with Some x => x | None => [] end) /\
      OptGet OptionClassIdentifier (Opts resp)
        = Some (bytes_of (if isHTTPBootClient pkt then "HTTPClient" else "PXEClient")) /\
      OptGet OptionVendorSpecificInformation (Opts resp)
        = (if isHTTPBootClient pkt then None else Some vendorOpts)
  end.
Proof.
  intros eligible. subst eligible. unfold handler.
  destruct (MessageType pkt =? MessageTypeDiscover) eqn:Ed;
    destruct (MessageType pkt =? MessageTypeRequest) eqn:Er;
    cbn [negb andb orb]; try reflexivity;
    (destruct (isPXEClient pkt) eqn:Ep; destruct (isHTTPBootClient pkt) eqn:Eh;
     cbn [negb andb orb]; try reflexivity);
    set (bootFile := if isIPXEClient pkt then _ else _); clearbody bootFile;
    unfold NewReplyFromRequest, New, WithOptionCopied; cbn [app fold_left];
    destruct (OptGet OptionRelayAgentInformation (Opts pkt));
    destruct (OptGet OptionClientIdentifier (Opts _));
    repeat split.
Qed.

Lemma bootfile_of_reply IPString s xid pkt resp :
  handler IPString s xid pkt = Some resp ->
  let serverURL := if String.eqb (proxydhcp.ServerURL s) ""
                   then ("http://" ++ IPString (ServerIP s) ++ HTTPAddr s)%string
                   else proxydhcp.ServerURL s in
  let arch := clientArch pkt in
  OptGet OptionBootfileName (Opts resp)
  = Some (bytes_of
      (if isIPXEClient pkt then (serverURL ++ "/boot.ipxe?mac=${net0/mac}")%string
       else if isHTTPBootClient pkt then
         if arch =? EFI_ARM64 then (serverURL ++ "/ipxe-arm64.efi")%string
         else (serverURL ++ "/ipxe.efi")%string
       else
         if (arch =? EFI_X86_64) || (arch =? EFI_BC) then "ipxe.efi"
         else if arch =? EFI_ARM64 then "ipxe-arm64.efi"
         else "undionly.kpxe")).
Proof.
  unfold handler.
  destruct (negb _ && negb _); [discriminate|].
  destruct (negb (isPXEClient pkt) && negb (isHTTPBootClient pkt)); [discriminate|].
  intros H. injection H as <-. cbv zeta.
  set (bootFile := if isIPXEClient pkt then _ else _). clearbody bootFile.
  unfold NewReplyFromRequest, New, WithOptionCopied.
  destruct (isHTTPBootClient pkt); cbn [app fold_left];
    destruct (OptGet OptionRelayAgentInformation (Opts pkt));
    destruct (OptGet OptionClientIdentifier (Opts _));
    destruct (MessageType pkt =? MessageTypeRequest); reflexivity.
Qed.

(** X13.  Every boot file the proxy-DHCP handler advertises exists on
    this server.  A client that is not yet iPXE is given, over TFTP, a file
    name that the TFTP server's [files] map knows and, over HTTP Boot, the
    server URL followed by a route that serves a binary of that map; a
    client that already runs iPXE is pointed to [/boot.ipxe] with its MAC. *)
Theorem advertised_boot_files_are_served
  (IPString : safenet.IP -> string) (ReadFile : string -> result string)
  (s : proxydhcp.Server) (xid : list Z) (pkt resp : DHCPv4) :
  handler IPString s xid pkt = Some resp ->
  let serverURL := if String.eqb (proxydhcp.ServerURL s) ""
                   then ("http://" ++ IPString (ServerIP s) ++ HTTPAddr s)%string
                   else proxydhcp.ServerURL s in
  if isIPXEClient pkt
  then OptGet OptionBootfileName (Opts resp)
       = Some (bytes_of (serverURL ++ "/boot.ipxe?mac=${net0/mac}"))
  else
    exists name path,
      tftpserver.lookup name = Some path /\
      if isHTTPBootClient pkt
      then OptGet OptionBootfileName (Opts resp)
             = Some (bytes_of (serverURL ++ "/" ++ name)) /\
           exists ct, ipxe_route ReadFile ("/" ++ name)
                      = Some (serveIPXEBinary ReadFile name ct)
      else OptGet OptionBootfileName (Opts resp) = Some (bytes_of name).
Proof.
  intros H serverURL. rewrite (bootfile_of_reply IPString s xid pkt resp H).
  fold serverURL.
  destruct (isIPXEClient pkt); [reflexivity|].
  destruct (isHTTPBootClient pkt).
  - destruct (clientArch pkt =? EFI_ARM64).
    + exists "ipxe-arm64.efi", "ipxebin/ipxe-arm64.efi".
      split; [reflexivity|]. split; [reflexivity|]. eexists. reflexivity.
    + exists "ipxe.efi", "ipxebin/ipxe.efi".
      split; [reflexivity|]. split; [reflexivity|]. eexists. reflexivity.
  - destruct ((clientArch pkt =? EFI_X86_64) || (clientArch pkt =? EFI_BC)).
    + exists "ipxe.efi", "ipxebin/ipxe.efi". split; reflexivity.
    + destruct (clientArch pkt =? EFI_ARM64).
      * exists "ipxe-arm64.efi", "ipxebin/ipxe-arm64.efi". split; reflexivity.
      * exists "undionly.kpxe", "ipxebin/undionly.kpxe". split; reflexivity.
Qed.

Lemma advertised_boot_files_are_served_witness :
  handler dotted dhcp_server [0; 0; 0; 0] (discover "PXEClient" [0; 11])
    = Some arm64_reply /\
  exists name path,
    tftpserver.lookup name = Some path /\
    OptGet OptionBootfileName (Opts arm64_reply) = Some (bytes_of name).
Proof.
  assert (handler dotted dhcp_server [0; 0; 0; 0] (discover "PXEClient" [0; 11])
          = Some arm64_reply) as H by reflexivity.
  split; [exact H|].
  exact (advertised_boot_files_are_served dotted (fun _ => Ok "") dhcp_server
           [0; 0; 0; 0] (discover "PXEClient" [0; 11]) arm64_reply H).
Defined.

(** ** Signed URLs *)

Import httpserver.

Lemma signURL_path s t0 path :
  signingKey s <> "" -> free_of "?" path = true ->
  signURL s t0 path
  = (path ++ "?tok=" ++ token (signingKey s) (unix t0 + tokenExpiry) path)%string.
Proof.
  intros Hk Hq. unfold signURL. rewrite (length_eqb_0 _ Hk), (cut_none _ _ Hq).
  reflexivity.
Qed.

Lemma signURL_query s t0 path query :
  signingKey s <> "" -> free_of "?" path = true -> query <> "" ->
  signURL s t0 (path ++ "?" ++ query)
  = (path ++ "?" ++ query ++ "&tok="
     ++ token (signingKey s) (unix t0 + tokenExpiry) path)%string.
Proof.
  intros Hk Hq Hn. unfold signURL. rewrite (length_eqb_0 _ Hk).
  change ("?" ++ query)%string with (String "?" query).
  rewrite (cut_free "?" _ _ Hq).
  apply String.eqb_neq in Hn. rewrite Hn. reflexivity.
Qed.

(** X14.  A path signed by [signURL] verifies for one hour.  The
    [tok] value is appended to the path, after any query the text already
    has; a request for that path carrying that [tok] is accepted by
    [validateToken] exactly while the clock is at or before the signing
    time plus 3600 seconds, whatever else its query holds.  *)
Theorem signed_path_verifies_for_an_hour
  (s : Server) (t0 now : Clock) (path query : string) (r : Request) :
  signingKey s <> "" ->
  free_of "?" path = true ->
  - 2 ^ 63 <= unix t0 + 3600 < 2 ^ 63 ->
  URL_Path r = path ->
  Get "tok" (URL_Query r) = token (signingKey s) (unix t0 + 3600) path ->
  signURL s t0 path
    = (path ++ "?tok=" ++ token (signingKey s) (unix t0 + 3600) path)%string /\
  (query <> "" ->
   signURL s t0 (path ++ "?" ++ query)
     = (path ++ "?" ++ query ++ "&tok="
        ++ token (signingKey s) (unix t0 + 3600) path)%string) /\
  validateToken s now r = (unix now <=? unix t0 + 3600).
Proof.
  intros Hk Hq He Hp Htok. split; [exact (signURL_path s t0 path Hk Hq)|].
  split; [exact (signURL_query s t0 path query Hk Hq)|].
  rewrite (validateToken_of_token s now r _ _ Hk He Htok), Hp.
  unfold hmac.Equal. rewrite String.eqb_refl. apply andb_true_r.
Qed.

Lemma signed_path_verifies_for_an_hour_witness :
  let tok := token (signingKey keyed_server) (unix (clk 1767225600) + 3600) callback_path in
  signingKey keyed_server <> "" /\
  free_of "?" callback_path = true /\
  - 2 ^ 63 <= unix (clk 1767225600) + 3600 < 2 ^ 63 /\
  URL_Path (request_for callback_path tok) = callback_path /\
  Get "tok" (URL_Query (request_for callback_path tok)) = tok /\
  validateToken keyed_server (clk 1767229200) (request_for callback_path tok)
    = (unix (clk 1767229200) <=? unix (clk 1767225600) + 3600).
Proof.
  intros tok.
  assert (signingKey keyed_server <> "") as H1 by discriminate.
  assert (free_of "?" callback_path = true) as H2 by reflexivity.
  assert (- 2 ^ 63 <= unix (clk 1767225600) + 3600 < 2 ^ 63) as H3 by (cbn; lia).
  assert (URL_Path (request_for callback_path tok) = callback_path) as H4 by reflexivity.
  assert (Get "tok" (URL_Query (request_for callback_path tok)) = tok) as H5
    by reflexivity.
  repeat (split; [assumption|]).
  exact (proj2 (proj2 (signed_path_verifies_for_an_hour keyed_server (clk 1767225600)
                         (clk 1767229200) callback_path "" _ H1 H2 H3 H4 H5))).
Defined.

(** X15.  A token is bound to the text it was signed for and to its
    expiry.  Presented with a request, a token issued for the text [text]
    and the expiry [e] is accepted exactly when the clock has not passed
    [e] and the HMAC of [e|text] equals the HMAC of [e|path] for the path
    of the request; once the clock has passed [e] it is refused for every
    path. *)
Theorem token_is_bound_to_text_and_expiry
  (s : Server) (now : Clock) (r : Request) (e : Z) (text : string) :
  signingKey s <> "" ->
  - 2 ^ 63 <= e < 2 ^ 63 ->
  Get "tok" (URL_Query r) = token (signingKey s) e text ->
  validateToken s now r
    = (unix now <=? e)
      && String.eqb (hmac.Sum (signingKey s) (strconv.FormatInt e ++ "|" ++ text))
                    (hmac.Sum (signingKey s) (strconv.FormatInt e ++ "|" ++ URL_Path r)) /\
  (e < unix now -> validateToken s now r = false).
Proof.
  intros Hk He Htok.
  pose proof (validateToken_of_token s now r e text Hk He Htok) as H.
  unfold hmac.Equal in H. split; [exact H|].
  intros Hlt. rewrite H.
  replace (unix now <=? e) with false by (symmetry; apply Z.leb_gt; exact Hlt).
  reflexivity.
Qed.

Lemma token_is_bound_to_text_and_expiry_witness :
  let tok := token (signingKey keyed_server) 1767229200 callback_url in
  signingKey keyed_server <> "" /\
  - 2 ^ 63 <= 1767229200 < 2 ^ 63 /\
  Get "tok" (URL_Query (request_for callback_path tok)) = tok /\
  1767229200 < unix (clk 1767229201) /\
  validateToken keyed_server (clk 1767229201) (request_for callback_path tok) = false.
Proof.
  intros tok.
  assert (signingKey keyed_server <> "") as H1 by discriminate.
  assert (- 2 ^ 63 <= 1767229200 < 2 ^ 63) as H2 by lia.
  assert (Get "tok" (URL_Query (request_for callback_path tok)) = tok) as H3
    by reflexivity.
  assert (1767229200 < unix (clk 1767229201)) as H4 by (cbn; lia).
  repeat (split; [assumption|]).
  exact (proj2 (token_is_bound_to_text_and_expiry keyed_server (clk 1767229201)
                  (request_for callback_path tok) 1767229200 callback_url H1 H2 H3) H4).
Defined.

(** ** The SSRF guard and IPv4-mapped addresses *)

Import safenet.

Lemma To4_mapped a b c d : To4 (IPv4 a b c d) = Some [a; b; c; d].
Proof. reflexivity. Qed.

Lemma To4_four a b c d : To4 [a; b; c; d] = Some [a; b; c; d].
Proof. reflexivity. Qed.

(** X16.  The guard cannot be side-stepped by writing an IPv4 address
    in its IPv4-mapped IPv6 form: [isPrivateIP] gives the 16-byte address
    [::ffff:a.b.c.d] the verdict it gives the 4-byte address [a.b.c.d],
    and the dial is refused or allowed alike. *)
Theorem mapped_ipv4_is_judged_as_ipv4
  (SHP : string -> option (string * string)) (network addr : string)
  (a b c d : Z) (before after : list IP) :
  isPrivateIP (IPv4 a b c d) = isPrivateIP [a; b; c; d] /\
  SafeDialContext SHP (fun _ => db.Ok (before ++ IPv4 a b c d :: after)%list) network addr
  = SafeDialContext SHP (fun _ => db.Ok (before ++ [a; b; c; d] :: after)%list) network addr.
Proof.
  assert (isPrivateIP (IPv4 a b c d) = isPrivateIP [a; b; c; d]) as H.
  { unfold isPrivateIP, IsLoopback, IsLinkLocalUnicast, IsLinkLocalMulticast,
      IsUnspecified, Contains.
    rewrite To4_mapped, To4_four. reflexivity. }
  split; [exact H|].
  unfold SafeDialContext. destruct (SHP addr) as [[host port]|]; [|reflexivity].
  assert (forall l1 l2 : list IP,
            find isPrivateIP (l1 ++ IPv4 a b c d :: l2)%list = None <->
            find isPrivateIP (l1 ++ [a; b; c; d] :: l2)%list = None) as Hn.
  { intros l1 l2. induction l1 as [|x l1 IH]; cbn [app find].
    - rewrite H. destruct (isPrivateIP [a; b; c; d]); [split; discriminate | reflexivity].
    - destruct (isPrivateIP x); [reflexivity | exact IH]. }
  specialize (Hn before after).
  destruct (find isPrivateIP (before ++ IPv4 a b c d :: after)%list) eqn:E1;
    destruct (find isPrivateIP (before ++ [a; b; c; d] :: after)%list) eqn:E2;
    try reflexivity.
  - destruct Hn as [_ Hn]. specialize (Hn eq_refl). discriminate Hn.
  - destruct Hn as [Hn _]. specialize (Hn eq_refl). discriminate Hn.
Qed.

(** ** The content hash and the order of the files *)

Import catalog.

Lemma byte_of_inj x y : byte_of x = byte_of y -> x = y.
Proof.
  intros H. rewrite <- (ascii_of_byte_of x), <- (ascii_of_byte_of y), H. reflexivity.
Qed.

Lemma ltb_irrefl a : ltb a a = false.
Proof.
  induction a as [|x a IH]; [reflexivity|].
  cbn. rewrite Z.ltb_irrefl. exact IH.
Qed.

Lemma ltb_trans a : forall b c, ltb a b = true -> ltb b c = true -> ltb a c = true.
Proof.
  induction a as [|x a IH]; intros [|y b] [|z c]; cbn; try discriminate; try reflexivity.
  destruct (byte_of x <? byte_of y) eqn:E1.
  - intros _. destruct (byte_of y <? byte_of z) eqn:E2.
    + intros _. replace (byte_of x <? byte_of z) with true; [reflexivity|].
      symmetry. apply Z.ltb_lt. apply Z.ltb_lt in E1, E2. lia.
    + destruct (byte_of z <? byte_of y) eqn:E3; [discriminate|].
      intros _. replace (byte_of x <? byte_of z) with true; [reflexivity|].
      symmetry. apply Z.ltb_lt. apply Z.ltb_lt in E1. apply Z.ltb_ge in E2, E3. lia.
  - destruct (byte_of y <? byte_of x) eqn:E1'; [discriminate|].
    assert (byte_of x = byte_of y) as Exy by (apply Z.ltb_ge in E1, E1'; lia).
    rewrite Exy. intros Hab.
    destruct (byte_of y <? byte_of z); [reflexivity|].
    destruct (byte_of z <? byte_of y); [discriminate|].
    apply IH. exact Hab.
Qed.

Lemma ltb_total a : forall b, a <> b -> ltb a b = true \/ ltb b a = true.
Proof.
  induction a as [|x a IH]; intros [|y b] Hne; cbn; auto; try (exfalso; congruence).
  destruct (byte_of x <? byte_of y) eqn:E1; [auto|].
  destruct (byte_of y <? byte_of x) eqn:E2; [auto|].
  assert (x = y) as -> by (apply byte_of_inj; apply Z.ltb_ge in E1, E2; lia).
  apply IH. congruence.
Qed.

Lemma name_lt_asym f g : name_lt f g -> name_lt g f -> False.
Proof.
  unfold name_lt. intros H1 H2.
  pose proof (ltb_trans _ _ _ H1 H2) as H. rewrite ltb_irrefl in H. discriminate H.
Qed.

Lemma In_insert x f l : In x (insert f l) <-> x = f \/ In x l.
Proof.
  induction l as [|g l IH]; cbn; [intuition congruence|].
  destruct (ltb (FName f) (FName g)); cbn; [intuition congruence|].
  rewrite IH. intuition congruence.
Qed.

Lemma insert_sorted f l :
  StronglySorted name_lt l -> ~ In (FName f) (map FName l) ->
  StronglySorted name_lt (insert f l).
Proof.
  induction l as [|g l IH]; cbn [insert map]; intros Hs Hn.
  - constructor; constructor.
  - inversion Hs as [|g' l' Hl Hg]; subst.
    destruct (ltb (FName f) (FName g)) eqn:E.
    + constructor; [exact Hs|]. constructor; [exact E|].
      eapply Forall_impl; [|exact Hg]. intros h Hh. unfold name_lt in *.
      exact (ltb_trans _ _ _ E Hh).
    + assert (name_lt g f) as Hgf.
      { destruct (ltb_total (FName f) (FName g)) as [H|H]; [|congruence|exact H].
        intros Heq. apply Hn. left. symmetry. exact Heq. }
      constructor.
      * apply IH; [exact Hl|]. intros Hin. apply Hn. right. exact Hin.
      * apply Forall_forall. intros h Hh. apply In_insert in Hh.
        destruct Hh as [->|Hh]; [exact Hgf|].
        rewrite Forall_forall in Hg. exact (Hg h Hh).
Qed.

Lemma fold_insert_sorted l : forall acc,
  StronglySorted name_lt acc -> NoDup (map FName (acc ++ l)) ->
  StronglySorted name_lt (fold_left (fun acc f => insert f acc) l acc) /\
  (forall x, In x (fold_left (fun acc f => insert f acc) l acc) <-> In x acc \/ In x l).
Proof.
  induction l as [|f l IH]; intros acc Hs Hn; cbn [fold_left].
  - split; [exact Hs|]. intros x. cbn. tauto.
  - assert (~ In (FName f) (map FName acc)) as Hf.
    { rewrite map_app in Hn. cbn [map] in Hn. apply NoDup_remove_2 in Hn.
      intros Hin. apply Hn. apply in_or_app. left. exact Hin. }
    destruct (IH (insert f acc)) as [H1 H2].
    + apply insert_sorted; assumption.
    + rewrite map_app in *. cbn [map] in Hn.
      eapply Permutation_NoDup; [|exact Hn].
      apply Permutation_sym. eapply Permutation_trans.
      * apply Permutation_app_tail. apply Permutation_map.
        instantiate (1 := f :: acc).
        clear. induction acc as [|g acc IH]; cbn; [apply Permutation_refl|].
        destruct (ltb (FName f) (FName g)); [apply Permutation_refl|].
        eapply Permutation_trans; [apply perm_skip; exact IH | apply perm_swap].
      * cbn [map app]. apply Permutation_middle.
    + split; [exact H1|]. intros x. rewrite H2, In_insert. cbn [In]. intuition congruence.
Qed.

Lemma sorted_unique (l1 : list File) : forall l2,
  StronglySorted name_lt l1 -> StronglySorted name_lt l2 ->
  (forall x, In x l1 <-> In x l2) -> l1 = l2.
Proof.
  induction l1 as [|a t1 IH]; intros [|b t2] H1 H2 Hin.
  - reflexivity.
  - exfalso. apply (Hin b). left. reflexivity.
  - exfalso. apply (Hin a). left. reflexivity.
  - inversion H1 as [|a' t1' Ht1 Ha]; inversion H2 as [|b' t2' Ht2 Hb]; subst.
    rewrite Forall_forall in Ha, Hb.
    assert (a = b) as ->.
    { destruct (proj1 (Hin a) (or_introl eq_refl)) as [E|E]; [congruence|].
      destruct (proj2 (Hin b) (or_introl eq_refl)) as [E'|E']; [congruence|].
      exfalso. exact (name_lt_asym _ _ (Ha b E') (Hb a E)). }
    f_equal. apply IH; try assumption.
    intros x. split; intros Hx.
    + destruct (proj1 (Hin x) (or_intror Hx)) as [E|E]; [|exact E].
      subst x. exfalso. exact (name_lt_asym _ _ (Ha b Hx) (Ha b Hx)).
    + destruct (proj2 (Hin x) (or_intror Hx)) as [E|E]; [|exact E].
      subst x. exfalso. exact (name_lt_asym _ _ (Hb b Hx) (Hb b Hx)).
Qed.

Lemma sortFiles_permutation fs1 fs2 :
  Permutation fs1 fs2 -> NoDup (map FName fs1) -> sortFiles fs1 = sortFiles fs2.
Proof.
  intros Hp Hn. unfold sortFiles.
  destruct (fold_insert_sorted fs1 [] (SSorted_nil _) Hn) as [S1 I1].
  assert (NoDup (map FName fs2)) as Hn2
    by (eapply Permutation_NoDup; [apply Permutation_map; exact Hp | exact Hn]).
  destruct (fold_insert_sorted fs2 [] (SSorted_nil _) Hn2) as [S2 I2].
  apply sorted_unique; try assumption.
  intros x. rewrite I1, I2. cbn [In]. split; intros [[]|H]; right.
  - eapply Permutation_in; [exact Hp | exact H].
  - eapply Permutation_in; [apply Permutation_sym; exact Hp | exact H].
Qed.

(** X17.  The content hash does not depend on the order in which a
    manifest lists its files: two entries whose files are the same up to
    order, with no file name used twice, have the same hash. *)
Theorem hash_ignores_file_order (e : Entry) (fs1 fs2 : list File) :
  Permutation fs1 fs2 -> NoDup (map FName fs1) ->
  Hash (with_files fs1 e) = Hash (with_files fs2 e).
Proof.
  intros Hp Hn. unfold Hash, hash_input, has_extended, base_input, extended_input.
  cbn [with_files Files Name Description Version Arch BootType Cmdline IPXEScript
       OSFamily KernelParams ConfigTemplate Vars].
  rewrite (sortFiles_permutation fs1 fs2 Hp Hn). reflexivity.
Qed.

Lemma hash_ignores_file_order_witness :
  Permutation (Files u24_entry) (rev (Files u24_entry)) /\
  NoDup (map FName (Files u24_entry)) /\
  Hash (with_files (Files u24_entry) u24_entry)
  = Hash (with_files (rev (Files u24_entry)) u24_entry).
Proof.
  assert (Permutation (Files u24_entry) (rev (Files u24_entry))) as H1
    by apply Permutation_rev.
  assert (NoDup (map FName (Files u24_entry))) as H2.
  { cbn. constructor; [cbn; intros [H|[]]; discriminate H|].
    constructor; [intros []|constructor]. }
  split; [exact H1|]. split; [exact H2|].
  exact (hash_ignores_file_order u24_entry _ _ H1 H2).
Defined.

Lemma insert_map (h : File -> File) f l :
  (forall g, FName (h g) = FName g) ->
  insert (h f) (map h l) = map h (insert f l).
Proof.
  intros Hh. induction l as [|g l IH]; [reflexivity|].
  cbn [map insert]. rewrite !Hh.
  destruct (ltb (FName f) (FName g)); [reflexivity|].
  cbn [map]. rewrite IH. reflexivity.
Qed.

Lemma sortFiles_map (h : File -> File) l :
  (forall g, FName (h g) = FName g) ->
  sortFiles (map h l) = map h (sortFiles l).
Proof.
  intros Hh. unfold sortFiles.
  change (@nil File) with (map h []) at 1. generalize (@nil File).
  induction l as [|f l IH]; intros acc; [reflexivity|].
  cbn [map fold_left]. rewrite (insert_map h f acc Hh). apply IH.
Qed.

(** X18.  The checksums of the files and the presentation of the
    variables are not part of the content hash: giving the files other
    [sha256] values, and the variables other labels, types, descriptions,
    required flags or options while their keys and defaults stay, leaves
    [Entry.Hash] unchanged. *)
Theorem hash_ignores_checksums_and_var_presentation
  (e : Entry) (sha : File -> string) (present : VarDef -> VarDef) :
  (forall v, Key (present v) = Key v /\ Default (present v) = Default v) ->
  Hash (with_vars (map present (Vars e))
          (with_files (map (rechecksum sha) (Files e)) e))
  = Hash e.
Proof.
  intros Hv. unfold Hash, hash_input, has_extended, base_input, extended_input.
  cbn [with_vars with_files Files Name Description Version Arch BootType Cmdline
       IPXEScript OSFamily KernelParams ConfigTemplate Vars].
  rewrite (sortFiles_map (rechecksum sha)) by reflexivity.
  rewrite !map_map, length_map. cbn [rechecksum FName FURL].
  assert (map (fun v => (field (Key (present v)) ++ field (Default (present v)))%string)
              (Vars e)
          = map (fun v => (field (Key v) ++ field (Default v))%string) (Vars e)) as ->.
  { apply map_ext. intros v. destruct (Hv v) as [-> ->]. reflexivity. }
  reflexivity.
Qed.

Lemma hash_ignores_checksums_and_var_presentation_witness :
  (forall v : VarDef, Key ((fun w => w) v) = Key v /\ Default ((fun w => w) v) = Default v) /\
  Hash (with_vars (map (fun w => w) (Vars u24_entry))
          (with_files (map (rechecksum (fun _ => "00ff")) (Files u24_entry)) u24_entry))
  = Hash u24_entry.
Proof.
  assert (forall v : VarDef,
            Key ((fun w => w) v) = Key v /\ Default ((fun w => w) v) = Default v) as H
    by (intros v; split; reflexivity).
  split; [exact H|].
  exact (hash_ignores_checksums_and_var_presentation u24_entry (fun _ => "00ff")
           (fun w => w) H).
Defined.

(** ** Webhooks *)

Import db httpserver dispatcher.

Lemma Split_nonempty s sep : Split s sep <> [].
Proof.
  destruct s as [|c r]; cbn; [discriminate|].
  destruct (Ascii.eqb c sep); [discriminate|].
  destruct (Split r sep); discriminate.
Qed.

Lemma Split_app p q sep :
  Split (p ++ String sep q) sep = (Split p sep ++ Split q sep)%list.
Proof.
  induction p as [|c r IH]; cbn [append Split].
  - rewrite Ascii.eqb_refl. reflexivity.
  - destruct (Ascii.eqb c sep); [rewrite IH; reflexivity|].
    rewrite IH. pose proof (Split_nonempty r sep) as Hn.
    destruct (Split r sep) as [|h t]; [congruence | reflexivity].
Qed.

Lemma comma_list_not_wildcard p q : String.eqb (p ++ String "," q) "*" = false.
Proof.
  apply String.eqb_neq. destruct p as [|c [|c' r]]; cbn; discriminate.
Qed.

(** X19.  In a webhook's event filter the wildcard counts only when it
    is the whole filter.  The pattern [*] matches every event type; a
    pattern with a comma matches exactly the types it lists, so that [*]
    as one entry among others matches only an event type that is literally
    [*]. *)
Theorem wildcard_only_when_alone (p q t : string) :
  matchEvent "*" t = true /\
  matchEvent (p ++ "," ++ q) t = listed p t || listed q t /\
  matchEvent ("*," ++ q) t = String.eqb "*" t || listed q t.
Proof.
  assert (forall a b, matchEvent (a ++ "," ++ b) t = listed a t || listed b t) as H.
  { intros a b. unfold matchEvent, listed.
    change ("," ++ b)%string with (String "," b).
    rewrite comma_list_not_wildcard, Split_app, existsb_app. reflexivity. }
  split; [reflexivity|]. split; [apply H|].
  change ("*," ++ q)%string with ("*" ++ "," ++ q)%string. rewrite H.
  f_equal. unfold listed. change (Split "*" ",") with ["*"]. cbn [existsb].
  change (TrimSpace "*") with "*". apply orb_false_r.
Qed.

(** X20.  A webhook created without an event filter is subscribed to
    everything: [handleCreateWebhook] stores the filter [*], the row is
    enabled, and from then on the worker delivers every event, of whatever
    type, to it after the webhooks that received it before. *)
Theorem new_webhook_without_filter_gets_every_event
  (webhook_row : Webhook -> string) (t : Table) (r : Request) (e : webhook.Event) :
  TrimSpace (Get "url" (Form r)) <> "" ->
  Get "events" (Form r) = "" ->
  recipients (snd (handleCreateWebhook webhook_row t r)) e
  = (recipients t e ++
     [ {| WID := seq t + 1; URL := TrimSpace (Get "url" (Form r));
          Secret := Get "secret" (Form r); Events := "*"; Enabled := true |} ])%list.
Proof.
  intros Hu He. unfold handleCreateWebhook. rewrite He.
  apply String.eqb_neq in Hu. rewrite Hu. cbn [String.eqb].
  unfold CreateWebhook.
  match goal with |- context [GetWebhook ?t' ?i] => destruct (GetWebhook t' i) end;
    cbn [snd]; unfold recipients, ListEnabledWebhooks; cbn [rows];
    rewrite !filter_app; reflexivity.
Qed.

Lemma new_webhook_without_filter_gets_every_event_witness :
  let r := {| URL_Path := "/webhooks"; URL_Query := []; PathValues := [];
              Form := [("url", " https://hooks.example/duh "); ("secret", "s3")];
              RemoteAddr := "10.0.0.9:50000"; Host := "10.0.0.1:8080" |} in
  let t := {| rows := []; seq := 0 |} in
  TrimSpace (Get "url" (Form r)) <> "" /\
  Get "events" (Form r) = "" /\
  map URL (recipients (snd (handleCreateWebhook (fun w => URL w) t r))
             (system_event (clk 1767225600)
                (machine 1 "aa:bb:cc:dd:ee:ff" "node01" (Some 1) "queued") "queued"))
  = ["https://hooks.example/duh"].
Proof.
  intros r t.
  assert (TrimSpace (Get "url" (Form r)) <> "") as H1 by (vm_compute; discriminate).
  assert (Get "events" (Form r) = "") as H2 by reflexivity.
  split; [exact H1|]. split; [exact H2|].
  rewrite (new_webhook_without_filter_gets_every_event (fun w => URL w) t r _ H1 H2).
  vm_compute. reflexivity.
Defined.

Lemma Fire_length ch now e :
  (List.length ch <= capacity)%nat -> (List.length (Fire ch now e) <= capacity)%nat.
Proof.
  intros H. unfold Fire. destruct (List.length ch <? capacity)%nat eqn:E; [|exact H].
  apply Nat.ltb_lt in E. rewrite length_app. cbn. lia.
Qed.

Lemma burst_keeps_the_first now evs : forall ch,
  fold_left (fun c e => Fire c now e) evs ch
  = (ch ++ firstn (capacity - List.length ch) (map (stamp now) evs))%list.
Proof.
  induction evs as [|e evs IH]; intros ch; cbn [fold_left map].
  - rewrite firstn_nil, app_nil_r. reflexivity.
  - rewrite IH. unfold Fire.
    destruct (List.length ch <? capacity)%nat eqn:E.
    + apply Nat.ltb_lt in E. rewrite length_app. cbn [List.length].
      destruct (capacity - List.length ch)%nat as [|k] eqn:Ek; [lia|].
      replace (capacity - (List.length ch + 1))%nat with k by lia.
      cbn [firstn]. rewrite <- app_assoc. reflexivity.
    + apply Nat.ltb_ge in E.
      replace (capacity - List.length ch)%nat with O by lia. reflexivity.
Qed.

(** X21.  The event channel holds at most 100 events and never blocks
    a handler.  Whatever the order in which handlers fire events and the
    worker takes them, the channel never holds more than 100; an event
    fired while 100 are waiting is dropped and the waiting ones are kept;
    so of a burst fired while the worker is busy, exactly the first 100
    events survive, in the order they were fired. *)
Theorem event_channel_is_bounded
  (ops : list chan_op) (now : Clock) (e : webhook.Event)
  (evs ch : list webhook.Event) :
  (List.length (fold_left chan_step ops []) <= 100)%nat /\
  (List.length ch = 100%nat -> Fire ch now e = ch) /\
  ((List.length ch < 100)%nat -> Fire ch now e = (ch ++ [stamp now e])%list) /\
  fold_left (fun c ev => Fire c now ev) evs [] = firstn 100 (map (stamp now) evs).
Proof.
  repeat split.
  - assert (forall c, (List.length c <= capacity)%nat ->
                      (List.length (fold_left chan_step ops c) <= capacity)%nat) as H.
    { induction ops as [|op ops IH]; intros c Hc; [exact Hc|].
      cbn [fold_left]. apply IH. destruct op as [t ev|]; cbn [chan_step].
      - apply Fire_length. exact Hc.
      - destruct c as [|x c]; cbn in *; lia. }
    apply H. cbn. unfold capacity. lia.
  - intros H. unfold Fire. rewrite H. reflexivity.
  - intros H. unfold Fire. apply Nat.ltb_lt in H. unfold capacity. rewrite H. reflexivity.
  - rewrite burst_keeps_the_first. reflexivity.
Qed.

(** ** MAC addresses *)

Import db httpserver handlers sysops crud.

Lemma canon_length c0 c1 c2 c3 c4 c5 c6 c7 c8 c9 c10 c11 :
  String.length (canon c0 c1 c2 c3 c4 c5 c6 c7 c8 c9 c10 c11) = 17%nat.
Proof. reflexivity. Qed.

(** X22.  Whatever spelling [normalizeMAC] accepts, its result is the
    canonical one: seventeen characters, six pairs of lowercase
    hexadecimal digits joined by colons.  Normalising the result again
    returns it unchanged, and looking a machine up by the spelling or by
    the result finds the same row. *)
Theorem normalizeMAC_is_canonical (mac m : string) :
  normalizeMAC mac = Ok m ->
  String.length m = 17%nat /\
  (exists c0 c1 c2 c3 c4 c5 c6 c7 c8 c9 c10 c11,
     m = canon c0 c1 c2 c3 c4 c5 c6 c7 c8 c9 c10 c11 /\
     forallb is_hex (map byte_of [c0; c1; c2; c3; c4; c5; c6; c7; c8; c9; c10; c11])
       = true) /\
  normalizeMAC m = Ok m /\
  (forall d, GetSystemByMAC d mac = GetSystemByMAC d m).
Proof.
  intros H.
  destruct (normalizeMAC_shape mac m H)
    as (c0 & c1 & c2 & c3 & c4 & c5 & c6 & c7 & c8 & c9 & c10 & c11 & E & Hh).
  pose proof (normalizeMAC_idem mac m H) as Hi.
  split; [rewrite E; apply canon_length|].
  split; [exists c0, c1, c2, c3, c4, c5, c6, c7, c8, c9, c10, c11; auto|].
  split; [exact Hi|].
  intros d. unfold GetSystemByMAC. rewrite H, Hi. reflexivity.
Qed.

Lemma normalizeMAC_is_canonical_witness :
  normalizeMAC " AABB.CCDD.EEFF " = Ok "aa:bb:cc:dd:ee:ff" /\
  normalizeMAC "aa:bb:cc:dd:ee:ff" = Ok "aa:bb:cc:dd:ee:ff".
Proof.
  assert (normalizeMAC " AABB.CCDD.EEFF " = Ok "aa:bb:cc:dd:ee:ff") as H
    by (vm_compute; reflexivity).
  split; [exact H|].
  exact (proj1 (proj2 (proj2 (normalizeMAC_is_canonical _ _ H)))).
Defined.

(** ** Machines created by the operator *)

(** X23.  A machine that the operator creates is not registered a
    second time when it first boots, and cannot be created twice.  POST
    /systems for a new MAC answers 200, adds one discovered row with the
    canonical MAC and fires one [system.discovered] event; the machine's
    first boot request, under any spelling of the MAC, gets the exit
    script, adds no row and fires nothing; a second POST /systems for the
    MAC is answered 400. *)
Theorem created_machine_is_not_registered_again
  (SHP : string -> option (string * string))
  (render : Server -> Clock -> Request -> System -> Image -> option string)
  (row_new : System -> string)
  (s : Server) (t1 t2 t3 : Clock) (r1 r2 : Request) (m : string) :
  normalizeMAC (Get "mac" (Form r1)) = Ok m ->
  normalizeMAC (Get "mac" (URL_Query r2)) = Ok m ->
  find (by_mac m) (systems (DB_ s)) = None ->
  let out1 := handleCreateSystem row_new s t1 r1 in
  let out2 := handleBootScript SHP render (snd out1) t2 r2 in
  let out3 := handleCreateSystem row_new (snd out2) t3 r1 in
  let created := created_row (systems_seq (DB_ s) + 1) m (Get "hostname" (Form r1))
                             (datetime t1) in
  status (fst out1) = 200 /\
  fst out2 = text ipxe.ExitScript /\
  systems (DB_ (snd out2))
    = (systems (DB_ s) ++ [touch (clientAddr SHP r2) (datetime t2) created])%list /\
  map webhook.Type_ (fired (snd out2))
    = (map webhook.Type_ (fired s) ++ ["system.discovered"])%list /\
  status (fst out3) = 400 /\ snd out3 = snd out2.
Proof.
  intros Hm1 Hm2 Hf out1 out2 out3 created.
  assert (String.eqb (Get "mac" (Form r1)) "" = false) as Hne.
  { apply String.eqb_neq. intros E. rewrite E in Hm1. discriminate Hm1. }
  assert (out1 = (html (row_new (created_value (systems_seq (DB_ s) + 1) m
                                   (Get "hostname" (Form r1)))),
                  {| DB_ := {| systems := systems (DB_ s) ++ [created];
                               systems_seq := systems_seq (DB_ s) + 1;
                               images := images (DB_ s);
                               settings := settings (DB_ s) |};
                     httpserver.ServerURL := httpserver.ServerURL s;
                     signingKey := signingKey s;
                     fired := fired s ++
                       [system_event t1 (created_value (systems_seq (DB_ s) + 1) m
                                           (Get "hostname" (Form r1))) "discovered"] |}))
    as E1.
  { subst out1. unfold handleCreateSystem, CreateSystem.
    rewrite Hne, Hm1, (existsb_find_none _ _ Hf). reflexivity. }
  assert (find (by_mac m) (systems (DB_ (snd out1))) = Some created) as Hf1.
  { rewrite E1. cbn [snd DB_ systems]. apply find_app_none; [exact Hf|].
    unfold by_mac. cbn. apply String.eqb_refl. }
  assert (not_bootable created) as Hn by (left; reflexivity).
  pose proof (boot_idle_mac SHP render (snd out1) t2 r2 m created Hm2 Hf1 Hn) as E2.
  fold out2 in E2.
  assert (systems (DB_ (snd out2))
          = (systems (DB_ s) ++ [touch (clientAddr SHP r2) (datetime t2) created])%list)
    as Hrows.
  { rewrite E2, E1. cbn [snd with_db DB_ with_systems systems].
    unfold update_where. cbn [fst]. rewrite map_app. cbn [map].
    replace (by_mac m created) with true
      by (symmetry; unfold by_mac; cbn; apply String.eqb_refl).
    rewrite (map_guard_id _ _ _ (proj1 (find_filter_nil _ _) Hf)). reflexivity. }
  split; [rewrite E1; reflexivity|].
  split; [rewrite E2; reflexivity|].
  split; [exact Hrows|].
  split; [rewrite E2, E1; cbn [snd with_db fired]; rewrite map_app; reflexivity|].
  subst out3. unfold handleCreateSystem, CreateSystem. rewrite Hne, Hm1, Hrows.
  rewrite existsb_app. cbn [existsb].
  replace (by_mac m (touch (clientAddr SHP r2) (datetime t2) created)) with true
    by (symmetry; unfold by_mac; cbn; apply String.eqb_refl).
  rewrite orb_true_r. cbn [orb].
  split; [reflexivity | apply with_db_same].
Qed.

Lemma created_machine_is_not_registered_again_witness :
  let r1 := {| URL_Path := "/systems"; URL_Query := []; PathValues := [];
               Form := [("mac", "AA-BB-CC-DD-EE-FF"); ("hostname", "node01")];
               RemoteAddr := "10.0.0.9:50000"; Host := "10.0.0.1:8080" |} in
  let r2 := boot_request "aabb.ccdd.eeff" in
  let s := server_with [] "" in
  normalizeMAC (Get "mac" (Form r1)) = Ok "aa:bb:cc:dd:ee:ff" /\
  normalizeMAC (Get "mac" (URL_Query r2)) = Ok "aa:bb:cc:dd:ee:ff" /\
  find (by_mac "aa:bb:cc:dd:ee:ff") (systems (DB_ s)) = None /\
  status (fst (handleCreateSystem (fun sys => MAC sys)
                 (snd (handleBootScript split_last_colon sample_render
                         (snd (handleCreateSystem (fun sys => MAC sys) s
                                 (clk 1767225600) r1))
                         (clk 1767225700) r2))
                 (clk 1767225800) r1)) = 400.
Proof.
  intros r1 r2 s.
  assert (normalizeMAC (Get "mac" (Form r1)) = Ok "aa:bb:cc:dd:ee:ff") as H1
    by (vm_compute; reflexivity).
  assert (normalizeMAC (Get "mac" (URL_Query r2)) = Ok "aa:bb:cc:dd:ee:ff") as H2
    by (vm_compute; reflexivity).
  assert (find (by_mac "aa:bb:cc:dd:ee:ff") (systems (DB_ s)) = None) as H3
    by reflexivity.
  repeat (split; [assumption|]).
  exact (proj1 (proj2 (proj2 (proj2 (proj2
           (created_machine_is_not_registered_again split_last_colon sample_render
              (fun sys => MAC sys) s (clk 1767225600) (clk 1767225700)
              (clk 1767225800) r1 r2 _ H1 H2 H3)))))).
Defined.

(** ** File names that reach the file system *)

Import files.

Lemma until_slash_free l : forallb (fun c => negb (is_slash c)) (until_slash l) = true.
Proof.
  induction l as [|c r IH]; [reflexivity|].
  cbn [until_slash]. destruct (is_slash c) eqn:E; [reflexivity|].
  cbn [forallb]. rewrite E. exact IH.
Qed.

Lemma forallb_rev {A} (p : A -> bool) l : forallb p (rev l) = forallb p l.
Proof.
  induction l as [|a l IH]; [reflexivity|].
  cbn [rev forallb]. rewrite forallb_app, IH. cbn. rewrite andb_true_r. apply andb_comm.
Qed.

Lemma free_of_list l :
  forallb (fun c => negb (is_slash c)) l = true ->
  free_of "/" (string_of_list_ascii l) = true.
Proof.
  induction l as [|c l IH]; [reflexivity|].
  cbn [forallb string_of_list_ascii free_of]. intros H.
  apply andb_prop in H. destruct H as [Hc Hl]. unfold is_slash in Hc.
  rewrite Hc. exact (IH Hl).
Qed.

Lemma Base_element path :
  Base path <> "" /\ (Base path = "/" \/ free_of "/" (Base path) = true).
Proof.
  unfold Base. destruct (String.eqb path ""); [split; [discriminate | right; reflexivity]|].
  pose proof (until_slash_free (drop_slashes (rev (list_ascii_of_string path)))) as H.
  rewrite <- forallb_rev in H.
  destruct (rev (until_slash _)) as [|c e]; [split; [discriminate | left; reflexivity]|].
  split; [discriminate|]. right. apply free_of_list. exact H.
Qed.

(** X24.  No request makes the image-file or overlay-file handler read
    outside the directory of the image or profile it names.  Whatever the
    [name] of the request path, the name handed to [http.ServeFile] is a
    single path element: it is not empty, not [.] and not [..], and it has
    no slash unless it is [/] alone; the directory it is joined to is the
    data directory, then [images] or [profiles], then the decimal id. *)
Theorem served_file_stays_in_its_directory
  (s : Server) (dataDir kind : string) (now : Clock) (r : Request)
  (dir : list string) (name : string) :
  serve_under s dataDir kind now r = ServeFile dir name ->
  (exists idNum, strconv.ParseInt (Get "id" (PathValues r)) = Some idNum /\
                 dir = [dataDir; kind; strconv.FormatInt idNum]) /\
  name = Base (Get "name" (PathValues r)) /\
  name <> "" /\ name <> "." /\ name <> ".." /\
  (name = "/" \/ free_of "/" name = true).
Proof.
  unfold serve_under. destruct (negb _); [discriminate|].
  destruct (strconv.ParseInt _) as [idNum|]; [|discriminate].
  destruct (String.eqb (Base _) ".") eqn:E1; [discriminate|].
  destruct (String.eqb (Base _) "..") eqn:E2; [discriminate|].
  cbn [orb]. intros H. injection H as <- <-.
  apply String.eqb_neq in E1, E2.
  destruct (Base_element (Get "name" (PathValues r))) as [Hn Hs].
  split; [exists idNum; split; reflexivity|]. auto.
Qed.

Lemma served_file_stays_in_its_directory_witness :
  let r := {| URL_Path := "/images/3/file/..%2F..%2Fduh.db"; URL_Query := [];
              PathValues := [("id", "3"); ("name", "../../duh.db")]; Form := [];
              RemoteAddr := "10.0.0.7:49152"; Host := "10.0.0.1:8080" |} in
  handleServeImageFile (server_with [] "") "/var/lib/duh" (clk 1767225600) r
    = ServeFile ["/var/lib/duh"; "images"; "3"] "duh.db" /\
  (("duh.db" : string) = "/" \/ free_of "/" "duh.db" = true).
Proof.
  intros r.
  assert (serve_under (server_with [] "") "/var/lib/duh" "images" (clk 1767225600) r
          = ServeFile ["/var/lib/duh"; "images"; "3"] "duh.db") as H by reflexivity.
  split; [exact H|].
  exact (proj2 (proj2 (proj2 (proj2 (proj2
           (served_file_stays_in_its_directory _ _ _ _ _ _ _ H)))))).
Defined.
